(** * The model lifecycle and prediction service of prismai-platform

    A shallow embedding of [ml_service/preprocessing.py],
    [ml_service/model_training.py] and [ml_service/prediction_service.py].

    Conventions of the embedding.
    - Python floats are exact rationals ([Q]); the only non-finite values
      the embedded code can produce come from numpy's division by zero,
      which is written out ([npfloat]).
    - A call that may raise is a computation in the exception monad
      [outcome]; [try ... except Exception] is [try_except].
    - The estimators, the imputers, the feature selectors, the file system
      and the clock are collaborators of the code; they are record fields
      or section variables, never fixed to one behaviour unless the
      library documents it. *)

From Stdlib Require Import String Ascii List Bool NArith ZArith QArith Qabs Lia Lqa.
From Stdlib Require Import DecimalString Sorted.
Import ListNotations.

Set Implicit Arguments.

(** ** Python primitives *)

Module Py.

(** Exceptions carry the class name and the message of [str(e)]. *)
Record exn := Exn { exn_class : string; exn_msg : string }.

Inductive outcome (A : Type) : Type :=
| Returned (a : A)
| Raised (e : exn).

Arguments Returned {A} a.
Arguments Raised {A} e.

Definition bind {A B} (c : outcome A) (k : A -> outcome B) : outcome B :=
  match c with
  | Returned a => k a
  | Raised e => Raised e
  end.

Definition try_except {A} (body : outcome A) (handler : exn -> outcome A) : outcome A :=
  match body with
  | Returned a => Returned a
  | Raised e => handler e
  end.

Definition ValueError (msg : string) : exn := Exn "ValueError" msg.

Declare Scope py_scope.
Delimit Scope py_scope with py.
Notation "x <- c ;; k" := (bind c (fun x => k))
  (at level 61, c at next level, right associativity) : py_scope.
Notation "' p <- c ;; k" := (bind c (fun x => match x with p => k end))
  (at level 61, p pattern, c at next level, right associativity) : py_scope.

Lemma bind_returned {A B} (c : outcome A) (k : A -> outcome B) b :
  bind c k = Returned b -> exists a, c = Returned a /\ k a = Returned b.
Proof. destruct c as [a|e]; simpl; [eauto | discriminate]. Qed.

Lemma try_except_total {A} (body : outcome A) handler :
  (forall e, exists a, handler e = Returned a) ->
  exists a, try_except body handler = Returned a.
Proof.
  intros Hh. destruct body as [a|e]; simpl; [eauto | apply Hh].
Qed.

(** *** Strings *)

Local Open Scope string_scope.

(** [c in s] for a one-character [c]. *)
Fixpoint contains_char (c : ascii) (s : string) : bool :=
  match s with
  | EmptyString => false
  | String d s' => Ascii.eqb c d || contains_char c s'
  end.

(** [s.split(c)] for a one-character separator: the pieces between the
    occurrences of [c], never an empty list. *)
Fixpoint split_char (c : ascii) (s : string) : list string :=
  match s with
  | EmptyString => [EmptyString]
  | String d s' =>
      if Ascii.eqb c d then EmptyString :: split_char c s'
      else match split_char c s' with
           | [] => [String d EmptyString]
           | p :: ps => String d p :: ps
           end
  end.

Definition lower_char (c : ascii) : ascii :=
  let n := nat_of_ascii c in
  if (65 <=? n)%nat && (n <=? 90)%nat then ascii_of_nat (n + 32) else c.

(** [s.isascii()] *)
Fixpoint isascii (s : string) : bool :=
  match s with
  | EmptyString => true
  | String c s' => (nat_of_ascii c <? 128)%nat && isascii s'
  end.

(** [s.lower()] for a string of ASCII characters, [isascii]: the letters
    A to Z become a to z and every other character is kept.  Outside
    ASCII [str.lower] changes further characters (the Kelvin sign U+212A
    becomes k), which [lower] leaves alone. *)
Fixpoint lower (s : string) : string :=
  match s with
  | EmptyString => EmptyString
  | String c s' => String (lower_char c) (lower s')
  end.

(** [x in xs] for a list of strings. *)
Definition str_in (x : string) (xs : list string) : bool :=
  existsb (String.eqb x) xs.

Lemma split_char_nonempty c s : split_char c s <> [].
Proof.
  destruct s as [|d s']; simpl; [discriminate|].
  destruct (Ascii.eqb c d); [discriminate|].
  destruct (split_char c s'); discriminate.
Qed.

Lemma split_char_contains c s :
  contains_char c s = true -> (2 <= length (split_char c s))%nat.
Proof.
  induction s as [|d s' IH]; simpl; [discriminate|].
  destruct (Ascii.eqb c d); simpl.
  - intros _. pose proof (split_char_nonempty c s') as Hne.
    destruct (split_char c s'); [congruence | simpl; lia].
  - intros H. specialize (IH H).
    destruct (split_char c s'); simpl in *; lia.
Qed.

(** [keyword in text] for arbitrary keywords: substring search. *)
Fixpoint is_prefix (p s : string) : bool :=
  match p, s with
  | EmptyString, _ => true
  | String a p', String b s' => Ascii.eqb a b && is_prefix p' s'
  | String _ _, EmptyString => false
  end.

Fixpoint substring_in (kw s : string) : bool :=
  is_prefix kw s ||
  match s with
  | EmptyString => false
  | String _ s' => substring_in kw s'
  end.

(** [s.endswith(suffix)] *)
Fixpoint endswith (s suffix : string) : bool :=
  String.eqb s suffix ||
  match s with
  | EmptyString => false
  | String _ s' => endswith s' suffix
  end.

(** [s.replace(old, new)] for a non-empty [old]: every occurrence, left to
    right, without overlap.  [skip] counts the characters of an occurrence
    that are still to be passed over. *)
Fixpoint replace_from (old new s : string) (skip : nat) : string :=
  match s with
  | EmptyString => EmptyString
  | String c s' =>
      match skip with
      | S k => replace_from old new s' k
      | O =>
          if is_prefix old s
          then new ++ replace_from old new s' (String.length old - 1)
          else String c (replace_from old new s' 0)
      end
  end.

Definition replace (old new s : string) : string := replace_from old new s 0.

(** [os.path.join(a, b)] of posixpath: an absolute [b] is the result; a
    relative [b] is appended to [a], after a separator unless [a] is
    empty or ends in one. *)
Definition path_join (a b : string) : string :=
  if is_prefix "/" b then b
  else if String.eqb a "" || endswith a "/" then a ++ b
  else a ++ "/" ++ b.

(** *** The order of strings *)

Lemma ascii_compare_lt_trans (a b c : ascii) :
  Ascii.compare a b = Lt -> Ascii.compare b c = Lt -> Ascii.compare a c = Lt.
Proof.
  unfold Ascii.compare. rewrite !N.compare_lt_iff. lia.
Qed.

Lemma string_compare_refl (s : string) : String.compare s s = Eq.
Proof.
  induction s as [|c s IH]; simpl; [reflexivity|].
  unfold Ascii.compare at 1. rewrite N.compare_refl. exact IH.
Qed.

Lemma string_compare_le_trans (a b c : string) :
  String.compare a b <> Gt -> String.compare b c <> Gt -> String.compare a c <> Gt.
Proof.
  revert b c. induction a as [|x a IH]; intros [|y b] [|z c]; simpl; try congruence.
  destruct (Ascii.compare x y) eqn:Exy; try congruence.
  - apply Ascii.compare_eq_iff in Exy. subst y.
    destruct (Ascii.compare x z) eqn:Exz; try congruence.
    apply IH.
  - destruct (Ascii.compare y z) eqn:Eyz; try congruence.
    + apply Ascii.compare_eq_iff in Eyz. subst z. rewrite Exy. congruence.
    + rewrite (ascii_compare_lt_trans _ _ _ Exy Eyz). congruence.
Qed.

Lemma leb_trans (a b c : string) :
  String.leb a b = true -> String.leb b c = true -> String.leb a c = true.
Proof.
  unfold String.leb. intros H1 H2.
  pose proof (string_compare_le_trans a b c) as H.
  destruct (String.compare a b), (String.compare b c), (String.compare a c);
    try reflexivity; try discriminate; exfalso; apply H; congruence.
Qed.

Lemma ltb_false_leb (a b : string) : String.ltb a b = false -> String.leb b a = true.
Proof.
  unfold String.ltb, String.leb. rewrite (String.compare_antisym a b).
  destruct (String.compare b a); simpl; congruence.
Qed.

Lemma ltb_true_leb (a b : string) : String.ltb a b = true -> String.leb a b = true.
Proof.
  unfold String.ltb, String.leb. destruct (String.compare a b); congruence.
Qed.

Lemma leb_refl (a : string) : String.leb a a = true.
Proof. unfold String.leb. rewrite string_compare_refl. reflexivity. Qed.

(** *** Numbers *)

(** [x < y] on floats. *)
Definition Qltb (x y : Q) : bool := negb (Qle_bool y x).

(** Python's two-argument [max] and [min] keep the first argument unless
    the second is strictly better. *)
Definition py_max (a b : Q) : Q := if Qltb a b then b else a.
Definition py_min (a b : Q) : Q := if Qltb b a then b else a.

(** [sum(values)], [np.sum(values)] *)
Definition Qsum (l : list Q) : Q := fold_right Qplus 0%Q l.

Lemma Qltb_lt x y : Qltb x y = true <-> (x < y)%Q.
Proof.
  unfold Qltb. rewrite negb_true_iff.
  split; intros H.
  - apply Qnot_le_lt. intros Hle. apply Qle_bool_iff in Hle. congruence.
  - destruct (Qle_bool y x) eqn:E; [|reflexivity].
    apply Qle_bool_iff in E. exfalso. apply (Qlt_not_le _ _ H E).
Qed.

Lemma Qltb_ge x y : Qltb x y = false <-> (y <= x)%Q.
Proof.
  unfold Qltb. rewrite negb_false_iff. apply Qle_bool_iff.
Qed.

(** *** Dicts with string keys, in insertion order *)

Fixpoint dict_set {V} (k : string) (v : V) (d : list (string * V)) : list (string * V) :=
  match d with
  | [] => [(k, v)]
  | (k', v') :: rest =>
      if String.eqb k' k then (k, v) :: rest else (k', v') :: dict_set k v rest
  end.

Fixpoint dict_get {V} (k : string) (d : list (string * V)) : option V :=
  match d with
  | [] => None
  | (k', v') :: rest => if String.eqb k' k then Some v' else dict_get k rest
  end.

Lemma dict_get_set {V} k (v : V) d : dict_get k (dict_set k v d) = Some v.
Proof.
  induction d as [|[k' v'] rest IH]; simpl.
  - rewrite String.eqb_refl. reflexivity.
  - destruct (String.eqb k' k) eqn:E; simpl.
    + rewrite String.eqb_refl. reflexivity.
    + rewrite E. exact IH.
Qed.

End Py.

(** ** preprocessing.py: the lead feature scores *)

Module LeadFeatures.
Import Py.
Local Open Scope string_scope.
Local Open Scope Z_scope.

(** A lead field read from a record: [None] stands for Python's [None] and
    for the NaN pandas puts where a record has no such key ([pd.isna]). *)
Definition field := option string.

Definition business_domains : list string :=
  ["gmail.com"; "yahoo.com"; "hotmail.com"; "outlook.com"; "aol.com"].

(** [email.split('@')[1].lower() if '@' in email else ''].  The index 1
    exists whenever the guard holds ([split_char_contains]). *)
Definition email_domain (email : string) : string :=
  if contains_char "@" email
  then lower (nth 1 (split_char "@" email) "")
  else "".

Definition calculate_email_domain_score (email : field) : Z :=
  match email with
  | None => 0
  | Some e =>
      if String.eqb e "" then 0
      else if negb (str_in (email_domain e) business_domains) then 15
      else -5
  end.

Definition any_keyword (kws : list string) (s : string) : bool :=
  existsb (fun kw => substring_in kw s) kws.

Definition estimate_company_size (company : field) : Z :=
  match company with
  | None => 1
  | Some c =>
      if String.eqb c "" then 1
      else
        let company_lower := lower c in
        if any_keyword ["inc"; "corp"; "corporation"; "ltd"; "limited"] company_lower then 50
        else if any_keyword ["llc"; "llp"; "co"; "company"] company_lower then 25
        else 10
  end.

Definition decision_makers : list string :=
  ["ceo"; "cto"; "cfo"; "president"; "director"; "vp"; "vice president"; "founder"; "owner"].

Definition influencers : list string :=
  ["senior"; "lead"; "manager"; "supervisor"; "coordinator"].

Definition calculate_job_title_score (job_title : field) : Z :=
  match job_title with
  | None => 0
  | Some t =>
      if String.eqb t "" then 0
      else
        let title_lower := lower t in
        if any_keyword decision_makers title_lower then 25
        else if any_keyword influencers title_lower then 15
        else 5
  end.

(** The examples of the specification's test list. *)
Example email_score_freemail : calculate_email_domain_score (Some "a@gmail.com") = -5.
Proof. reflexivity. Qed.

Example email_score_business : calculate_email_domain_score (Some "a@acme.com") = 15.
Proof. reflexivity. Qed.

Example email_score_upper_case : calculate_email_domain_score (Some "Bob@GMail.COM") = -5.
Proof. reflexivity. Qed.

Example job_title_vp : calculate_job_title_score (Some "VP of Engineering") = 25.
Proof. reflexivity. Qed.

Example job_title_senior : calculate_job_title_score (Some "Senior Analyst") = 15.
Proof. reflexivity. Qed.

Example job_title_analyst : calculate_job_title_score (Some "Analyst") = 5.
Proof. reflexivity. Qed.

Lemma email_domain_no_at (email : string) :
  contains_char "@" email = false -> email_domain email = "".
Proof. unfold email_domain. intros ->. reflexivity. Qed.

Lemma empty_domain_not_freemail : str_in "" business_domains = false.
Proof. reflexivity. Qed.

(** C10. A non-empty e-mail string without the character '@' has the empty
    string as its domain, which is not in the freemail list, so
    [calculate_email_domain_score] returns 15; an empty e-mail and a
    missing one return 0. *)
Theorem email_without_at_scores_15 (email : string)
    (Hnonempty : email <> "")
    (Hno_at : contains_char "@" email = false) :
  calculate_email_domain_score (Some email) = 15
  /\ calculate_email_domain_score (Some "") = 0
  /\ calculate_email_domain_score None = 0.
Proof.
  split; [|split; reflexivity].
  unfold calculate_email_domain_score.
  destruct (String.eqb_spec email "") as [Heq|_]; [contradiction|].
  rewrite (email_domain_no_at _ Hno_at), empty_domain_not_freemail.
  reflexivity.
Qed.

Lemma email_without_at_scores_15_witness :
  calculate_email_domain_score (Some "sales.acme.com") = 15
  /\ calculate_email_domain_score (Some "") = 0
  /\ calculate_email_domain_score None = 0.
Proof.
  apply (@email_without_at_scores_15 "sales.acme.com");
    [discriminate | reflexivity].
Defined.

End LeadFeatures.

(** ** preprocessing.py: tables *)

Module Frame.
Import Py.
Local Open Scope string_scope.

(** A cell of an [object] column.  pandas keeps both kinds of gap there:
    the float NaN it puts where a record lacks the key, and the [None] a
    record carries itself (a JSON null). *)
Inductive objcell :=
| OStr (s : string)
| ONaN
| ONone.

(** A column, by the two classes [select_dtypes] tells apart and the rest:
    - [include=[np.number]]: finite numbers, the gap is NaN ([None]
      here); the infinities are not represented;
    - [include=['object']]: Python objects;
    - any other dtype (bool, datetime64, ...), opaque here. *)
Inductive column :=
| NumCol (vals : list (option Q))
| ObjCol (vals : list objcell)
| OtherCol (dtype : string) (vals : list (option string)).

(** A DataFrame: the length of its index and its labelled columns, in
    order. *)
Record DataFrame := mkDataFrame {
  index_len : nat;
  columns : list (string * column)
}.

Definition is_numeric (c : column) : bool :=
  match c with NumCol _ => true | _ => false end.

Definition is_object (c : column) : bool :=
  match c with ObjCol _ => true | _ => false end.

Definition obj_isnull (c : objcell) : bool :=
  match c with OStr _ => false | ONaN | ONone => true end.

Definition opt_isnull {A} (c : option A) : bool :=
  match c with Some _ => false | None => true end.

(** [df[col].isnull().sum()] *)
Definition missing_count (c : column) : nat :=
  match c with
  | NumCol v => length (filter opt_isnull v)
  | ObjCol v => length (filter obj_isnull v)
  | OtherCol _ v => length (filter opt_isnull v)
  end.

(** [df[name]]; [None] when [name not in df.columns]. *)
Definition get_column (name : string) (df : DataFrame) : option column :=
  option_map snd (find (fun nc => String.eqb (fst nc) name) (columns df)).

(** [df.drop(columns=[name])]: a new frame, [df] itself is not touched. *)
Definition drop_column (name : string) (df : DataFrame) : DataFrame :=
  mkDataFrame (index_len df)
    (filter (fun nc => negb (String.eqb (fst nc) name)) (columns df)).

End Frame.

Module Quality.
Import Py Frame.
Local Open Scope string_scope.
Local Open Scope Q_scope.
Local Open Scope py_scope.

(** The part of the report the score depends on; the [data_types] and
    [duplicates] entries are left out. *)
Record quality_report := mkReport {
  total_rows : nat;
  total_columns : nat;
  missing_values : list (string * nat);
  quality_score : Q
}.

Definition nat_to_Q (n : nat) : Q := inject_Z (Z.of_nat n).

(** One turn of the loop [for col in df.columns]. *)
Definition quality_step (rows : nat) (acc : list (string * nat) * Q)
    (nc : string * column) : list (string * nat) * Q :=
  let missing := missing_count (snd nc) in
  let mv := dict_set (fst nc) missing (fst acc) in
  if (0 <? missing)%nat
  then (mv, snd acc - (nat_to_Q missing / nat_to_Q rows) * 10)
  else (mv, snd acc).

(** [df[col]]: the columns that carry the label.  pandas hands back a
    Series for one, and a DataFrame of all of them for several. *)
Definition labelled (col : string) (df : DataFrame) : list column :=
  map snd (filter (fun nc => String.eqb (fst nc) col) (columns df)).

(** [if missing_count > 0] on the Series of counts that
    [df[col].isnull().sum()] is for a DataFrame. *)
Definition ambiguous_truth_value : exn :=
  ValueError
    "The truth value of a Series is ambiguous. Use a.empty, a.bool(), a.item(), a.any() or a.all().".

(** The loop [for col in df.columns], from the label [col] on. *)
Fixpoint check_missing_values (df : DataFrame) (labels : list string)
    (acc : list (string * nat) * Q) : outcome (list (string * nat) * Q) :=
  match labels with
  | [] => Returned acc
  | col :: rest =>
      match labelled col df with
      | [] => Raised (Exn "KeyError" col)
      | [c] => check_missing_values df rest (quality_step (index_len df) acc (col, c))
      | _ :: _ :: _ => Raised ambiguous_truth_value
      end
  end.

Definition validate_data_quality (df : DataFrame) : outcome quality_report :=
  let rows := index_len df in
  '(mv, score) <- check_missing_values df (map fst (columns df)) ([], 0) ;;
  Returned (mkReport rows (length (columns df)) mv (py_max 0 (py_min 100 (100 + score)))).

(** The report of a table whose labels are distinct: every [df[col]] is
    the column itself, and the loop is a fold over the columns. *)
Definition report_of_columns (df : DataFrame) : quality_report :=
  let rows := index_len df in
  let '(mv, score) := fold_left (quality_step rows) (columns df) ([], 0) in
  mkReport rows (length (columns df)) mv (py_max 0 (py_min 100 (100 + score))).

(** What the claim describes. *)
Definition missing_fraction (rows : nat) (c : column) : Q :=
  nat_to_Q (missing_count c) / nat_to_Q rows.

Fixpoint total_penalty (rows : nat) (cols : list (string * column)) : Q :=
  match cols with
  | [] => 0
  | nc :: rest => 10 * missing_fraction rows (snd nc) + total_penalty rows rest
  end.

Definition clamped (lo hi raw result : Q) : Prop :=
  (raw < lo -> result == lo)
  /\ (lo <= raw <= hi -> result == raw)
  /\ (hi < raw -> result == hi).

Lemma py_clamp_spec raw : clamped 0 100 raw (py_max 0 (py_min 100 raw)).
Proof.
  unfold clamped, py_max, py_min.
  destruct (Qltb raw 100) eqn:E1.
  - apply Qltb_lt in E1.
    destruct (Qltb 0 raw) eqn:E2.
    + apply Qltb_lt in E2. repeat split; intros; try reflexivity; lra.
    + apply Qltb_ge in E2. repeat split; intros; try reflexivity; lra.
  - apply Qltb_ge in E1.
    replace (Qltb 0 100) with true by reflexivity.
    repeat split; intros; try reflexivity; lra.
Qed.

Lemma zero_fraction rows c :
  (0 <? missing_count c)%nat = false -> missing_fraction rows c == 0.
Proof.
  intros H. apply Nat.ltb_ge in H.
  unfold missing_fraction.
  replace (missing_count c) with 0%nat by lia.
  unfold nat_to_Q. simpl. unfold Qdiv. ring.
Qed.

(** The loop subtracts exactly the penalties of the columns it visits:
    the guard [missing_count > 0] only skips terms that are zero. *)
Lemma quality_loop rows cols mv acc :
  snd (fold_left (quality_step rows) cols (mv, acc)) == acc - total_penalty rows cols.
Proof.
  revert mv acc. induction cols as [|nc rest IH]; intros mv acc; simpl.
  - ring.
  - unfold quality_step at 2. simpl.
    destruct (0 <? missing_count (snd nc))%nat eqn:E.
    + rewrite IH. unfold missing_fraction. ring.
    + rewrite IH. rewrite (zero_fraction rows _ E). ring.
Qed.

Lemma quality_score_eq df :
  quality_score (report_of_columns df)
  = py_max 0 (py_min 100 (100 + snd (fold_left (quality_step (index_len df))
                                         (columns df) ([], 0)))).
Proof.
  unfold report_of_columns.
  destruct (fold_left _ _ _) as [mv score]. reflexivity.
Qed.

#[local] Instance py_min_proper : Proper (Qeq ==> Qeq ==> Qeq) py_min.
Proof.
  intros a a' Ha b b' Hb. unfold py_min.
  destruct (Qltb b a) eqn:E1, (Qltb b' a') eqn:E2; try assumption.
  - apply Qltb_lt in E1. apply Qltb_ge in E2. lra.
  - apply Qltb_ge in E1. apply Qltb_lt in E2. lra.
Qed.

#[local] Instance py_max_proper : Proper (Qeq ==> Qeq ==> Qeq) py_max.
Proof.
  intros a a' Ha b b' Hb. unfold py_max.
  destruct (Qltb a b) eqn:E1, (Qltb a' b') eqn:E2; try assumption.
  - apply Qltb_lt in E1. apply Qltb_ge in E2. lra.
  - apply Qltb_ge in E1. apply Qltb_lt in E2. lra.
Qed.

Lemma quality_score_in_range df :
  0 <= quality_score (report_of_columns df) <= 100.
Proof.
  rewrite quality_score_eq. unfold py_max, py_min.
  set (raw := 100 + snd (fold_left (quality_step (index_len df)) (columns df) ([], 0))).
  destruct (Qltb raw 100) eqn:E1.
  - apply Qltb_lt in E1. destruct (Qltb 0 raw) eqn:E2.
    + apply Qltb_lt in E2. lra.
    + lra.
  - replace (Qltb 0 100) with true by reflexivity. lra.
Qed.

(** *** Labels: distinct or repeated *)

Lemma labelled_distinct (cols : list (string * column)) (rows : nat)
    (name : string) (c : column) :
  NoDup (map fst cols) -> In (name, c) cols ->
  labelled name (mkDataFrame rows cols) = [c].
Proof.
  unfold labelled. cbn [columns].
  induction cols as [|[n0 c0] rest IH]; intros Hnd Hin; [destruct Hin|].
  inversion Hnd as [|? ? Hnotin Hrest]; subst. cbn [filter fst].
  destruct Hin as [E|Hin].
  - injection E as -> ->. rewrite String.eqb_refl. cbn [map snd]. f_equal.
    assert (Hnone : forall l, ~ In name (map fst l) ->
              filter (fun nc : string * column => String.eqb (fst nc) name) l = []).
    { induction l as [|[n1 c1] l IHl]; intros Hl; [reflexivity|]. cbn [filter fst].
      destruct (String.eqb_spec n1 name) as [->|_].
      - exfalso. apply Hl. left. reflexivity.
      - apply IHl. intros H. apply Hl. right. exact H. }
    rewrite (Hnone rest Hnotin). reflexivity.
  - destruct (String.eqb_spec n0 name) as [->|_].
    + exfalso. apply Hnotin. apply (in_map fst) in Hin. exact Hin.
    + apply IH; assumption.
Qed.

(** With distinct labels the loop visits the columns themselves. *)
Lemma check_missing_values_distinct (df : DataFrame)
    (visited : list (string * column)) (acc : list (string * nat) * Q) :
  NoDup (map fst (columns df)) ->
  incl visited (columns df) ->
  check_missing_values df (map fst visited) acc
  = Returned (fold_left (quality_step (index_len df)) visited acc).
Proof.
  intros Hnd. revert acc.
  induction visited as [|[name c] rest IH]; intros acc Hincl; [reflexivity|].
  cbn [map fst check_missing_values fold_left].
  destruct df as [rows cols]. cbn [columns index_len] in *.
  rewrite (@labelled_distinct cols rows name c Hnd (Hincl _ (or_introl eq_refl))).
  apply IH. intros x Hx. apply Hincl. right. exact Hx.
Qed.

Lemma validate_data_quality_distinct (df : DataFrame) :
  NoDup (map fst (columns df)) ->
  validate_data_quality df = Returned (report_of_columns df).
Proof.
  intros Hnd. unfold validate_data_quality, report_of_columns.
  rewrite (@check_missing_values_distinct df (columns df) _ Hnd (incl_refl _)).
  cbn [bind].
  destruct (fold_left (quality_step (index_len df)) (columns df) ([], 0)) as [mv score].
  reflexivity.
Qed.

Lemma labelled_length (col : string) (df : DataFrame) :
  length (labelled col df) = count_occ string_dec (map fst (columns df)) col.
Proof.
  unfold labelled. rewrite length_map.
  induction (columns df) as [|[n0 c0] rest IH]; [reflexivity|].
  cbn [filter fst map count_occ].
  destruct (String.eqb_spec n0 col) as [->|Hne].
  - destruct (string_dec col col) as [_|H]; [|congruence]. cbn [length]. rewrite IH.
    reflexivity.
  - destruct (string_dec n0 col) as [H|_]; [congruence | exact IH].
Qed.

(** The loop stops at the first label that several columns carry. *)
Lemma check_missing_values_repeated (df : DataFrame) (labels : list string)
    (acc : list (string * nat) * Q) :
  incl labels (map fst (columns df)) ->
  (exists col, In col labels /\ (2 <= length (labelled col df))%nat) ->
  check_missing_values df labels acc = Raised ambiguous_truth_value.
Proof.
  revert acc. induction labels as [|col rest IH]; intros acc Hincl (l & Hin & Hl).
  - destruct Hin.
  - cbn [check_missing_values].
    assert (Hcol : (1 <= length (labelled col df))%nat).
    { rewrite labelled_length. apply (proj1 (count_occ_In string_dec _ _)).
      apply Hincl. left. reflexivity. }
    destruct (labelled col df) as [|c [|c' more]] eqn:E.
    + simpl in Hcol. lia.
    + apply IH.
      * intros x Hx. apply Hincl. right. exact Hx.
      * exists l. split; [|exact Hl].
        destruct Hin as [->|Hin]; [|exact Hin].
        rewrite E in Hl. simpl in Hl. lia.
    + reflexivity.
Qed.

Lemma repeated_label (labels : list string) :
  ~ NoDup labels -> exists col, In col labels /\ (2 <= count_occ string_dec labels col)%nat.
Proof.
  induction labels as [|a rest IH]; intros Hnd; [exfalso; apply Hnd; constructor|].
  destruct (in_dec string_dec a rest) as [Hin|Hnotin].
  - exists a. split; [left; reflexivity|].
    rewrite count_occ_cons_eq by reflexivity.
    apply (proj1 (count_occ_In string_dec _ _)) in Hin. lia.
  - destruct IH as (col & Hcol & Hcount).
    + intros H. apply Hnd. constructor; assumption.
    + exists col. split; [right; exact Hcol|].
      destruct (string_dec a col) as [->|Hne].
      * rewrite count_occ_cons_eq by reflexivity. lia.
      * rewrite count_occ_cons_neq by exact Hne. exact Hcount.
Qed.

Lemma validate_data_quality_repeated (df : DataFrame) :
  ~ NoDup (map fst (columns df)) ->
  validate_data_quality df = Raised ambiguous_truth_value.
Proof.
  intros Hnd. unfold validate_data_quality.
  rewrite (@check_missing_values_repeated df (map fst (columns df)) _ (incl_refl _)).
  - reflexivity.
  - destruct (@repeated_label _ Hnd) as (col & Hin & Hcount).
    exists col. split; [exact Hin|]. rewrite labelled_length. exact Hcount.
Qed.

Lemma report_score_clamped (df : DataFrame) :
  clamped 0 100
    (100 - total_penalty (index_len df) (columns df))
    (quality_score (report_of_columns df)).
Proof.
  rewrite quality_score_eq.
  pose proof (quality_loop (index_len df) (columns df) [] 0) as Hloop.
  pose proof (py_clamp_spec (100 - total_penalty (index_len df) (columns df))) as Hc.
  assert (Heq : py_max 0 (py_min 100 (100 + snd (fold_left (quality_step (index_len df))
                                                   (columns df) ([], 0))))
                == py_max 0 (py_min 100 (100 - total_penalty (index_len df) (columns df)))).
  { apply py_max_proper; [reflexivity|].
    apply py_min_proper; [reflexivity|]. rewrite Hloop. ring. }
  unfold clamped in *. destruct Hc as (H1 & H2 & H3).
  repeat split; intros H; rewrite Heq; auto.
Qed.

Definition sample_frame : DataFrame :=
  mkDataFrame 4
    [("lead_score", NumCol [Some 3; None; Some 5; None]);
     ("company", ObjCol [OStr "Acme"; ONone; OStr "Initech"; OStr "Hooli"]);
     ("visits", NumCol [Some 1; Some 2; Some 3; Some 4])].

(** [pd.DataFrame([[1, 2], [3, 4]], columns=['a', 'a'])]: two rows, no
    cell missing, one label for both columns. *)
Definition twin_frame : DataFrame :=
  mkDataFrame 2 [("a", NumCol [Some 1; Some 3]); ("a", NumCol [Some 2; Some 4])].

(** C8. On the table [twin_frame], which has two rows and no missing
    cell, [validate_data_quality] returns no score: it raises ValueError,
    as it does on every table in which two columns carry one label.  On
    a table with at least one row and distinct labels it returns, and
    the quality score is 100 minus the sum over the columns of 10 times
    the column's fraction of missing values, clamped to the interval
    from 0 to 100. *)
Theorem quality_score_unless_label_repeated :
  validate_data_quality twin_frame = Raised ambiguous_truth_value
  /\ (forall df, ~ NoDup (map fst (columns df)) ->
        validate_data_quality df = Raised ambiguous_truth_value)
  /\ (forall df, NoDup (map fst (columns df)) -> (0 < index_len df)%nat ->
        exists report,
          validate_data_quality df = Returned report
          /\ clamped 0 100
               (100 - total_penalty (index_len df) (columns df))
               (quality_score report)).
Proof.
  split; [reflexivity|]. split.
  - exact validate_data_quality_repeated.
  - intros df Hnd _. exists (report_of_columns df).
    split; [apply validate_data_quality_distinct, Hnd | apply report_score_clamped].
Qed.

(** On the sample: half of one column and a quarter of another are
    missing, the score is 100 - 5 - 2.5. *)
Example quality_score_sample :
  exists report,
    validate_data_quality sample_frame = Returned report
    /\ quality_score report == 925 # 10.
Proof. eexists. split; [reflexivity|]. vm_compute. reflexivity. Qed.

End Quality.

(** ** preprocessing.py: feature selection *)

Module Selection.
Import Py Frame.
Local Open Scope string_scope.
Local Open Scope py_scope.

(** The two scoring functions handed to [SelectKBest]. *)
Inductive score_func := f_classif | mutual_info_classif.

(** A fitted [SelectKBest]: its parameters and the support mask the fit
    computed, one flag per column of the matrix it saw. *)
Record selector := mkSelector {
  sel_score_func : score_func;
  sel_k : Z;
  sel_support : list bool
}.

(** The feature-selection entry of the preprocessing config, a dict whose
    keys may be absent. *)
Record selection_config := mkConfig {
  cfg_method : option string;
  cfg_target_column : option string;
  cfg_k : option Z
}.

(** The state of a [DataPreprocessor] that [select_features] writes:
    [self.feature_selectors], in insertion order. *)
Definition feature_selectors := list (string * selector).

Section WithSklearn.

(** [SelectKBest(score_func, k).fit_transform(X, y)]: scikit-learn's
    scoring of the columns of [X] against [y].  It returns the fitted
    selector together with the reduced matrix, or raises (a column that
    is not numeric, a NaN).  A k larger than the number of columns is
    only warned about, and every column is kept. *)
Variable fit_transform :
  score_func -> Z -> DataFrame -> column -> outcome (selector * DataFrame).

(** The log line of the [k_best] branch is left out. *)
Definition select_features (self : feature_selectors) (df : DataFrame)
    (config : selection_config) : outcome (DataFrame * feature_selectors) :=
  match cfg_method config with
  | None => Returned (df, self)
  | Some method =>
      match cfg_target_column config with
      | None => Returned (df, self)
      | Some target_column =>
          if String.eqb target_column "" then Returned (df, self)
          else
            match get_column target_column df with
            | None => Returned (df, self) (* target_column not in df.columns *)
            | Some y =>
                let X := drop_column target_column df in
                if String.eqb method "k_best" then
                  let k := match cfg_k config with Some k => k | None => 10%Z end in
                  fitted <- fit_transform f_classif k X y ;;
                  let self' := dict_set "k_best" (fst fitted) self in
                  Returned (df, self')
                else if String.eqb method "mutual_info" then
                  let k := match cfg_k config with Some k => k | None => 10%Z end in
                  fitted <- fit_transform mutual_info_classif k X y ;;
                  let self' := dict_set "mutual_info" (fst fitted) self in
                  Returned (df, self')
                else Returned (df, self)
            end
      end
  end.

(** C9. Whatever the matrix and the feature-selection config,
    [select_features] hands back its input matrix, same columns and same
    values: when it scores the columns (k_best with the F-test,
    mutual_info with mutual information) the fitted selector is only
    stored in [self.feature_selectors] and its reduced matrix is thrown
    away.  The only other way out is the exception of the scoring itself. *)
Theorem select_features_returns_input (self : feature_selectors)
    (df : DataFrame) (config : selection_config) :
  match select_features self df config with
  | Returned (df', self') =>
      df' = df
      /\ (self' = self
          \/ exists key fitted X_selected sf k X y,
               fit_transform sf k X y = Returned (fitted, X_selected)
               /\ self' = dict_set key fitted self)
  | Raised e =>
      exists sf k X y, fit_transform sf k X y = Raised e
  end.
Proof.
  unfold select_features.
  destruct (cfg_method config) as [method|]; [|auto].
  destruct (cfg_target_column config) as [target|]; [|auto].
  destruct (String.eqb target ""); [auto|].
  destruct (get_column target df) as [y|]; [|auto].
  destruct (String.eqb method "k_best").
  - destruct (fit_transform f_classif _ _ y) as [[fitted Xs]|e] eqn:E; simpl.
    + split; [reflexivity|]. right. do 7 eexists. split; [exact E | reflexivity].
    + do 4 eexists. exact E.
  - destruct (String.eqb method "mutual_info"); [|auto].
    destruct (fit_transform mutual_info_classif _ _ y) as [[fitted Xs]|e] eqn:E; simpl.
    + split; [reflexivity|]. right. do 7 eexists. split; [exact E | reflexivity].
    + do 4 eexists. exact E.
Qed.

(** The ranking is computed: with a usable config and a scoring that
    succeeds, the call returns and the fitted selector is on record. *)
Lemma select_features_k_best_stores self df target y k fitted Xs :
  target <> "" ->
  get_column target df = Some y ->
  fit_transform f_classif k (drop_column target df) y = Returned (fitted, Xs) ->
  exists self',
    select_features self df (mkConfig (Some "k_best") (Some target) (Some k))
    = Returned (df, self')
    /\ dict_get "k_best" self' = Some fitted.
Proof.
  intros Hne Hy Hfit. unfold select_features. simpl.
  destruct (String.eqb_spec target "") as [->|_]; [contradiction|].
  rewrite Hy. simpl. rewrite Hfit. simpl.
  eexists. split; [reflexivity | apply dict_get_set].
Qed.

End WithSklearn.

(** A numeric column of the matrix has a gap. *)
Definition has_nan (X : DataFrame) : bool :=
  existsb (fun nc => match snd nc with
                     | NumCol vals => existsb opt_isnull vals
                     | _ => false
                     end) (columns X).

(** A scoring that keeps the first [k] columns, all of them when there
    are fewer, to run the function on.  Like scikit-learn's it refuses a
    matrix with a NaN; the message is the first line of scikit-learn's. *)
Definition keep_first (sf : score_func) (k : Z) (X : DataFrame) (y : column)
  : outcome (selector * DataFrame) :=
  let n := Z.to_nat k in
  if has_nan X
  then Raised (ValueError "Input X contains NaN.")
  else
    let support := map (fun i => (i <? n)%nat) (seq 0 (length (columns X))) in
    Returned (mkSelector sf k support,
              mkDataFrame (index_len X) (firstn n (columns X))).

Definition three_columns : DataFrame :=
  mkDataFrame 2
    [("visits", NumCol [Some 1%Q; Some 2%Q]);
     ("score", NumCol [Some 5%Q; Some 7%Q]);
     ("converted", NumCol [Some 0%Q; Some 1%Q])].

(** One column is asked for, the selector keeps one, and all three columns
    come back. *)
Example select_features_keeps_all_columns :
  select_features keep_first [] three_columns
    (mkConfig (Some "k_best") (Some "converted") (Some 1%Z))
  = Returned (three_columns,
              [("k_best", mkSelector f_classif 1 [true; false])]).
Proof. reflexivity. Qed.

(** The default k = 10 exceeds the two feature columns: the selector
    keeps both, and the table comes back. *)
Example select_features_default_k :
  select_features keep_first [] three_columns
    (mkConfig (Some "k_best") (Some "converted") None)
  = Returned (three_columns,
              [("k_best", mkSelector f_classif 10 [true; true])]).
Proof. reflexivity. Qed.

(** A gap among the features: the exception of the scoring leaves the
    function. *)
Example select_features_raises :
  select_features keep_first []
    (mkDataFrame 2
       [("visits", NumCol [Some 1%Q; None]);
        ("converted", NumCol [Some 0%Q; Some 1%Q])])
    (mkConfig (Some "k_best") (Some "converted") None)
  = Raised (ValueError "Input X contains NaN.").
Proof. reflexivity. Qed.

End Selection.

(** ** preprocessing.py: imputation *)

Module Imputation.
Import Py Frame.
Local Open Scope string_scope.
Local Open Scope Q_scope.
Local Open Scope py_scope.

(** *** scikit-learn's [SimpleImputer], as its documentation describes it

    [missing_values] is left at its default [np.nan]: the cells that are
    NaN are the ones imputed.  A column without a single observed value
    has no statistic and is discarded by [transform].  For the strategy
    [constant] the releases differ: before release 1.8 such a column is
    kept and filled, from 1.8 on it is discarded like the others. *)

Inductive sklearn_release :=
| Before_1_8
| From_1_8.

Fixpoint observed (vals : list (option Q)) : list Q :=
  match vals with
  | [] => []
  | Some q :: rest => q :: observed rest
  | None :: rest => observed rest
  end.

Definition mean (l : list Q) : Q := Qsum l / inject_Z (Z.of_nat (length l)).

Fixpoint insert_sorted (x : Q) (l : list Q) : list Q :=
  match l with
  | [] => [x]
  | y :: rest => if Qle_bool x y then x :: l else y :: insert_sorted x rest
  end.

Definition sort (l : list Q) : list Q := fold_right insert_sorted [] l.

Definition median (l : list Q) : Q :=
  let s := sort l in
  let n := length s in
  if Nat.even n
  then (nth (n / 2 - 1) s 0 + nth (n / 2) s 0) / 2
  else nth (n / 2) s 0.

Definition occurrences (x : Q) (l : list Q) : nat :=
  length (filter (Qeq_bool x) l).

(** The most frequent value, the smallest one among several. *)
Definition most_frequent (l : list Q) : Q :=
  let s := sort l in
  fold_left (fun best x => if (occurrences best s <? occurrences x s)%nat then x else best)
            s (hd 0 s).

Section Release.

Variable release : sklearn_release.

(** The imputer [handle_missing_values] builds for the numeric columns.
    Any strategy name other than the first three falls to the last
    branch, [SimpleImputer(strategy='constant', fill_value=0)]. *)
Definition numeric_fill (strategy : string) (vals : list (option Q)) : option Q :=
  if String.eqb strategy "mean" then
    match observed vals with [] => None | obs => Some (mean obs) end
  else if String.eqb strategy "median" then
    match observed vals with [] => None | obs => Some (median obs) end
  else if String.eqb strategy "most_frequent" then
    match observed vals with [] => None | obs => Some (most_frequent obs) end
  else
    match release, observed vals with
    | From_1_8, [] => None
    | _, _ => Some 0
    end.

Definition fill_num (fill : Q) (v : option Q) : option Q :=
  match v with Some q => Some q | None => Some fill end.

(** [imputer.fit_transform] on one numeric column: [None] when the column
    is discarded. *)
Definition impute_numeric (strategy : string) (vals : list (option Q))
  : option (list (option Q)) :=
  match numeric_fill strategy vals with
  | Some fill => Some (map (fill_num fill) vals)
  | None => None
  end.

(** [SimpleImputer(strategy='constant', fill_value='unknown')] on an
    object column.  On object arrays the mask of [np.nan] is [X != X],
    which holds for NaN and for nothing else: a [None] cell is not masked
    and passes through. *)
Definition fill_obj (c : objcell) : objcell :=
  match c with
  | ONaN => OStr "unknown"
  | other => other
  end.

Definition is_nan (c : objcell) : bool :=
  match c with ONaN => true | _ => false end.

(** [cat_imputer.fit_transform] on one object column: [None] when the
    column is discarded. *)
Definition impute_object (vals : list objcell) : option (list objcell) :=
  match release with
  | Before_1_8 => Some (map fill_obj vals)
  | From_1_8 => if forallb is_nan vals then None else Some (map fill_obj vals)
  end.

(** *** handle_missing_values *)

Definition column_mismatch : exn := ValueError "Columns must be same length as key".

(** [df[numeric_columns] = imputer.fit_transform(df[numeric_columns])].
    The right-hand side has one column per column that was kept; pandas
    refuses the assignment when that is fewer than the columns named on
    the left. *)
Fixpoint assign_numeric (strategy : string) (cols : list (string * column))
  : outcome (list (string * column)) :=
  match cols with
  | [] => Returned []
  | (name, NumCol vals) :: rest =>
      match impute_numeric strategy vals with
      | None => Raised column_mismatch
      | Some vals' =>
          rest' <- assign_numeric strategy rest ;;
          Returned ((name, NumCol vals') :: rest')
      end
  | nc :: rest =>
      rest' <- assign_numeric strategy rest ;;
      Returned (nc :: rest')
  end.

(** [df[categorical_columns] = cat_imputer.fit_transform(df[categorical_columns])] *)
Fixpoint assign_categorical (cols : list (string * column))
  : outcome (list (string * column)) :=
  match cols with
  | [] => Returned []
  | (name, ObjCol vals) :: rest =>
      match impute_object vals with
      | None => Raised column_mismatch
      | Some vals' =>
          rest' <- assign_categorical rest ;;
          Returned ((name, ObjCol vals') :: rest')
      end
  | nc :: rest =>
      rest' <- assign_categorical rest ;;
      Returned (nc :: rest')
  end.

(** scikit-learn validates its input before fitting and raises on a
    matrix without rows. *)
Definition check_array (df : DataFrame) : outcome unit :=
  if (index_len df =? 0)%nat
  then Raised (ValueError "Found array with 0 sample(s) while a minimum of 1 is required")
  else Returned tt.

Definition handle_missing_values (df : DataFrame) (strategy : string) : outcome DataFrame :=
  let numeric_columns := filter (fun nc => is_numeric (snd nc)) (columns df) in
  let categorical_columns := filter (fun nc => is_object (snd nc)) (columns df) in
  cols1 <- (if (0 <? length numeric_columns)%nat
            then _ <- check_array df ;; assign_numeric strategy (columns df)
            else Returned (columns df)) ;;
  cols2 <- (if (0 <? length categorical_columns)%nat
            then _ <- check_array df ;; assign_categorical cols1
            else Returned cols1) ;;
  Returned (mkDataFrame (index_len df) cols2).

(** *** What is and is not imputed *)

Definition no_nan_num (vals : list (option Q)) : Prop :=
  Forall (fun v => v <> None) vals.

Definition no_nan_obj (vals : list objcell) : Prop :=
  Forall (fun c => c <> ONaN) vals.

(** No NaN is left in a numeric or an object column. *)
Definition nan_free (cols : list (string * column)) : Prop :=
  Forall (fun nc => match snd nc with
                    | NumCol vals => no_nan_num vals
                    | ObjCol vals => no_nan_obj vals
                    | OtherCol _ _ => True
                    end) cols.

(** No missing value in the sense of [isnull] is left in a numeric or an
    object column: the postcondition the specification states. *)
Definition no_missing (cols : list (string * column)) : Prop :=
  Forall (fun nc => match snd nc with
                    | NumCol _ | ObjCol _ => missing_count (snd nc) = 0%nat
                    | OtherCol _ _ => True
                    end) cols.

Lemma impute_numeric_no_nan strategy vals vals' :
  impute_numeric strategy vals = Some vals' -> no_nan_num vals'.
Proof.
  unfold impute_numeric. destruct (numeric_fill strategy vals) as [fill|]; [|discriminate].
  intros H. injection H as <-. unfold no_nan_num.
  apply Forall_map, Forall_forall. intros [q|] _; simpl; discriminate.
Qed.

Definition num_nan_free (cols : list (string * column)) : Prop :=
  Forall (fun nc => match snd nc with
                    | NumCol vals => no_nan_num vals
                    | _ => True
                    end) cols.

Lemma assign_numeric_no_nan strategy cols cols' :
  assign_numeric strategy cols = Returned cols' -> num_nan_free cols'.
Proof.
  revert cols'. induction cols as [|[name c] rest IH]; intros cols' H; simpl in H.
  - injection H as <-. constructor.
  - destruct c as [vals|vals|dt vals].
    + destruct (impute_numeric strategy vals) as [vals'|] eqn:E; [|discriminate].
      apply bind_returned in H. destruct H as (rest' & Hrest & Hret).
      injection Hret as <-. constructor; [|apply IH; exact Hrest].
      simpl. apply (impute_numeric_no_nan _ _ E).
    + apply bind_returned in H. destruct H as (rest' & Hrest & Hret).
      injection Hret as <-. constructor; [exact I | apply IH; exact Hrest].
    + apply bind_returned in H. destruct H as (rest' & Hrest & Hret).
      injection Hret as <-. constructor; [exact I | apply IH; exact Hrest].
Qed.

Lemma impute_object_no_nan vals vals' :
  impute_object vals = Some vals' -> no_nan_obj vals'.
Proof.
  unfold impute_object. intros H.
  assert (E : vals' = map fill_obj vals).
  { destruct release; [|destruct (forallb is_nan vals); [discriminate|]];
      injection H as <-; reflexivity. }
  subst vals'. unfold no_nan_obj. apply Forall_map, Forall_forall.
  intros [s| |] _; simpl; discriminate.
Qed.

Lemma assign_categorical_no_nan cols cols' :
  assign_categorical cols = Returned cols' -> num_nan_free cols -> nan_free cols'.
Proof.
  revert cols'. induction cols as [|[name c] rest IH]; intros cols' H Hn; simpl in H.
  - injection H as <-. constructor.
  - inversion Hn as [|? ? Hc Hrest]; subst.
    destruct c as [vals|vals|dt vals].
    + apply bind_returned in H. destruct H as (rest' & Hr & Hret).
      injection Hret as <-. constructor; [exact Hc | apply IH; assumption].
    + destruct (impute_object vals) as [vals'|] eqn:E; [|discriminate].
      apply bind_returned in H. destruct H as (rest' & Hr & Hret).
      injection Hret as <-. constructor; [|apply IH; assumption].
      simpl. apply (@impute_object_no_nan _ _ E).
    + apply bind_returned in H. destruct H as (rest' & Hr & Hret).
      injection Hret as <-. constructor; [exact I | apply IH; assumption].
Qed.

Lemma no_numeric_columns cols :
  (0 <? length (filter (fun nc => is_numeric (snd nc)) cols))%nat = false ->
  num_nan_free cols.
Proof.
  intros H. apply Nat.ltb_ge in H. unfold num_nan_free.
  induction cols as [|[name c] rest IH]; [constructor|].
  simpl in H. destruct c; simpl in H; try lia;
    (constructor; [exact I | apply IH; exact H]).
Qed.

Lemma no_object_columns cols :
  (0 <? length (filter (fun nc => is_object (snd nc)) cols))%nat = false ->
  num_nan_free cols -> nan_free cols.
Proof.
  intros H. apply Nat.ltb_ge in H. unfold num_nan_free, nan_free.
  induction cols as [|[name c] rest IH]; intros Hn; [constructor|].
  inversion Hn as [|? ? Hc Hrest]; subst.
  simpl in H. destruct c; simpl in H; try lia;
    (constructor; [exact Hc | apply IH; [exact H | exact Hrest]]).
Qed.

Lemma assign_numeric_keeps_objects strategy cols cols' :
  assign_numeric strategy cols = Returned cols' ->
  filter (fun nc => is_object (snd nc)) cols' = filter (fun nc => is_object (snd nc)) cols.
Proof.
  revert cols'. induction cols as [|[name c] rest IH]; intros cols' H; simpl in H.
  - injection H as <-. reflexivity.
  - destruct c as [vals|vals|dt vals].
    + destruct (impute_numeric strategy vals) as [vals'|]; [|discriminate].
      apply bind_returned in H. destruct H as (rest' & Hrest & Hret).
      injection Hret as <-. simpl. apply IH, Hrest.
    + apply bind_returned in H. destruct H as (rest' & Hrest & Hret).
      injection Hret as <-. simpl. f_equal. apply IH, Hrest.
    + apply bind_returned in H. destruct H as (rest' & Hrest & Hret).
      injection Hret as <-. simpl. apply IH, Hrest.
Qed.

(** Whenever [handle_missing_values] returns, every NaN of the numeric
    and of the object columns has been replaced. *)
Lemma handle_missing_values_no_nan df strategy df' :
  handle_missing_values df strategy = Returned df' -> nan_free (columns df').
Proof.
  unfold handle_missing_values. intros H.
  apply bind_returned in H. destruct H as (cols1 & H1 & H).
  apply bind_returned in H. destruct H as (cols2 & H2 & H).
  injection H as <-. simpl.
  assert (Hnum : num_nan_free cols1).
  { destruct (0 <? length (filter (fun nc => is_numeric (snd nc)) (columns df)))%nat eqn:E.
    - apply bind_returned in H1. destruct H1 as ([] & _ & H1).
      apply (assign_numeric_no_nan _ _ H1).
    - injection H1 as <-. apply no_numeric_columns, E. }
  assert (Hobj : filter (fun nc => is_object (snd nc)) cols1
                 = filter (fun nc => is_object (snd nc)) (columns df)).
  { destruct (0 <? length (filter (fun nc => is_numeric (snd nc)) (columns df)))%nat.
    - apply bind_returned in H1. destruct H1 as ([] & _ & H1).
      apply (assign_numeric_keeps_objects _ _ H1).
    - injection H1 as <-. reflexivity. }
  destruct (0 <? length (filter (fun nc => is_object (snd nc)) (columns df)))%nat eqn:E.
  - apply bind_returned in H2. destruct H2 as ([] & _ & H2).
    apply (@assign_categorical_no_nan _ _ H2 Hnum).
  - injection H2 as <-. apply no_object_columns; [|exact Hnum].
    rewrite Hobj. exact E.
Qed.

(** The call does return when the table has rows and the imputers keep
    every column: a numeric column has an observed value or is filled
    with the constant, an object column is not discarded. *)
Definition has_statistics (strategy : string) (cols : list (string * column)) : Prop :=
  Forall (fun nc => match snd nc with
                    | NumCol vals => numeric_fill strategy vals <> None
                    | ObjCol vals => impute_object vals <> None
                    | OtherCol _ _ => True
                    end) cols.

Definition objects_kept (cols : list (string * column)) : Prop :=
  Forall (fun nc => match snd nc with
                    | ObjCol vals => impute_object vals <> None
                    | _ => True
                    end) cols.

Lemma assign_numeric_returns strategy cols :
  has_statistics strategy cols ->
  exists cols', assign_numeric strategy cols = Returned cols' /\ objects_kept cols'.
Proof.
  induction cols as [|[name c] rest IH]; intros H; simpl.
  - exists []. split; [reflexivity | constructor].
  - inversion H as [|? ? Hc Hrest]; subst. destruct (IH Hrest) as (rest' & -> & Hk).
    destruct c as [vals|vals|dt vals]; simpl in *.
    + unfold impute_numeric. destruct (numeric_fill strategy vals); [|congruence].
      simpl. eexists. split; [reflexivity|]. constructor; [exact I | exact Hk].
    + eexists. split; [reflexivity|]. constructor; [exact Hc | exact Hk].
    + eexists. split; [reflexivity|]. constructor; [exact I | exact Hk].
Qed.

Lemma assign_categorical_returns cols :
  objects_kept cols -> exists cols', assign_categorical cols = Returned cols'.
Proof.
  induction cols as [|[name c] rest IH]; intros H; simpl; [eauto|].
  inversion H as [|? ? Hc Hrest]; subst. destruct (IH Hrest) as (rest' & ->).
  destruct c as [vals|vals|dt vals]; simpl in *; eauto.
  destruct (impute_object vals); [simpl; eauto | congruence].
Qed.

Lemma has_statistics_objects strategy cols :
  has_statistics strategy cols -> objects_kept cols.
Proof.
  unfold has_statistics, objects_kept. intros H.
  eapply Forall_impl; [|exact H]. intros [name [vals|vals|dt vals]]; simpl; auto.
Qed.

Lemma handle_missing_values_returns df strategy :
  (0 < index_len df)%nat -> has_statistics strategy (columns df) ->
  exists df', handle_missing_values df strategy = Returned df'.
Proof.
  intros Hrows Hstat. unfold handle_missing_values, check_array.
  destruct (Nat.eqb_spec (index_len df) 0) as [E|_]; [lia|]. simpl.
  destruct (@assign_numeric_returns _ _ Hstat) as (cols' & Hcols' & Hk').
  destruct (0 <? length (filter (fun nc => is_numeric (snd nc)) (columns df)))%nat.
  - rewrite Hcols'. simpl. destruct (@assign_categorical_returns _ Hk') as (cols2 & ->).
    destruct (0 <? _)%nat; simpl; eauto.
  - simpl.
    destruct (@assign_categorical_returns _ (@has_statistics_objects _ _ Hstat)) as (cols2 & ->).
    destruct (0 <? _)%nat; simpl; eauto.
Qed.

End Release.

(** [pd.DataFrame({'company': pd.Series(['Acme', None], dtype=object),
    'lead_score': [5, 7]})]: two leads, the second with [company] set to
    null, in an object column. *)
Definition leads_with_null : DataFrame :=
  mkDataFrame 2
    [("company", ObjCol [OStr "Acme"; ONone]);
     ("lead_score", NumCol [Some 5; Some 7])].

(** C7, evaluated: for the strategy [mean] the call on [leads_with_null]
    returns with the [None] of the object column still in place, so a
    missing value remains in a categorical column.  This is so under
    every release of scikit-learn. *)
Theorem handle_missing_values_leaves_none (release : sklearn_release) :
  handle_missing_values release leads_with_null "mean"
  = Returned (mkDataFrame 2
                [("company", ObjCol [OStr "Acme"; ONone]);
                 ("lead_score", NumCol [Some 5; Some 7])])
  /\ ~ (forall df', handle_missing_values release leads_with_null "mean" = Returned df' ->
                    no_missing (columns df')).
Proof.
  assert (E : handle_missing_values release leads_with_null "mean"
              = Returned (mkDataFrame 2
                            [("company", ObjCol [OStr "Acme"; ONone]);
                             ("lead_score", NumCol [Some 5; Some 7])]))
    by (destruct release; reflexivity).
  split; [exact E|].
  intros H. specialize (H _ E).
  inversion H as [|? ? Hc _]; subst. simpl in Hc. discriminate.
Qed.

End Imputation.

(** ** model_training.py: estimators and feature importance *)

Module Importance.
Import Py.
Local Open Scope string_scope.
Local Open Scope Q_scope.
Local Open Scope py_scope.

(** The estimator classes of the algorithm registry. *)
Inductive ModelClass :=
| RandomForestClassifier
| GradientBoostingClassifier
| LogisticRegression
| MLPClassifier
| RandomForestRegressor
| GradientBoostingRegressor
| LinearRegression
| MLPRegressor.

Definition class_name (c : ModelClass) : string :=
  match c with
  | RandomForestClassifier => "RandomForestClassifier"
  | GradientBoostingClassifier => "GradientBoostingClassifier"
  | LogisticRegression => "LogisticRegression"
  | MLPClassifier => "MLPClassifier"
  | RandomForestRegressor => "RandomForestRegressor"
  | GradientBoostingRegressor => "GradientBoostingRegressor"
  | LinearRegression => "LinearRegression"
  | MLPRegressor => "MLPRegressor"
  end.

(** A fitted estimator, by the attributes [hasattr] can find on it.
    scikit-learn gives the tree ensembles [feature_importances_] (one
    score per feature), the two linear models [coef_] (rows of one
    coefficient per feature), and the multi-layer perceptrons [coefs_]
    (one weight matrix per layer). *)
Record estimator := mkEstimator {
  model_class : ModelClass;
  feature_importances_ : option (list Q);
  coef_ : option (list (list Q));
  coefs_ : option (list (list (list Q)))
}.

Inductive family := TreeEnsemble | Linear | Perceptron.

Definition family_of (c : ModelClass) : family :=
  match c with
  | RandomForestClassifier | GradientBoostingClassifier
  | RandomForestRegressor | GradientBoostingRegressor => TreeEnsemble
  | LogisticRegression | LinearRegression => Linear
  | MLPClassifier | MLPRegressor => Perceptron
  end.

(** The attributes a fitted estimator of each class exposes. *)
Definition sklearn_fitted (m : estimator) : Prop :=
  match family_of (model_class m) with
  | TreeEnsemble =>
      feature_importances_ m <> None /\ coef_ m = None /\ coefs_ m = None
  | Linear =>
      feature_importances_ m = None /\ coef_ m <> None /\ coefs_ m = None
  | Perceptron =>
      feature_importances_ m = None /\ coef_ m = None /\ coefs_ m <> None
  end.

(** [hasattr(model, 'predict_proba')] *)
Definition has_predict_proba (c : ModelClass) : bool :=
  match c with
  | RandomForestClassifier | GradientBoostingClassifier
  | LogisticRegression | MLPClassifier => true
  | _ => false
  end.

(** A float as numpy's true division can leave it. *)
Inductive npfloat :=
| Fin (q : Q)
| PosInf
| NegInf
| NaN.

(** [x / s] on float64: dividing by zero raises nothing, it yields NaN
    for 0/0 and an infinity otherwise (with a RuntimeWarning). *)
Definition np_div (x s : Q) : npfloat :=
  if Qeq_bool s 0 then
    if Qeq_bool x 0 then NaN
    else if Qltb 0 x then PosInf else NegInf
  else Fin (x / s).

Definition shape (m : list (list Q)) : nat * nat :=
  (length m, length (hd [] m)).

Definition same_shape (a b : list (list Q)) : bool :=
  (fst (shape a) =? fst (shape b))%nat && (snd (shape a) =? snd (shape b))%nat.

(** [np.abs(model.coefs_).flatten()].  numpy builds one array out of the
    list of weight matrices only when they all have the same shape and
    raises ValueError otherwise. *)
Definition np_abs_flatten (cs : list (list (list Q))) : outcome (list Q) :=
  match cs with
  | [] => Returned []
  | first :: rest =>
      if forallb (same_shape first) rest
      then Returned (map Qabs (concat (concat cs)))
      else Raised (ValueError "setting an array element with a sequence. The requested array has an inhomogeneous shape")
  end.

(** [np.ones(n) / n] *)
Definition np_ones_over (n : nat) : list Q :=
  repeat (1 / inject_Z (Z.of_nat n)) n.

(** [dict(zip(keys, values))]: [zip] stops at the shorter sequence, a key
    met again keeps its place and takes the later value. *)
Definition dict_zip {V} (keys : list string) (values : list V) : list (string * V) :=
  fold_left (fun d kv => dict_set (fst kv) (snd kv) d) (combine keys values) [].

(** The body of the [try] block. *)
Definition importance_of (model : estimator) (feature_names : list string)
  : outcome (list (string * npfloat)) :=
  importance <- match feature_importances_ model with
                | Some native => Returned native
                | None =>
                    match coefs_ model with
                    | Some cs => np_abs_flatten cs
                    | None => Returned (np_ones_over (length feature_names))
                    end
                end ;;
  let total := Qsum importance in
  Returned (dict_zip feature_names (map (fun x => np_div x total) importance)).

(** The dict of the [except] branch. *)
Definition equal_importance (feature_names : list string) : list (string * npfloat) :=
  dict_zip feature_names
    (map (fun _ => Fin (1 / inject_Z (Z.of_nat (length feature_names)))) feature_names).

Definition get_feature_importance (model : estimator) (feature_names : list string)
  : list (string * npfloat) :=
  match importance_of model feature_names with
  | Returned importance_dict => importance_dict
  | Raised _ => equal_importance feature_names
  end.

(** The values of an importance dict are finite and add up to 1 within
    the tolerance. *)
Definition finite (x : npfloat) : option Q :=
  match x with Fin q => Some q | _ => None end.

Fixpoint finite_values (d : list (string * npfloat)) : option (list Q) :=
  match d with
  | [] => Some []
  | (_, x) :: rest =>
      match finite x, finite_values rest with
      | Some q, Some qs => Some (q :: qs)
      | _, _ => None
      end
  end.

Definition sums_to_one (d : list (string * npfloat)) : Prop :=
  exists qs, finite_values d = Some qs /\ Qabs (Qsum qs - 1) <= 1 # 1000000.

(** Dict values up to the representation of the fractions. *)
Definition canon (d : list (string * npfloat)) : list (string * npfloat) :=
  map (fun kv => (fst kv, match snd kv with Fin q => Fin (Qred q) | x => x end)) d.

(** *** The three sources, in the order the code tries them *)

Lemma native_importances_first model names native :
  feature_importances_ model = Some native ->
  get_feature_importance model names
  = dict_zip names (map (fun x => np_div x (Qsum native)) native).
Proof.
  intros H. unfold get_feature_importance, importance_of. rewrite H. reflexivity.
Qed.

Lemma layer_weights_second model names cs flat :
  feature_importances_ model = None ->
  coefs_ model = Some cs ->
  np_abs_flatten cs = Returned flat ->
  get_feature_importance model names
  = dict_zip names (map (fun x => np_div x (Qsum flat)) flat).
Proof.
  intros H1 H2 H3. unfold get_feature_importance, importance_of.
  rewrite H1, H2, H3. reflexivity.
Qed.

Lemma ragged_layer_weights_fall_back model names cs e :
  feature_importances_ model = None ->
  coefs_ model = Some cs ->
  np_abs_flatten cs = Raised e ->
  get_feature_importance model names = equal_importance names.
Proof.
  intros H1 H2 H3. unfold get_feature_importance, importance_of.
  rewrite H1, H2, H3. reflexivity.
Qed.

Lemma equal_weights_last model names :
  feature_importances_ model = None ->
  coefs_ model = None ->
  get_feature_importance model names
  = dict_zip names
      (map (fun x => np_div x (Qsum (np_ones_over (length names))))
           (np_ones_over (length names))).
Proof.
  intros H1 H2. unfold get_feature_importance, importance_of.
  rewrite H1, H2. reflexivity.
Qed.

(** The attribute the second branch looks for is [coefs_]; the linear
    models carry their coefficients in [coef_], which no branch reads: a
    fitted linear model always ends in the last branch. *)
Lemma linear_model_coefficients_unread model names :
  sklearn_fitted model ->
  family_of (model_class model) = Linear ->
  get_feature_importance model names
  = dict_zip names
      (map (fun x => np_div x (Qsum (np_ones_over (length names))))
           (np_ones_over (length names))).
Proof.
  unfold sklearn_fitted. intros Hfit Hfam. rewrite Hfam in Hfit.
  destruct Hfit as (H1 & _ & H3). apply equal_weights_last; assumption.
Qed.

(** The perceptrons of the registry have at least one hidden layer, and
    the widths the grid offers differ from layer to layer (50 then 25, 100
    then 50): their weight matrices do not share a shape, [np.abs] raises
    and the [except] branch answers with equal weights. *)
Lemma layered_perceptron_falls_back model names W1 W2 rest :
  feature_importances_ model = None ->
  coefs_ model = Some (W1 :: W2 :: rest) ->
  snd (shape W1) <> snd (shape W2) ->
  get_feature_importance model names = equal_importance names.
Proof.
  intros H1 H2 Hwidth.
  assert (Hraise : exists e, np_abs_flatten (W1 :: W2 :: rest) = Raised e).
  { unfold np_abs_flatten. cbn [forallb].
    assert (Hdiff : same_shape W1 W2 = false).
    { unfold same_shape. apply andb_false_iff. right.
      apply Nat.eqb_neq. exact Hwidth. }
    rewrite Hdiff. cbn [andb]. eauto. }
  destruct Hraise as [e He].
  apply (ragged_layer_weights_fall_back _ _ H1 H2 He).
Qed.

(** *** Sums *)

Lemma dict_set_fresh {V} k (v : V) d :
  ~ In k (map fst d) -> dict_set k v d = (d ++ [(k, v)])%list.
Proof.
  induction d as [|[k' v'] rest IH]; simpl; intros Hnin; [reflexivity|].
  destruct (String.eqb_spec k' k) as [->|Hne].
  - exfalso. apply Hnin. left. reflexivity.
  - rewrite IH; [reflexivity|]. intros Hin. apply Hnin. right. exact Hin.
Qed.

Lemma dict_zip_acc {V} (keys : list string) (values : list V) d :
  NoDup (map fst d ++ keys) ->
  fold_left (fun d kv => dict_set (fst kv) (snd kv) d) (combine keys values) d
  = (d ++ combine keys values)%list.
Proof.
  revert values d. induction keys as [|k keys IH]; intros values d Hnd; simpl.
  - rewrite app_nil_r. reflexivity.
  - destruct values as [|v values]; simpl; [rewrite app_nil_r; reflexivity|].
    assert (Hfresh : ~ In k (map fst d)).
    { intros Hin. apply NoDup_remove_2 in Hnd. apply Hnd.
      apply in_or_app. left. exact Hin. }
    rewrite (dict_set_fresh _ _ _ Hfresh).
    rewrite IH.
    + rewrite <- app_assoc. reflexivity.
    + rewrite map_app. simpl. rewrite <- app_assoc. simpl.
      exact Hnd.
Qed.

Lemma dict_zip_distinct {V} (keys : list string) (values : list V) :
  NoDup keys -> dict_zip keys values = combine keys values.
Proof.
  intros Hnd. unfold dict_zip. rewrite dict_zip_acc; [reflexivity | exact Hnd].
Qed.

Lemma np_div_finite x s : ~ s == 0 -> np_div x s = Fin (x / s).
Proof.
  intros Hs. unfold np_div.
  destruct (Qeq_bool s 0) eqn:E; [|reflexivity].
  apply Qeq_bool_iff in E. contradiction.
Qed.

Lemma finite_values_normalized (names : list string) (l : list Q) s :
  ~ s == 0 -> length names = length l ->
  finite_values (combine names (map (fun x => np_div x s) l))
  = Some (map (fun x => x / s) l).
Proof.
  intros Hs. revert l. induction names as [|n names IH]; intros [|x l] Hlen;
    simpl in *; try discriminate; [reflexivity|].
  rewrite (np_div_finite _ Hs). simpl.
  rewrite IH by lia. reflexivity.
Qed.

Lemma Qsum_scaled (l : list Q) s : Qsum (map (fun x => x / s) l) == Qsum l / s.
Proof.
  induction l as [|x l IH]; simpl.
  - unfold Qdiv. ring.
  - rewrite IH. unfold Qdiv. ring.
Qed.

Lemma within_tolerance (x : Q) : x == 1 -> Qabs (x - 1) <= 1 # 1000000.
Proof.
  intros H. rewrite H. setoid_replace (1 - 1) with 0 by ring.
  simpl. discriminate.
Qed.

(** Dividing by the sum does normalize, when there is one weight per name,
    the names are distinct and the sum is not zero. *)
Lemma normalized_sums_to_one (names : list string) (l : list Q) :
  NoDup names -> length names = length l -> ~ Qsum l == 0 ->
  sums_to_one (dict_zip names (map (fun x => np_div x (Qsum l)) l)).
Proof.
  intros Hnd Hlen Hs. unfold sums_to_one.
  rewrite (dict_zip_distinct _ Hnd).
  rewrite (finite_values_normalized _ _ Hs Hlen).
  eexists. split; [reflexivity|].
  apply within_tolerance. rewrite Qsum_scaled. field. exact Hs.
Qed.

Lemma Qsum_repeat (q : Q) n : Qsum (repeat q n) == inject_Z (Z.of_nat n) * q.
Proof.
  induction n as [|n IH].
  - simpl. ring.
  - cbn [repeat Qsum fold_right]. fold (Qsum (repeat q n)). rewrite IH.
    rewrite Nat2Z.inj_succ. unfold Z.succ. rewrite inject_Z_plus. ring.
Qed.

Lemma positive_count (n : nat) : (0 < n)%nat -> ~ inject_Z (Z.of_nat n) == 0.
Proof.
  intros Hn H. unfold Qeq in H. simpl in H. lia.
Qed.

Lemma Qsum_ones_over n : (0 < n)%nat -> Qsum (np_ones_over n) == 1.
Proof.
  intros Hn. unfold np_ones_over. rewrite Qsum_repeat.
  field. apply positive_count, Hn.
Qed.

Lemma equal_importance_sums_to_one (names : list string) :
  names <> [] -> NoDup names -> sums_to_one (equal_importance names).
Proof.
  intros Hne Hnd. unfold sums_to_one, equal_importance.
  rewrite (dict_zip_distinct _ Hnd).
  assert (Hn : (0 < length names)%nat) by (destruct names; [congruence | simpl; lia]).
  set (w := 1 / inject_Z (Z.of_nat (length names))).
  assert (Hfv : forall l : list string,
             finite_values (combine l (map (fun _ => Fin w) l)) = Some (repeat w (length l))).
  { induction l as [|x l IH]; simpl; [reflexivity | rewrite IH; reflexivity]. }
  rewrite Hfv. eexists. split; [reflexivity|].
  apply within_tolerance. rewrite Qsum_repeat. unfold w.
  field. apply positive_count, Hn.
Qed.

(** The importances do add up to 1 for distinct feature names whenever the
    scores the model exposes come one per feature and do not add up to
    zero. *)
Lemma feature_importance_sums_to_one model (names : list string) :
  names <> [] -> NoDup names ->
  (forall native, feature_importances_ model = Some native ->
                  length names = length native /\ ~ Qsum native == 0) ->
  (forall cs flat, feature_importances_ model = None -> coefs_ model = Some cs ->
                   np_abs_flatten cs = Returned flat ->
                   length names = length flat /\ ~ Qsum flat == 0) ->
  sums_to_one (get_feature_importance model names).
Proof.
  intros Hne Hnd Hnative Hlayers.
  assert (Hn : (0 < length names)%nat) by (destruct names; [congruence | simpl; lia]).
  destruct (feature_importances_ model) as [native|] eqn:E1.
  - rewrite (native_importances_first _ _ E1).
    destruct (Hnative _ eq_refl) as [Hlen Hs].
    apply normalized_sums_to_one; assumption.
  - destruct (coefs_ model) as [cs|] eqn:E2.
    + destruct (np_abs_flatten cs) as [flat|e] eqn:E3.
      * rewrite (layer_weights_second _ _ E1 E2 E3).
        destruct (Hlayers _ _ eq_refl eq_refl E3) as [Hlen Hs].
        apply normalized_sums_to_one; assumption.
      * rewrite (ragged_layer_weights_fall_back _ _ E1 E2 E3).
        apply equal_importance_sums_to_one; assumption.
    + rewrite (equal_weights_last _ _ E1 E2).
      apply normalized_sums_to_one; [assumption | |].
      * unfold np_ones_over. rewrite repeat_length. reflexivity.
      * rewrite (Qsum_ones_over Hn). discriminate.
Qed.

(** *** Two fitted models *)

(** A forest none of whose trees found a split: scikit-learn reports an
    importance of zero for every feature. *)
Definition unsplit_forest : estimator :=
  mkEstimator RandomForestClassifier (Some [0; 0]) None None.

Definition two_features : list string := ["company_size_score"; "job_title_score"].

Example unsplit_forest_importance :
  get_feature_importance unsplit_forest two_features
  = [("company_size_score", NaN); ("job_title_score", NaN)].
Proof. reflexivity. Qed.

(** A fitted logistic regression on the same two features, with the
    coefficients 3 and -1. *)
Definition fitted_logistic : estimator :=
  mkEstimator LogisticRegression None (Some [[3; -1]]) None.

(** What the claim promises for a linear model: the absolute values of
    its coefficients, divided by their sum. *)
Definition normalized_abs_coefficients (model : estimator) (names : list string)
  : list (string * npfloat) :=
  match coef_ model with
  | Some rows =>
      let magnitude := map Qabs (concat rows) in
      dict_zip names (map (fun x => np_div x (Qsum magnitude)) magnitude)
  | None => []
  end.

Example logistic_importance :
  canon (normalized_abs_coefficients fitted_logistic two_features)
  = [("company_size_score", Fin (3 # 4)); ("job_title_score", Fin (1 # 4))]
  /\ canon (get_feature_importance fitted_logistic two_features)
     = [("company_size_score", Fin (1 # 2)); ("job_title_score", Fin (1 # 2))].
Proof. split; reflexivity. Qed.

End Importance.

(** ** model_training.py: the trainer *)

Module Training.
Import Py Frame Importance.
Local Open Scope string_scope.
Local Open Scope py_scope.

(** *** The algorithm registry *)

Inductive param_value :=
| PInt (z : Z)
| PFloat (q : Q)
| PStr (s : string)
| PNone
| PTuple (zs : list Z).

Definition param_grid := list (string * list param_value).

Record algorithm_config := mkAlgorithm {
  alg_model : ModelClass;
  alg_params : param_grid
}.

Definition forest_grid : param_grid :=
  [("n_estimators", [PInt 100; PInt 200; PInt 300]);
   ("max_depth", [PInt 10; PInt 20; PInt 30; PNone]);
   ("min_samples_split", [PInt 2; PInt 5; PInt 10]);
   ("min_samples_leaf", [PInt 1; PInt 2; PInt 4])].

Definition boosting_grid : param_grid :=
  [("n_estimators", [PInt 100; PInt 200]);
   ("learning_rate", [PFloat (5 # 100); PFloat (1 # 10); PFloat (2 # 10)]);
   ("max_depth", [PInt 3; PInt 5; PInt 7])].

Definition network_grid : param_grid :=
  [("hidden_layer_sizes", [PTuple [50; 25]; PTuple [100; 50]; PTuple [100; 50; 25]]%Z);
   ("activation", [PStr "relu"; PStr "tanh"]);
   ("learning_rate", [PStr "constant"; PStr "adaptive"]);
   ("max_iter", [PInt 500])].

Definition model_configs : list (string * list (string * algorithm_config)) :=
  [("lead_conversion",
    [("random_forest", mkAlgorithm RandomForestClassifier forest_grid);
     ("gradient_boosting", mkAlgorithm GradientBoostingClassifier boosting_grid);
     ("logistic_regression",
      mkAlgorithm LogisticRegression
        [("C", [PFloat (1 # 10); PInt 1; PInt 10; PInt 100]); ("max_iter", [PInt 1000])]);
     ("neural_network", mkAlgorithm MLPClassifier network_grid)]);
   ("customer_lifetime_value",
    [("random_forest", mkAlgorithm RandomForestRegressor forest_grid);
     ("gradient_boosting", mkAlgorithm GradientBoostingRegressor boosting_grid);
     ("linear_regression", mkAlgorithm LinearRegression []);
     ("neural_network", mkAlgorithm MLPRegressor network_grid)])].

(** [model_type in model_configs and algorithm in ...['algorithms']] *)
Definition lookup_algorithm (model_type algorithm : string) : option algorithm_config :=
  match dict_get model_type model_configs with
  | Some algorithms => dict_get algorithm algorithms
  | None => None
  end.

(** *** Records the trainer produces *)

Definition metrics := list (string * option Q).

Record model_metadata := mkMetadata {
  md_model_type : string;
  md_algorithm : string;
  md_model_name : string;
  md_user_id : string;
  md_training_date : string;
  md_training_samples : nat;
  md_test_samples : nat;
  md_features : list string;
  md_best_params : list (string * param_value);
  md_feature_importance : list (string * npfloat);
  md_metrics : metrics;
  md_model_class : string
}.

(** The dict a training call hands back: the success shape the code
    builds, and the failure shape [{success: False, error}] the API layer
    tests for. *)
Inductive training_result :=
| TrainingSucceeded (model_path : string) (metadata : model_metadata) (m : metrics)
| TrainingFailed (error : string).

Definition success (r : training_result) : bool :=
  match r with
  | TrainingSucceeded _ _ _ => true
  | TrainingFailed _ => false
  end.

(** [ModelClass(random_state=42)]: of the classes of the registry,
    scikit-learn's LinearRegression alone has no [random_state]
    parameter. *)
Definition accepts_random_state (c : ModelClass) : bool :=
  match c with
  | LinearRegression => false
  | _ => true
  end.

(** *** The collaborators: scikit-learn, joblib, the file system, the clock

    - [train_test_split X y stratify]: the 80/20 split, stratified or not;
    - [construct c]: [ModelClass(random_state=42)];
    - [grid_search_fit c grid scoring X y]: [GridSearchCV(..., cv=5).fit],
      its best estimator and best parameters;
    - [fit], [predict], [predict_proba]: the estimator's methods;
    - [score name y_true y_pred]: the metric functions of [sklearn.metrics];
    - [n_unique y]: [len(np.unique(y))];
    - [now_isoformat], [now_strftime]: the two readings of the clock;
    - [makedirs], [joblib_dump], [json_dump]: the writes of [save_model]. *)

Record Backend := mkBackend {
  train_test_split :
    DataFrame -> column -> bool -> outcome (DataFrame * DataFrame * column * column);
  construct : ModelClass -> outcome unit;
  grid_search_fit :
    ModelClass -> param_grid -> string -> DataFrame -> column
    -> outcome (estimator * list (string * param_value));
  fit : ModelClass -> DataFrame -> column -> outcome estimator;
  predict : estimator -> DataFrame -> outcome (list Q);
  predict_proba : estimator -> DataFrame -> outcome (list (list Q));
  score : string -> column -> list Q -> outcome Q;
  n_unique : column -> nat;
  roc_auc_binary : column -> list Q -> outcome Q;
  roc_auc_ovr : column -> list (list Q) -> outcome Q;
  np_sqrt : Q -> Q;
  now_isoformat : string;
  now_strftime : string;
  makedirs : string -> outcome unit;
  joblib_dump : estimator -> string -> outcome unit;
  json_dump : model_metadata -> string -> outcome unit
}.

Section Trainer.

Variable be : Backend.
Variable model_dir : string.

(** [y_pred_proba[:, 1]] *)
Fixpoint second_column (proba : list (list Q)) : outcome (list Q) :=
  match proba with
  | [] => Returned []
  | row :: rest =>
      match nth_error row 1 with
      | None => Raised (Exn "IndexError" "index 1 is out of bounds for axis 1")
      | Some p => rest' <- second_column rest ;; Returned (p :: rest')
      end
  end.

Definition calculate_metrics (model_type : string) (y_true : column)
    (y_pred : list Q) (y_pred_proba : option (list (list Q))) : outcome metrics :=
  if String.eqb model_type "lead_conversion" then
    accuracy <- score be "accuracy" y_true y_pred ;;
    precision <- score be "precision_weighted" y_true y_pred ;;
    recall <- score be "recall_weighted" y_true y_pred ;;
    f1 <- score be "f1_weighted" y_true y_pred ;;
    let m := [("accuracy", Some accuracy); ("precision", Some precision);
              ("recall", Some recall); ("f1_score", Some f1)] in
    match y_pred_proba with
    | None => Returned m
    | Some proba =>
        try_except
          (if (n_unique be y_true =? 2)%nat
           then positive <- second_column proba ;;
                auc <- roc_auc_binary be y_true positive ;;
                Returned (dict_set "roc_auc" (Some auc) m)
           else auc <- roc_auc_ovr be y_true proba ;;
                Returned (dict_set "roc_auc" (Some auc) m))
          (fun _ => Returned (dict_set "roc_auc" None m))
    end
  else
    mse <- score be "mean_squared_error" y_true y_pred ;;
    mae <- score be "mean_absolute_error" y_true y_pred ;;
    r2 <- score be "r2" y_true y_pred ;;
    mse' <- score be "mean_squared_error" y_true y_pred ;;
    Returned [("mean_squared_error", Some mse); ("mean_absolute_error", Some mae);
              ("r2_score", Some r2); ("root_mean_squared_error", Some (np_sqrt be mse'))].

Definition save_model (model : estimator) (metadata : model_metadata) : outcome string :=
  let timestamp := now_strftime be in
  let model_name := md_model_name metadata in
  let user_id := md_user_id metadata in
  let user_dir := path_join model_dir user_id in
  _ <- makedirs be user_dir ;;
  let model_path := path_join user_dir (model_name ++ "_" ++ timestamp ++ ".joblib") in
  _ <- joblib_dump be model model_path ;;
  let metadata_path := path_join user_dir (model_name ++ "_" ++ timestamp ++ "_metadata.json") in
  _ <- json_dump be metadata metadata_path ;;
  Returned model_path.

Definition train_model (model_type algorithm : string) (X : DataFrame) (y : column)
    (model_name user_id : string) : outcome training_result :=
  match dict_get model_type model_configs with
  | None => Raised (ValueError ("Unknown model type: " ++ model_type))
  | Some algorithms =>
      match dict_get algorithm algorithms with
      | None =>
          Raised (ValueError ("Unknown algorithm " ++ algorithm
                              ++ " for model type " ++ model_type))
      | Some model_config =>
          '(X_train, X_test, y_train, y_test) <-
            train_test_split be X y (String.eqb model_type "lead_conversion") ;;
          let ModelClass := alg_model model_config in
          _ <- construct be ModelClass ;;
          '(model, best_params) <-
            match alg_params model_config with
            | [] =>
                model <- fit be ModelClass X_train y_train ;;
                Returned (model, [])
            | grid =>
                grid_search_fit be ModelClass grid
                  (if String.eqb model_type "lead_conversion" then "accuracy" else "r2")
                  X_train y_train
            end ;;
          y_pred <- predict be model X_test ;;
          y_pred_proba <- (if has_predict_proba (model_class model)
                           then p <- predict_proba be model X_test ;; Returned (Some p)
                           else Returned None) ;;
          m <- calculate_metrics model_type y_test y_pred y_pred_proba ;;
          let feature_importance := get_feature_importance model (map fst (columns X)) in
          let model_metadata :=
            mkMetadata model_type algorithm model_name user_id (now_isoformat be)
              (index_len X_train) (index_len X_test) (map fst (columns X))
              best_params feature_importance m (class_name ModelClass) in
          model_path <- save_model model model_metadata ;;
          Returned (TrainingSucceeded model_path model_metadata m)
      end
  end.

(** *** When a run returns *)

(** The constructors are scikit-learn's: a class without a
    [random_state] parameter raises TypeError. *)
Definition sklearn_constructors : Prop :=
  forall c, accepts_random_state c = false ->
            exists msg, construct be c = Raised (Exn "TypeError" msg).

(** The fit of a run: the grid search when the configuration has a
    grid, the plain fit otherwise. *)
Definition search_or_fit (model_type : string) (config : algorithm_config)
    (X_train : DataFrame) (y_train : column)
  : outcome (estimator * list (string * param_value)) :=
  match alg_params config with
  | [] =>
      model <- fit be (alg_model config) X_train y_train ;;
      Returned (model, [])
  | grid =>
      grid_search_fit be (alg_model config) grid
        (if String.eqb model_type "lead_conversion" then "accuracy" else "r2")
        X_train y_train
  end.

(** The scores [calculate_metrics] asks for outside its [try]. *)
Definition scorings (model_type : string) : list string :=
  if String.eqb model_type "lead_conversion"
  then ["accuracy"; "precision_weighted"; "recall_weighted"; "f1_weighted"]
  else ["mean_squared_error"; "mean_absolute_error"; "r2"].

(** The collaborator calls that one run of [train_model] makes for a
    registered configuration all return: the split, the construction of
    the estimator, the search or the fit on the training part, the
    predictions and, where the estimator has them, the probabilities on
    the test part, the scores of the task, and the three writes of
    [save_model] at the paths of the run.  The ROC-AUC is not among
    them: [calculate_metrics] catches what it raises. *)
Definition run_returns (model_type algorithm : string) (config : algorithm_config)
    (X : DataFrame) (y : column) (model_name user_id : string) : Prop :=
  exists X_train X_test y_train y_test model best_params y_pred,
    train_test_split be X y (String.eqb model_type "lead_conversion")
    = Returned (X_train, X_test, y_train, y_test)
    /\ construct be (alg_model config) = Returned tt
    /\ search_or_fit model_type config X_train y_train = Returned (model, best_params)
    /\ predict be model X_test = Returned y_pred
    /\ (has_predict_proba (model_class model) = true ->
        exists proba, predict_proba be model X_test = Returned proba)
    /\ (forall name, In name (scorings model_type) ->
          exists s, score be name y_test y_pred = Returned s)
    /\ makedirs be (path_join model_dir user_id) = Returned tt
    /\ joblib_dump be model
         (path_join (path_join model_dir user_id)
            (model_name ++ "_" ++ now_strftime be ++ ".joblib"))
       = Returned tt
    /\ (forall m,
          json_dump be
            (mkMetadata model_type algorithm model_name user_id (now_isoformat be)
               (index_len X_train) (index_len X_test) (map fst (columns X))
               best_params (get_feature_importance model (map fst (columns X)))
               m (class_name (alg_model config)))
            (path_join (path_join model_dir user_id)
               (model_name ++ "_" ++ now_strftime be ++ "_metadata.json"))
          = Returned tt).

Lemma calculate_metrics_returns model_type y_true y_pred y_pred_proba :
  (forall name, In name (scorings model_type) ->
     exists s, score be name y_true y_pred = Returned s) ->
  exists m, calculate_metrics model_type y_true y_pred y_pred_proba = Returned m.
Proof.
  unfold calculate_metrics, scorings. intros D.
  destruct (String.eqb model_type "lead_conversion").
  - destruct (D "accuracy") as [a ->]; [simpl; auto|].
    destruct (D "precision_weighted") as [p ->]; [simpl; auto|].
    destruct (D "recall_weighted") as [r ->]; [simpl; auto|].
    destruct (D "f1_weighted") as [f ->]; [simpl; auto|]. simpl.
    destruct y_pred_proba as [proba|]; [|eauto].
    apply try_except_total. eauto.
  - destruct (D "mean_squared_error") as [a ->]; [simpl; auto|].
    destruct (D "mean_absolute_error") as [p ->]; [simpl; auto|].
    destruct (D "r2") as [r ->]; [simpl; auto|]. simpl. eauto.
Qed.

Lemma train_model_never_reports_failure model_type algorithm X y model_name user_id r :
  train_model model_type algorithm X y model_name user_id = Returned r ->
  success r = true /\ lookup_algorithm model_type algorithm <> None.
Proof.
  unfold train_model, lookup_algorithm.
  destruct (dict_get model_type model_configs) as [algorithms|]; [|discriminate].
  destruct (dict_get algorithm algorithms) as [model_config|]; [|discriminate].
  intros H. split; [|discriminate].
  apply bind_returned in H. destruct H as ([[[X_train X_test] y_train] y_test] & _ & H).
  apply bind_returned in H. destruct H as (_ & _ & H).
  apply bind_returned in H. destruct H as ([model best_params] & _ & H).
  apply bind_returned in H. destruct H as (y_pred & _ & H).
  apply bind_returned in H. destruct H as (y_pred_proba & _ & H).
  apply bind_returned in H. destruct H as (m & _ & H).
  apply bind_returned in H. destruct H as (model_path & _ & H).
  injection H as <-. reflexivity.
Qed.

Lemma train_model_returns model_type algorithm config X y model_name user_id :
  lookup_algorithm model_type algorithm = Some config ->
  run_returns model_type algorithm config X y model_name user_id ->
  exists model_path metadata m,
    train_model model_type algorithm X y model_name user_id
    = Returned (TrainingSucceeded model_path metadata m).
Proof.
  unfold train_model, lookup_algorithm. intros Hreg D.
  destruct (dict_get model_type model_configs) as [algorithms|]; [|discriminate].
  rewrite Hreg.
  destruct D as (X_train & X_test & y_train & y_test & model & best_params & y_pred
                 & Hsplit & Hctor & Hfit & Hpred & Hproba & Hscore & Hmk & Hblob & Hdoc).
  rewrite Hsplit. cbn [bind]. rewrite Hctor. cbn [bind].
  unfold search_or_fit in Hfit. rewrite Hfit. cbn [bind]. rewrite Hpred. cbn [bind].
  assert (Hpp : exists pp,
             (if has_predict_proba (model_class model)
              then bind (predict_proba be model X_test) (fun p => Returned (Some p))
              else Returned None) = Returned pp).
  { destruct (has_predict_proba (model_class model)); [|eauto].
    destruct (Hproba eq_refl) as [p ->]. simpl. eauto. }
  destruct Hpp as [pp ->]. cbn [bind].
  destruct (@calculate_metrics_returns model_type y_test y_pred pp Hscore) as [m ->].
  cbn [bind]. unfold save_model.
  cbn [md_model_name md_user_id]. rewrite Hmk. cbn [bind]. rewrite Hblob. cbn [bind].
  rewrite Hdoc. cbn [bind]. eauto.
Qed.

Lemma train_model_constructor_raises model_type algorithm config X y model_name user_id
    X_train X_test y_train y_test :
  lookup_algorithm model_type algorithm = Some config ->
  accepts_random_state (alg_model config) = false ->
  sklearn_constructors ->
  train_test_split be X y (String.eqb model_type "lead_conversion")
  = Returned (X_train, X_test, y_train, y_test) ->
  exists msg,
    train_model model_type algorithm X y model_name user_id
    = Raised (Exn "TypeError" msg).
Proof.
  unfold train_model, lookup_algorithm. intros Hreg Hacc Hsk Hsplit.
  destruct (dict_get model_type model_configs) as [algorithms|]; [|discriminate].
  rewrite Hreg, Hsplit. cbn [bind].
  destruct (Hsk _ Hacc) as [msg ->]. exists msg. reflexivity.
Qed.

(** C1, as the code has it.  [train_model] has no handler of its own:
    for a model type or an algorithm that is not in the registry it
    raises ValueError to its caller; a result it returns is always the
    success record [{success: True, model_path, metadata, metrics}] for a
    registered pair, never [{success: False, error}]; it does return
    that record for a registered pair when the collaborator calls of the
    run return, [run_returns]; and when the class of the pair takes no
    [random_state], as LinearRegression under the constructors of
    scikit-learn, the call raises TypeError once the split has
    returned. *)
Theorem train_model_contract (model_type algorithm : string) (X : DataFrame)
    (y : column) (model_name user_id : string) :
  (dict_get model_type model_configs = None ->
   train_model model_type algorithm X y model_name user_id
   = Raised (ValueError ("Unknown model type: " ++ model_type)))
  /\ (dict_get model_type model_configs <> None ->
      lookup_algorithm model_type algorithm = None ->
      train_model model_type algorithm X y model_name user_id
      = Raised (ValueError ("Unknown algorithm " ++ algorithm
                            ++ " for model type " ++ model_type)))
  /\ (forall r, train_model model_type algorithm X y model_name user_id = Returned r ->
                success r = true /\ lookup_algorithm model_type algorithm <> None)
  /\ (forall config,
        lookup_algorithm model_type algorithm = Some config ->
        run_returns model_type algorithm config X y model_name user_id ->
        exists model_path metadata m,
          train_model model_type algorithm X y model_name user_id
          = Returned (TrainingSucceeded model_path metadata m))
  /\ (forall config X_train X_test y_train y_test,
        lookup_algorithm model_type algorithm = Some config ->
        accepts_random_state (alg_model config) = false ->
        sklearn_constructors ->
        train_test_split be X y (String.eqb model_type "lead_conversion")
        = Returned (X_train, X_test, y_train, y_test) ->
        exists msg,
          train_model model_type algorithm X y model_name user_id
          = Raised (Exn "TypeError" msg)).
Proof.
  split; [|split; [|split; [|split]]].
  - unfold train_model. intros ->. reflexivity.
  - unfold train_model, lookup_algorithm. intros Hty Halg.
    destruct (dict_get model_type model_configs) as [algorithms|]; [|congruence].
    rewrite Halg. reflexivity.
  - apply train_model_never_reports_failure.
  - intros config. apply train_model_returns.
  - intros config X_train X_test y_train y_test.
    apply train_model_constructor_raises.
Qed.

End Trainer.

(** A fitted estimator of each class, over two features. *)
Definition sample_estimator (c : ModelClass) : estimator :=
  match family_of c with
  | TreeEnsemble => mkEstimator c (Some [3; 1]%Q) None None
  | Linear => mkEstimator c None (Some [[2; -2]]%Q) None
  | Perceptron =>
      mkEstimator c None None (Some [[[1; -1; 2]; [0; 1; 1]]; [[1]; [2]; [-1]]]%Q)
  end.

Lemma sample_estimator_fitted c : sklearn_fitted (sample_estimator c).
Proof.
  unfold sklearn_fitted, sample_estimator.
  destruct c; simpl; repeat split; discriminate.
Qed.

(** A backend in which nothing fails but the constructor of a class
    without [random_state], which raises as scikit-learn's does: the
    split hands both halves the whole table, a fit yields the sample
    estimator of the class. *)
Definition quiet_backend : Backend :=
  {| train_test_split := fun X y _ => Returned (X, X, y, y);
     construct := fun c =>
       if accepts_random_state c then Returned tt
       else Raised (Exn "TypeError"
                      "LinearRegression.__init__() got an unexpected keyword argument 'random_state'");
     grid_search_fit := fun c _ _ _ _ =>
       Returned (sample_estimator c, [("n_estimators", PInt 100)]);
     fit := fun c _ _ => Returned (sample_estimator c);
     predict := fun _ X => Returned (repeat 1%Q (index_len X));
     predict_proba := fun _ X => Returned (repeat [0; 1]%Q (index_len X));
     score := fun _ _ _ => Returned 1%Q;
     n_unique := fun _ => 2%nat;
     roc_auc_binary := fun _ _ => Returned 1%Q;
     roc_auc_ovr := fun _ _ => Returned 1%Q;
     np_sqrt := fun q => q;
     now_isoformat := "2024-05-01T12:00:00";
     now_strftime := "20240501_120000";
     makedirs := fun _ => Returned tt;
     joblib_dump := fun _ _ => Returned tt;
     json_dump := fun _ _ => Returned tt |}.

Definition two_leads : DataFrame :=
  mkDataFrame 2
    [("company_size_score", NumCol [Some 50; Some 10]%Q);
     ("job_title_score", NumCol [Some 25; Some 5]%Q)].

Definition two_labels : column := NumCol [Some 1; Some 0]%Q.

(** A registered pair on the quiet backend: the success record. *)
Example train_model_run :
  train_model quiet_backend "models" "lead_conversion" "random_forest"
    two_leads two_labels "scorer" "u1"
  = Returned
      (TrainingSucceeded "models/u1/scorer_20240501_120000.joblib"
         (mkMetadata "lead_conversion" "random_forest" "scorer" "u1"
            "2024-05-01T12:00:00" 2 2 ["company_size_score"; "job_title_score"]
            [("n_estimators", PInt 100)]
            (get_feature_importance (sample_estimator RandomForestClassifier)
               ["company_size_score"; "job_title_score"])
            [("accuracy", Some 1%Q); ("precision", Some 1%Q); ("recall", Some 1%Q);
             ("f1_score", Some 1%Q); ("roc_auc", Some 1%Q)]
            "RandomForestClassifier")
         [("accuracy", Some 1%Q); ("precision", Some 1%Q); ("recall", Some 1%Q);
          ("f1_score", Some 1%Q); ("roc_auc", Some 1%Q)]).
Proof. reflexivity. Qed.

(** The quiet backend, except that the search hands back the model given
    here. *)
Definition backend_fitting (model : estimator) : Backend :=
  {| train_test_split := train_test_split quiet_backend;
     construct := construct quiet_backend;
     grid_search_fit := fun _ _ _ _ _ => Returned (model, [("n_estimators", PInt 100)]);
     fit := fun _ _ _ => Returned model;
     predict := predict quiet_backend;
     predict_proba := predict_proba quiet_backend;
     score := score quiet_backend;
     n_unique := n_unique quiet_backend;
     roc_auc_binary := roc_auc_binary quiet_backend;
     roc_auc_ovr := roc_auc_ovr quiet_backend;
     np_sqrt := np_sqrt quiet_backend;
     now_isoformat := now_isoformat quiet_backend;
     now_strftime := now_strftime quiet_backend;
     makedirs := makedirs quiet_backend;
     joblib_dump := joblib_dump quiet_backend;
     json_dump := json_dump quiet_backend |}.

(** The importances a training call stores in the metadata it returns. *)
Definition stored_importance (r : outcome training_result)
  : option (list (string * npfloat)) :=
  match r with
  | Returned (TrainingSucceeded _ metadata _) => Some (md_feature_importance metadata)
  | _ => None
  end.

(** Leads that all look the same: no feature separates the labels. *)
Definition constant_leads : DataFrame :=
  mkDataFrame 4
    [("company_size_score", NumCol [Some 10; Some 10; Some 10; Some 10]%Q);
     ("job_title_score", NumCol [Some 5; Some 5; Some 5; Some 5]%Q)].

Definition four_labels : column := NumCol [Some 1; Some 0; Some 1; Some 0]%Q.

(** C3, evaluated.  On features that are constant no tree of a random
    forest finds a split, and the fitted forest reports an importance of
    zero for both features; the scores add up to zero, the division
    yields NaN for each feature and raises nothing, and the artifact is
    stored with importances that are not numbers summing to 1 within
    1e-6. *)
Theorem zero_importances_become_nan :
  sklearn_fitted unsplit_forest
  /\ map fst (columns constant_leads) <> []
  /\ stored_importance
       (train_model (backend_fitting unsplit_forest) "models" "lead_conversion"
          "random_forest" constant_leads four_labels "scorer" "u1")
     = Some (get_feature_importance unsplit_forest (map fst (columns constant_leads)))
  /\ get_feature_importance unsplit_forest (map fst (columns constant_leads))
     = [("company_size_score", NaN); ("job_title_score", NaN)]
  /\ ~ sums_to_one
        (get_feature_importance unsplit_forest (map fst (columns constant_leads))).
Proof.
  split; [|split; [|split; [|split]]].
  - simpl. repeat split; discriminate.
  - discriminate.
  - reflexivity.
  - reflexivity.
  - intros (qs & Hfin & _). discriminate Hfin.
Qed.

(** C4, evaluated.  A fitted logistic regression has no native
    importances and has the coefficients 3 and -1, whose normalized
    magnitudes are 3/4 and 1/4; the artifact is stored with 1/2 for each
    feature, the equal weights of the last source. *)
Theorem linear_coefficients_not_used :
  sklearn_fitted fitted_logistic
  /\ feature_importances_ fitted_logistic = None
  /\ canon (normalized_abs_coefficients fitted_logistic (map fst (columns two_leads)))
     = [("company_size_score", Fin (3 # 4)); ("job_title_score", Fin (1 # 4))]
  /\ option_map canon
       (stored_importance
          (train_model (backend_fitting fitted_logistic) "models" "lead_conversion"
             "logistic_regression" two_leads two_labels "scorer" "u1"))
     = Some [("company_size_score", Fin (1 # 2)); ("job_title_score", Fin (1 # 2))]
  /\ canon (get_feature_importance fitted_logistic (map fst (columns two_leads)))
     = [("company_size_score", Fin (1 # 2)); ("job_title_score", Fin (1 # 2))].
Proof.
  split; [|split; [|split; [|split]]].
  - simpl. repeat split; discriminate.
  - reflexivity.
  - reflexivity.
  - reflexivity.
  - reflexivity.
Qed.

(** C1 as the specification words it fails: for a model type that is not
    in the registry the call returns no record at all, neither
    [{success: False, error}] nor any other; the ValueError leaves
    [train_model]. *)
Lemma train_model_unknown_type_raises :
  train_model quiet_backend "models" "churn" "random_forest"
    two_leads two_labels "scorer" "u1"
  = Raised (ValueError "Unknown model type: churn")
  /\ ~ (exists r, train_model quiet_backend "models" "churn" "random_forest"
                    two_leads two_labels "scorer" "u1" = Returned r).
Proof.
  split; [reflexivity|]. intros [r H]. discriminate H.
Qed.

Lemma quiet_backend_sklearn : sklearn_constructors quiet_backend.
Proof.
  intros c Hc. simpl. rewrite Hc. eexists. reflexivity.
Qed.

Lemma train_model_contract_witness :
  train_model quiet_backend "models" "lead_conversion" "svm"
    two_leads two_labels "scorer" "u1"
  = Raised (ValueError "Unknown algorithm svm for model type lead_conversion")
  /\ (exists model_path metadata m,
        train_model quiet_backend "models" "customer_lifetime_value" "random_forest"
          two_leads two_labels "ltv" "u1"
        = Returned (TrainingSucceeded model_path metadata m))
  /\ (exists msg,
        train_model quiet_backend "models" "customer_lifetime_value" "linear_regression"
          two_leads two_labels "ltv" "u1"
        = Raised (Exn "TypeError" msg)).
Proof.
  split; [|split].
  - apply (proj1 (proj2 (train_model_contract quiet_backend "models"
                           "lead_conversion" "svm" two_leads two_labels "scorer" "u1")));
      [discriminate | reflexivity].
  - apply (proj1 (proj2 (proj2 (proj2 (train_model_contract quiet_backend "models"
                           "customer_lifetime_value" "random_forest"
                           two_leads two_labels "ltv" "u1"))))
             (mkAlgorithm RandomForestRegressor forest_grid) eq_refl).
    exists two_leads, two_leads, two_labels, two_labels,
      (sample_estimator RandomForestRegressor), [("n_estimators", PInt 100)],
      (repeat 1%Q 2).
    repeat (split; [reflexivity|]).
    split; [intros _; eexists; reflexivity|].
    split; [intros name _; eexists; reflexivity|].
    repeat (split; [reflexivity|]).
    intros m. reflexivity.
  - apply (proj2 (proj2 (proj2 (proj2 (train_model_contract quiet_backend "models"
                           "customer_lifetime_value" "linear_regression"
                           two_leads two_labels "ltv" "u1"))))
             (mkAlgorithm LinearRegression []) two_leads two_leads two_labels two_labels
             eq_refl eq_refl quiet_backend_sklearn eq_refl).
Defined.

End Training.

(** ** model_training.py and prediction_service.py: the artifact store *)

Module Artifacts.
Import Py Importance.
Local Open Scope string_scope.
Local Open Scope py_scope.

(** A metadata document as [json.load] reads it back.  The code reads
    [model_type], [model_name] and [algorithm] with [.get] and
    [training_date] by index, so a missing [training_date] is a KeyError. *)
Record stored_metadata := mkStored {
  sm_model_type : option string;
  sm_model_name : option string;
  sm_training_date : option string;
  sm_algorithm : option string;
  sm_feature_importance : list (string * npfloat)
}.

(** An entry of [get_model_list]. *)
Record model_entry := mkEntry {
  model_path : string;
  metadata : stored_metadata;
  file_size : nat
}.

(** The file system under the model directory. *)
Record Store := mkStore {
  dir_exists : string -> bool;
  listdir : string -> outcome (list string);
  read_json : string -> outcome stored_metadata;
  blob_size : string -> nat
}.

Section Resolution.

Variable store : Store.
Variable model_dir : string.

Definition training_date (m : model_entry) : outcome string :=
  match sm_training_date (metadata m) with
  | Some d => Returned d
  | None => Raised (Exn "KeyError" "'training_date'")
  end.

(** The loop of [get_model_list] over [os.listdir(user_dir)]. *)
Fixpoint read_entries (user_dir : string) (filenames : list string)
  : outcome (list model_entry) :=
  match filenames with
  | [] => Returned []
  | filename :: rest =>
      if endswith filename "_metadata.json" then
        let metadata_path := path_join user_dir filename in
        md <- read_json store metadata_path ;;
        let path := replace "_metadata.json" ".joblib" metadata_path in
        entries <- read_entries user_dir rest ;;
        Returned (mkEntry path md (blob_size store path) :: entries)
      else read_entries user_dir rest
  end.

(** [sorted(models, key=..., reverse=True)]: the keys are computed for
    every entry first; the sort is stable, entries with equal dates keep
    their order. *)
Fixpoint keyed (models : list model_entry) : outcome (list (string * model_entry)) :=
  match models with
  | [] => Returned []
  | m :: rest =>
      d <- training_date m ;;
      rest' <- keyed rest ;;
      Returned ((d, m) :: rest')
  end.

Fixpoint insert_desc (x : string * model_entry) (sorted : list (string * model_entry))
  : list (string * model_entry) :=
  match sorted with
  | [] => [x]
  | y :: rest =>
      if String.ltb (fst x) (fst y) then y :: insert_desc x rest else x :: sorted
  end.

Definition sorted_desc (models : list model_entry) : outcome (list model_entry) :=
  ks <- keyed models ;;
  Returned (map snd (fold_right insert_desc [] ks)).

Definition get_model_list (user_id : string) : outcome (list model_entry) :=
  let user_dir := path_join model_dir user_id in
  if negb (dir_exists store user_dir) then Returned []
  else
    filenames <- listdir store user_dir ;;
    models <- read_entries user_dir filenames ;;
    sorted_desc models.

(** [m['metadata'].get(key) == value] *)
Definition field_is (f : option string) (value : string) : bool :=
  match f with
  | Some v => String.eqb v value
  | None => false
  end.

Definition of_type (model_type : string) (m : model_entry) : bool :=
  field_is (sm_model_type (metadata m)) model_type.

Definition named (model_name : string) (m : model_entry) : bool :=
  field_is (sm_model_name (metadata m)) model_name.

(** [max(type_models, key=lambda x: x['metadata']['training_date'])]: the
    first entry with the greatest date. *)
Fixpoint max_from (best : model_entry) (best_date : string) (rest : list model_entry)
  : outcome model_entry :=
  match rest with
  | [] => Returned best
  | x :: rest' =>
      d <- training_date x ;;
      if String.ltb best_date d then max_from x d rest' else max_from best best_date rest'
  end.

Definition max_by_training_date (models : list model_entry) : outcome model_entry :=
  match models with
  | [] => Raised (ValueError "max() arg is an empty sequence")
  | first :: rest => d <- training_date first ;; max_from first d rest
  end.

(** [_get_best_model_path], on the list [get_model_list] returned.
    [model_name] is optional; [None] and the empty string both count as
    not given. *)
Definition best_model_of (models : list model_entry) (model_type : string)
    (model_name : option string) : outcome (option string) :=
  let type_models := filter (of_type model_type) models in
  match type_models with
  | [] => Returned None
  | _ :: _ =>
      let latest :=
        best_model <- max_by_training_date type_models ;;
        Returned (Some (model_path best_model)) in
      match model_name with
      | None => latest
      | Some name =>
          if String.eqb name "" then latest
          else match find (named name) type_models with
               | Some model => Returned (Some (model_path model))
               | None => latest
               end
      end
  end.

Definition _get_best_model_path (user_id model_type : string)
    (model_name : option string) : outcome (option string) :=
  models <- get_model_list user_id ;;
  best_model_of models model_type model_name.

(** *** Dates are present once the listing has been sorted *)

Definition dated (m : model_entry) : Prop := exists d, training_date m = Returned d.

Lemma keyed_dated models ks :
  keyed models = Returned ks ->
  Forall (fun km => training_date (snd km) = Returned (fst km)) ks.
Proof.
  revert ks. induction models as [|m rest IH]; intros ks H; simpl in H.
  - injection H as <-. constructor.
  - apply bind_returned in H. destruct H as (d & Hd & H).
    apply bind_returned in H. destruct H as (rest' & Hrest & H).
    injection H as <-. constructor; [exact Hd | apply IH, Hrest].
Qed.

Lemma insert_desc_forall (P : string * model_entry -> Prop) x sorted :
  P x -> Forall P sorted -> Forall P (insert_desc x sorted).
Proof.
  intros Hx. induction sorted as [|y rest IH]; intros Hs; simpl.
  - constructor; [exact Hx | constructor].
  - inversion Hs as [|? ? Hy Hrest]; subst.
    destruct (String.ltb (fst x) (fst y)).
    + constructor; [exact Hy | apply IH, Hrest].
    + constructor; [exact Hx | exact Hs].
Qed.

Lemma sort_forall (P : string * model_entry -> Prop) ks :
  Forall P ks -> Forall P (fold_right insert_desc [] ks).
Proof.
  induction ks as [|k rest IH]; intros H; simpl; [constructor|].
  inversion H; subst. apply insert_desc_forall; auto.
Qed.

Lemma sorted_desc_dated models sorted :
  sorted_desc models = Returned sorted -> Forall dated sorted.
Proof.
  unfold sorted_desc. intros H.
  apply bind_returned in H. destruct H as (ks & Hks & H). injection H as <-.
  apply Forall_map. apply keyed_dated in Hks.
  eapply Forall_impl; [|apply sort_forall, Hks].
  intros [d m] Hd. exists d. exact Hd.
Qed.

Lemma get_model_list_dated user_id models :
  get_model_list user_id = Returned models -> Forall dated models.
Proof.
  unfold get_model_list.
  destruct (negb (dir_exists store (path_join model_dir user_id))).
  - intros H. injection H as <-. constructor.
  - intros H. apply bind_returned in H. destruct H as (fs & _ & H).
    apply bind_returned in H. destruct H as (ms & _ & H).
    apply (sorted_desc_dated _ H).
Qed.

(** *** The entry [max] picks *)

(** [chosen] is one of [models] and no entry of [models] is dated later. *)
Definition latest_of (models : list model_entry) (chosen : model_entry) : Prop :=
  In chosen models
  /\ exists d, training_date chosen = Returned d
       /\ forall m, In m models ->
                    exists d', training_date m = Returned d' /\ String.leb d' d = true.

Lemma max_from_latest best best_date rest :
  training_date best = Returned best_date ->
  Forall dated rest ->
  exists chosen d,
    max_from best best_date rest = Returned chosen
    /\ In chosen (best :: rest)
    /\ training_date chosen = Returned d
    /\ String.leb best_date d = true
    /\ forall m, In m rest ->
                 exists d', training_date m = Returned d' /\ String.leb d' d = true.
Proof.
  revert best best_date. induction rest as [|x rest IH]; intros best best_date Hb Hrest.
  - exists best, best_date. simpl.
    split; [reflexivity|]. split; [left; reflexivity|]. split; [exact Hb|].
    split; [apply leb_refl|]. intros m [].
  - inversion Hrest as [|? ? [dx Hx] Hrest']; subst.
    cbn [max_from]. rewrite Hx. cbn [bind].
    destruct (String.ltb best_date dx) eqn:E.
    + destruct (IH x dx Hx Hrest') as (chosen & d & Hmax & Hin & Hd & Hle & Hall).
      exists chosen, d.
      split; [exact Hmax|]. split; [right; exact Hin|]. split; [exact Hd|].
      split; [eapply leb_trans; [apply ltb_true_leb, E | exact Hle]|].
      intros m [<-|Hm]; [eauto | apply Hall, Hm].
    + destruct (IH best best_date Hb Hrest') as (chosen & d & Hmax & Hin & Hd & Hle & Hall).
      exists chosen, d.
      split; [exact Hmax|].
      split; [destruct Hin as [<-|Hin]; [left; reflexivity | right; right; exact Hin]|].
      split; [exact Hd|]. split; [exact Hle|].
      intros m [<-|Hm]; [|apply Hall, Hm].
      exists dx. split; [exact Hx|].
      eapply leb_trans; [apply ltb_false_leb, E | exact Hle].
Qed.

Lemma max_by_training_date_latest models :
  models <> [] -> Forall dated models ->
  exists chosen, max_by_training_date models = Returned chosen /\ latest_of models chosen.
Proof.
  destruct models as [|first rest]; [congruence|]. intros _ Hd.
  inversion Hd as [|? ? [d Hfirst] Hrest]; subst.
  unfold max_by_training_date. rewrite Hfirst. simpl.
  destruct (@max_from_latest first d rest Hfirst Hrest)
    as (chosen & dc & Hmax & Hin & Hdc & Hle & Hall).
  exists chosen. split; [exact Hmax|]. split; [exact Hin|].
  exists dc. split; [exact Hdc|].
  intros m [<-|Hm]; [eauto | apply Hall, Hm].
Qed.

Lemma find_named_in name models model :
  find (named name) models = Some model -> In model models /\ named name model = true.
Proof. apply find_some. Qed.

Lemma find_named_none name models :
  find (named name) models = None <-> forall m, In m models -> named name m = false.
Proof.
  split.
  - intros H m Hm. apply (find_none _ _ H _ Hm).
  - intros H. destruct (find (named name) models) as [m|] eqn:E; [|reflexivity].
    apply find_some in E. destruct E as [Hin Hn]. rewrite (H _ Hin) in Hn. discriminate.
Qed.

(** With no artifact of the type, resolution yields [None]. *)
Lemma no_artifact_no_path user_id model_type model_name models :
  get_model_list user_id = Returned models ->
  filter (of_type model_type) models = [] ->
  _get_best_model_path user_id model_type model_name = Returned None.
Proof.
  intros Hlist Hnone. unfold _get_best_model_path, best_model_of.
  rewrite Hlist. cbn [bind]. rewrite Hnone. reflexivity.
Qed.

(** *** The listing is newest first *)

Definition key_not_older (a b : string * model_entry) : Prop :=
  String.leb (fst b) (fst a) = true.

(** [a] carries a training date that is not before the one of [b]. *)
Definition not_older (a b : model_entry) : Prop :=
  exists da db,
    training_date a = Returned da /\ training_date b = Returned db
    /\ String.leb db da = true.

Lemma insert_desc_sorted x sorted :
  StronglySorted key_not_older sorted ->
  StronglySorted key_not_older (insert_desc x sorted).
Proof.
  induction sorted as [|y rest IH]; intros Hs; simpl.
  - constructor; constructor.
  - apply StronglySorted_inv in Hs. destruct Hs as [Hrest Hy].
    destruct (String.ltb (fst x) (fst y)) eqn:E.
    + constructor; [apply IH, Hrest|].
      apply insert_desc_forall; [|exact Hy].
      unfold key_not_older. apply ltb_true_leb, E.
    + assert (Hyx : key_not_older x y) by (apply ltb_false_leb, E).
      constructor; [constructor; assumption|].
      constructor; [exact Hyx|].
      eapply Forall_impl; [|exact Hy].
      intros z Hz. unfold key_not_older in *. eapply leb_trans; eassumption.
Qed.

Lemma sort_sorted ks : StronglySorted key_not_older (fold_right insert_desc [] ks).
Proof.
  induction ks as [|k rest IH]; simpl; [constructor | apply insert_desc_sorted, IH].
Qed.

Lemma sorted_entries ks :
  Forall (fun km => training_date (snd km) = Returned (fst km)) ks ->
  StronglySorted key_not_older ks ->
  StronglySorted not_older (map snd ks).
Proof.
  induction ks as [|[d m] rest IH]; intros Hk Hs; simpl; [constructor|].
  inversion Hk as [|? ? Hd Hrest]; subst.
  apply StronglySorted_inv in Hs. destruct Hs as [Hs Hall].
  constructor; [apply IH; assumption|].
  apply Forall_map. rewrite Forall_forall in *.
  intros [d' m'] Hin. exists d, d'. simpl in *.
  split; [exact Hd|]. split; [apply (Hrest _ Hin) | apply (Hall _ Hin)].
Qed.

Lemma get_model_list_newest_first user_id models :
  get_model_list user_id = Returned models -> StronglySorted not_older models.
Proof.
  unfold get_model_list.
  destruct (negb (dir_exists store (path_join model_dir user_id))).
  - intros H. injection H as <-. constructor.
  - intros H. apply bind_returned in H. destruct H as (fs & _ & H).
    apply bind_returned in H. destruct H as (ms & _ & H).
    unfold sorted_desc in H.
    apply bind_returned in H. destruct H as (ks & Hks & H). injection H as <-.
    apply sorted_entries; [|apply sort_sorted].
    apply sort_forall. apply (keyed_dated _ Hks).
Qed.

Lemma filter_sorted (R : model_entry -> model_entry -> Prop) f l :
  StronglySorted R l -> StronglySorted R (filter f l).
Proof.
  induction l as [|a rest IH]; intros Hs; simpl; [constructor|].
  apply StronglySorted_inv in Hs. destruct Hs as [Hrest Ha].
  destruct (f a); [|apply IH, Hrest].
  constructor; [apply IH, Hrest|].
  rewrite Forall_forall in *. intros x Hx. apply filter_In in Hx. apply Ha, Hx.
Qed.

Lemma first_match_not_older f l m :
  StronglySorted not_older l -> Forall dated l -> find f l = Some m ->
  forall m', In m' l -> f m' = true -> not_older m m'.
Proof.
  induction l as [|a rest IH]; intros Hs Hd Hf m' Hin Hm'; [destruct Hin|].
  apply StronglySorted_inv in Hs. destruct Hs as [Hrest Ha].
  inversion Hd as [|? ? [da Hda] Hdrest]; subst.
  simpl in Hf. destruct (f a) eqn:Efa.
  - injection Hf as <-. destruct Hin as [<-|Hin].
    + exists da, da. repeat split; auto using leb_refl.
    + rewrite Forall_forall in Ha. apply Ha, Hin.
  - destruct Hin as [<-|Hin]; [congruence|].
    apply (IH Hrest Hdrest Hf _ Hin Hm').
Qed.

(** Several artifacts may carry the same name (one per training run);
    the one resolution picks by name is the most recent of them. *)
Lemma named_match_is_newest user_id model_type name models m :
  get_model_list user_id = Returned models ->
  find (named name) (filter (of_type model_type) models) = Some m ->
  forall m', In m' models -> of_type model_type m' = true -> named name m' = true ->
             not_older m m'.
Proof.
  intros Hlist Hfind m' Hin Hty Hname.
  apply (@first_match_not_older (named name) (filter (of_type model_type) models) m).
  - apply filter_sorted, (get_model_list_newest_first _ Hlist).
  - apply get_model_list_dated in Hlist.
    rewrite Forall_forall in *. intros x Hx. apply filter_In in Hx. apply Hlist, Hx.
  - exact Hfind.
  - apply filter_In. split; assumption.
  - exact Hname.
Qed.

(** C2, as the code has it.  When the owner has an artifact of the
    requested type, resolution always yields the path of one of them:
    - a name is given and some artifact of the type carries it: an
      artifact with that name, the most recent of them;
    - a name is given and no artifact of the type carries it: the artifact
      with the latest training date, as a fallback;
    - no name is given ([None] or the empty string): the artifact with the
      latest training date. *)
Theorem best_model_path_policy (user_id model_type : string)
    (model_name : option string) (models : list model_entry)
    (Hlist : get_model_list user_id = Returned models)
    (Hsome : filter (of_type model_type) models <> []) :
  let type_models := filter (of_type model_type) models in
  exists chosen,
    _get_best_model_path user_id model_type model_name
    = Returned (Some (model_path chosen))
    /\ In chosen type_models
    /\ (forall name, model_name = Some name -> name <> "" ->
          ((exists m, In m type_models /\ named name m = true) ->
           named name chosen = true
           /\ forall m', In m' type_models -> named name m' = true ->
                         not_older chosen m')
          /\ ((forall m, In m type_models -> named name m = false) ->
              latest_of type_models chosen))
    /\ (model_name = None \/ model_name = Some "" -> latest_of type_models chosen).
Proof.
  intros type_models. subst type_models.
  assert (Hdated : Forall dated (filter (of_type model_type) models)).
  { apply get_model_list_dated in Hlist.
    rewrite Forall_forall in *. intros m Hm. apply filter_In in Hm. apply Hlist, Hm. }
  assert (Hsorted : StronglySorted not_older (filter (of_type model_type) models)).
  { apply filter_sorted, (get_model_list_newest_first _ Hlist). }
  destruct (max_by_training_date_latest Hsome Hdated) as (latest & Hmax & Hlatest).
  unfold _get_best_model_path. rewrite Hlist. cbn [bind].
  unfold best_model_of.
  remember (filter (of_type model_type) models) as type_models eqn:Et.
  destruct type_models as [|t0 ts]; [exfalso; apply Hsome; reflexivity|].
  assert (Hfall : bind (max_by_training_date (t0 :: ts))
                    (fun best_model => Returned (Some (model_path best_model)))
                  = Returned (Some (model_path latest))).
  { rewrite Hmax. reflexivity. }
  destruct model_name as [name|].
  - destruct (String.eqb_spec name "") as [->|Hname].
    + exists latest. split; [exact Hfall|]. split; [apply Hlatest|].
      split; [|intros _; exact Hlatest].
      intros name Hn Hne. injection Hn as <-. congruence.
    + destruct (find (named name) (t0 :: ts)) as [model|] eqn:Ef.
      * exists model. pose proof (find_named_in _ _ Ef) as [Hin Hn].
        split; [reflexivity|]. split; [exact Hin|].
        split; [|intros [H|H]; [discriminate | injection H as ->; congruence]].
        intros name' Hn' _. injection Hn' as <-. split.
        -- intros _. split; [exact Hn|].
           intros m' Hm' Hnm'. apply (@first_match_not_older (named name) (t0 :: ts) model Hsorted Hdated Ef _ Hm' Hnm').
        -- intros Hnone. rewrite (Hnone _ Hin) in Hn. discriminate.
      * exists latest. split; [exact Hfall|]. split; [apply Hlatest|].
        split; [|intros [H|H]; [discriminate | injection H as ->; congruence]].
        intros name' Hn' _. injection Hn' as <-. split.
        -- intros (m & Hm & Hnm). rewrite (proj1 (find_named_none _ _) Ef _ Hm) in Hnm.
           discriminate.
        -- intros _. exact Hlatest.
  - exists latest. split; [exact Hfall|]. split; [apply Hlatest|].
    split; [intros name H; discriminate | intros _; exact Hlatest].
Qed.

End Resolution.

(** *** One owner, two artifacts *)

Definition scorer_v1 : stored_metadata :=
  mkStored (Some "lead_conversion") (Some "scorer") (Some "2024-05-01T12:00:00")
    (Some "random_forest") [].

Definition scorer_v2 : stored_metadata :=
  mkStored (Some "lead_conversion") (Some "scorer_b") (Some "2024-06-01T09:30:00")
    (Some "gradient_boosting") [].

Definition two_artifacts : Store :=
  {| dir_exists := fun d => String.eqb d "models/u1";
     listdir := fun _ =>
       Returned ["scorer_20240501_120000.joblib";
                 "scorer_20240501_120000_metadata.json";
                 "scorer_b_20240601_093000.joblib";
                 "scorer_b_20240601_093000_metadata.json"];
     read_json := fun path =>
       if String.eqb path "models/u1/scorer_20240501_120000_metadata.json"
       then Returned scorer_v1 else Returned scorer_v2;
     blob_size := fun _ => 1024%nat |}.

Example list_newest_first :
  get_model_list two_artifacts "models" "u1"
  = Returned [mkEntry "models/u1/scorer_b_20240601_093000.joblib" scorer_v2 1024;
              mkEntry "models/u1/scorer_20240501_120000.joblib" scorer_v1 1024].
Proof. reflexivity. Qed.

Example resolve_by_name :
  _get_best_model_path two_artifacts "models" "u1" "lead_conversion" (Some "scorer")
  = Returned (Some "models/u1/scorer_20240501_120000.joblib").
Proof. reflexivity. Qed.

Example resolve_latest :
  _get_best_model_path two_artifacts "models" "u1" "lead_conversion" None
  = Returned (Some "models/u1/scorer_b_20240601_093000.joblib").
Proof. reflexivity. Qed.

(** C2 as the specification words it fails: owner u1 has lead-conversion
    artifacts, none of them is named "champion", and resolution for that
    name does not fail: it yields the most recent artifact, whose name is
    "scorer_b". *)
Lemma unknown_name_resolves_to_latest :
  (forall m, In m [mkEntry "models/u1/scorer_b_20240601_093000.joblib" scorer_v2 1024;
                   mkEntry "models/u1/scorer_20240501_120000.joblib" scorer_v1 1024] ->
             named "champion" m = false)
  /\ _get_best_model_path two_artifacts "models" "u1" "lead_conversion" (Some "champion")
     = Returned (Some "models/u1/scorer_b_20240601_093000.joblib")
  /\ _get_best_model_path two_artifacts "models" "u1" "lead_conversion" (Some "champion")
     <> Returned None.
Proof.
  split; [|split].
  - intros m [<-|[<-|[]]]; reflexivity.
  - reflexivity.
  - discriminate.
Qed.

Lemma best_model_path_policy_witness :
  exists chosen,
    _get_best_model_path two_artifacts "models" "u1" "lead_conversion" (Some "scorer")
    = Returned (Some (model_path chosen))
    /\ named "scorer" chosen = true.
Proof.
  destruct (@best_model_path_policy two_artifacts "models" "u1" "lead_conversion"
              (Some "scorer")
              [mkEntry "models/u1/scorer_b_20240601_093000.joblib" scorer_v2 1024;
               mkEntry "models/u1/scorer_20240501_120000.joblib" scorer_v1 1024]
              eq_refl ltac:(discriminate))
    as (chosen & Hpath & Hin & Hnamed & _).
  exists chosen. split; [exact Hpath|].
  apply (Hnamed "scorer" eq_refl ltac:(discriminate)).
  exists (mkEntry "models/u1/scorer_20240501_120000.joblib" scorer_v1 1024).
  split; [right; left; reflexivity | reflexivity].
Defined.

End Artifacts.

(** ** prediction_service.py *)

Module Prediction.
Import Py Frame Importance Artifacts.
Local Open Scope string_scope.
Local Open Scope Q_scope.
Local Open Scope py_scope.

(** A raw record handed in by the caller. *)
Record record := mkRecord {
  record_id : option string;
  record_fields : list (string * option string)
}.

Record explanation := mkExplanation {
  top_features : list (string * npfloat);
  feature_count : nat
}.

Record model_info := mkInfo {
  info_model_path : string;
  info_algorithm : option string;
  info_training_date : option string
}.

(** The result dicts of the two single predictions, and the error dict
    [{success: False, error}]. *)
Inductive prediction_result :=
| LeadConversion (conversion_probability confidence : Q) (prediction_class : string)
    (feature_importance : explanation) (info : model_info)
| LifetimeValue (lifetime_value confidence : Q) (value_category : string)
    (feature_importance : explanation) (info : model_info)
| NoPrediction (error : string).

Definition success (r : prediction_result) : bool :=
  match r with
  | NoPrediction _ => false
  | _ => true
  end.

Record batch_entry := mkBatchEntry {
  be_lead_id : string;
  be_conversion_probability : Q;
  be_confidence : Q;
  be_prediction_class : string
}.

Inductive batch_result :=
| BatchPredictions (total_predictions : nat) (predictions : list batch_entry)
    (model_path : string) (algorithm : option string)
| NoBatch (error : string).

(** What the service calls outside itself: feature preparation with
    pandas, joblib and the estimator. *)
Record Service := mkService {
  prepare_lead_features : list record -> outcome DataFrame;
  prepare_customer_features : list record -> outcome DataFrame;
  load_model : string -> outcome (estimator * stored_metadata);
  predict_proba : estimator -> DataFrame -> outcome (list (list Q));
  predict : estimator -> DataFrame -> outcome (list Q);
  sorted_by_weight_desc : list (string * npfloat) -> list (string * npfloat)
}.

(** ['high' if p > 0.7 else 'medium' if p > 0.4 else 'low'] *)
Definition prediction_class_of (conversion_probability : Q) : string :=
  if Qltb (7 # 10) conversion_probability then "high"
  else if Qltb (4 # 10) conversion_probability then "medium"
  else "low".

Definition _categorize_lifetime_value (value : Q) : string :=
  if Qltb 10000 value then "high_value"
  else if Qltb 1000 value then "medium_value"
  else if Qltb 100 value then "low_value"
  else "very_low_value".

(** [np.max] of the probabilities; numpy raises on an empty array. *)
Definition np_max (values : list Q) : outcome Q :=
  match values with
  | [] => Raised (ValueError "zero-size array to reduction operation maximum which has no identity")
  | v :: rest => Returned (fold_left (fun best x => if Qltb best x then x else best) rest v)
  end.

Definition _calculate_prediction_confidence (probability : Q) (probabilities : list Q)
  : outcome Q :=
  let distance_from_threshold := Qabs (probability - (1 # 2)) in
  let confidence := py_min (distance_from_threshold * 2) 1 in
  max_prob <- np_max probabilities ;;
  Returned ((confidence + max_prob) / 2).

Definition _calculate_regression_confidence (prediction : Q) : Q :=
  py_min (Qabs prediction / 1000) (9 # 10) + (1 # 10).

(** What the specification says of a label next to a probability. *)
Definition tier_rule (p : Q) (label : string) : Prop :=
  (label = "high" <-> 7 # 10 < p)
  /\ (label = "medium" <-> 4 # 10 < p /\ p <= 7 # 10)
  /\ (label = "low" <-> p <= 4 # 10).

Lemma prediction_class_rule (p : Q) : tier_rule p (prediction_class_of p).
Proof.
  unfold tier_rule, prediction_class_of.
  destruct (Qltb (7 # 10) p) eqn:E7; destruct (Qltb (4 # 10) p) eqn:E4;
    try apply Qltb_lt in E7; try apply Qltb_ge in E7;
    try apply Qltb_lt in E4; try apply Qltb_ge in E4;
    repeat split; intros; try discriminate; try reflexivity; try lra.
Qed.

Section Predictor.

Variable store : Store.
Variable model_dir : string.
Variable sv : Service.

Definition _get_prediction_explanation (md : stored_metadata) : explanation :=
  let feature_importance := sm_feature_importance md in
  mkExplanation (firstn 5 (sorted_by_weight_desc sv feature_importance))
                (length feature_importance).

Definition index {A} (what : string) (l : list A) (i : nat) : outcome A :=
  match nth_error l i with
  | Some x => Returned x
  | None => Raised (Exn "IndexError" (what ++ " index out of range"))
  end.

(** [row[1] if len(row) > 1 else row[0]] *)
Definition positive_class (row : list Q) : outcome Q :=
  if (1 <? length row)%nat then index "list" row 1 else index "list" row 0.

(** [not model_path] *)
Definition no_path (model_path : option string) : bool :=
  match model_path with
  | None => true
  | Some p => String.eqb p ""
  end.

Definition resolved (model_path : option string) : string :=
  match model_path with Some p => p | None => "" end.

Definition error_of (e : exn) : prediction_result := NoPrediction (exn_msg e).

Definition predict_lead_conversion (lead_data : record) (user_id : string)
    (model_name : option string) : outcome prediction_result :=
  try_except
    (model_path <- _get_best_model_path store model_dir user_id "lead_conversion" model_name ;;
     if no_path model_path
     then Returned (NoPrediction "No trained model available for lead conversion")
     else
       features_df <- prepare_lead_features sv [lead_data] ;;
       '(model, md) <- load_model sv (resolved model_path) ;;
       prediction_proba <- predict_proba sv model features_df ;;
       row <- index "array" prediction_proba 0 ;;
       conversion_probability <- positive_class row ;;
       confidence <- _calculate_prediction_confidence conversion_probability
                       (concat prediction_proba) ;;
       let feature_importance := _get_prediction_explanation md in
       Returned (LeadConversion conversion_probability confidence
                   (prediction_class_of conversion_probability)
                   feature_importance
                   (mkInfo (resolved model_path) (sm_algorithm md)
                           (sm_training_date md))))
    (fun e => Returned (error_of e)).

Definition predict_customer_lifetime_value (customer_data : record) (user_id : string)
    (model_name : option string) : outcome prediction_result :=
  try_except
    (model_path <- _get_best_model_path store model_dir user_id
                     "customer_lifetime_value" model_name ;;
     if no_path model_path
     then Returned (NoPrediction "No trained model available for lifetime value prediction")
     else
       features_df <- prepare_customer_features sv [customer_data] ;;
       '(model, md) <- load_model sv (resolved model_path) ;;
       predictions <- predict sv model features_df ;;
       prediction <- index "array" predictions 0 ;;
       let lifetime_value := py_max 0 prediction in
       let confidence := _calculate_regression_confidence lifetime_value in
       let feature_importance := _get_prediction_explanation md in
       Returned (LifetimeValue lifetime_value confidence
                   (_categorize_lifetime_value lifetime_value)
                   feature_importance
                   (mkInfo (resolved model_path) (sm_algorithm md)
                           (sm_training_date md))))
    (fun e => Returned (error_of e)).

(** The loop of the batch prediction over [enumerate(leads_data)]. *)
Fixpoint batch_entries (i : nat) (leads_data : list record)
    (predictions_proba : list (list Q)) : outcome (list batch_entry) :=
  match leads_data with
  | [] => Returned []
  | lead_data :: rest =>
      row <- index "array" predictions_proba i ;;
      conversion_probability <- positive_class row ;;
      confidence <- _calculate_prediction_confidence conversion_probability row ;;
      let lead_id :=
        match record_id lead_data with
        | Some id => id
        | None => "lead_" ++ NilZero.string_of_uint (Nat.to_uint i)
        end in
      entries <- batch_entries (S i) rest predictions_proba ;;
      Returned (mkBatchEntry lead_id conversion_probability confidence
                  (prediction_class_of conversion_probability) :: entries)
  end.

Definition batch_predict_lead_conversion (leads_data : list record) (user_id : string)
    (model_name : option string) : outcome batch_result :=
  try_except
    (model_path <- _get_best_model_path store model_dir user_id "lead_conversion" model_name ;;
     if no_path model_path
     then Returned (NoBatch "No trained model available for lead conversion")
     else
       features_df <- prepare_lead_features sv leads_data ;;
       '(model, md) <- load_model sv (resolved model_path) ;;
       predictions_proba <- predict_proba sv model features_df ;;
       results <- batch_entries 0 leads_data predictions_proba ;;
       Returned (BatchPredictions (length results) results
                   (resolved model_path) (sm_algorithm md)))
    (fun e => Returned (NoBatch (exn_msg e))).

(** The label stored in a result is the tier of the probability stored
    next to it, for the single prediction and for every batch entry. *)
Lemma single_prediction_class lead_data user_id model_name p c cls fi info :
  predict_lead_conversion lead_data user_id model_name
  = Returned (LeadConversion p c cls fi info) ->
  cls = prediction_class_of p.
Proof.
  unfold predict_lead_conversion, try_except.
  destruct (bind (_get_best_model_path store model_dir user_id "lead_conversion" model_name) _)
    as [r|e] eqn:E; [|discriminate].
  intros H. injection H as ->.
  apply bind_returned in E. destruct E as (model_path & _ & E).
  destruct (no_path model_path); [discriminate|].
  apply bind_returned in E. destruct E as (features_df & _ & E).
  apply bind_returned in E. destruct E as ([model md] & _ & E).
  apply bind_returned in E. destruct E as (proba & _ & E).
  apply bind_returned in E. destruct E as (row & _ & E).
  apply bind_returned in E. destruct E as (q & _ & E).
  apply bind_returned in E. destruct E as (conf & _ & E).
  injection E as <- _ <- _ _. reflexivity.
Qed.

Lemma batch_prediction_class i leads_data proba entries :
  batch_entries i leads_data proba = Returned entries ->
  Forall (fun e => be_prediction_class e = prediction_class_of (be_conversion_probability e))
         entries.
Proof.
  revert i entries. induction leads_data as [|lead rest IH]; intros i entries H; simpl in H.
  - injection H as <-. constructor.
  - apply bind_returned in H. destruct H as (row & _ & H).
    apply bind_returned in H. destruct H as (q & _ & H).
    apply bind_returned in H. destruct H as (conf & _ & H).
    apply bind_returned in H. destruct H as (rest' & Hrest & H).
    injection H as <-. constructor; [reflexivity | apply (IH _ _ Hrest)].
Qed.

Lemma batch_result_class leads_data user_id model_name n entries path alg :
  batch_predict_lead_conversion leads_data user_id model_name
  = Returned (BatchPredictions n entries path alg) ->
  Forall (fun e => be_prediction_class e = prediction_class_of (be_conversion_probability e))
         entries.
Proof.
  unfold batch_predict_lead_conversion, try_except.
  destruct (bind (_get_best_model_path store model_dir user_id "lead_conversion" model_name) _)
    as [r|e] eqn:E; [|discriminate].
  intros H. injection H as ->.
  apply bind_returned in E. destruct E as (model_path & _ & E).
  destruct (no_path model_path); [discriminate|].
  apply bind_returned in E. destruct E as (features_df & _ & E).
  apply bind_returned in E. destruct E as ([model md] & _ & E).
  apply bind_returned in E. destruct E as (proba & _ & E).
  apply bind_returned in E. destruct E as (results & Hres & E).
  injection E as _ <- _ _. apply (batch_prediction_class _ _ _ Hres).
Qed.

(** C5. In every classification prediction, single or batch, the label
    next to a conversion probability is high exactly when the probability
    is above 0.7, medium exactly when it is above 0.4 and at most 0.7, low
    exactly when it is at most 0.4.  Both comparisons are strict: 0.7 is
    medium, 0.70001 is high, 0.4 is low and 0.40001 is medium. *)
Theorem classification_tiers :
  (forall lead_data user_id model_name p c label fi info,
      predict_lead_conversion lead_data user_id model_name
      = Returned (LeadConversion p c label fi info) ->
      tier_rule p label)
  /\ (forall leads_data user_id model_name n entries path alg,
      batch_predict_lead_conversion leads_data user_id model_name
      = Returned (BatchPredictions n entries path alg) ->
      Forall (fun e => tier_rule (be_conversion_probability e) (be_prediction_class e))
             entries)
  /\ prediction_class_of (7 # 10) = "medium"
  /\ prediction_class_of (70001 # 100000) = "high"
  /\ prediction_class_of (4 # 10) = "low"
  /\ prediction_class_of (40001 # 100000) = "medium".
Proof.
  split; [|split; [|repeat split; reflexivity]].
  - intros lead_data user_id model_name p c label fi info H.
    rewrite (single_prediction_class _ _ _ H). apply prediction_class_rule.
  - intros leads_data user_id model_name n entries path alg H.
    apply batch_result_class in H.
    eapply Forall_impl; [|exact H].
    intros e He. rewrite He. apply prediction_class_rule.
Qed.

Lemma predict_lead_conversion_never_raises lead_data user_id model_name :
  exists r, predict_lead_conversion lead_data user_id model_name = Returned r.
Proof. apply try_except_total. eauto. Qed.

Lemma predict_customer_lifetime_value_never_raises customer_data user_id model_name :
  exists r, predict_customer_lifetime_value customer_data user_id model_name = Returned r.
Proof. apply try_except_total. eauto. Qed.

(** C6. For an owner whose listing holds no artifact of the task type,
    the single prediction of that task returns the error record
    [{success: False, error: 'No trained model available ...'}]; it
    returns, and no exception leaves the service. *)
Theorem predict_without_artifact_not_found (data : record) (user_id : string)
    (model_name : option string) (models : list model_entry)
    (Hlist : get_model_list store model_dir user_id = Returned models) :
  (filter (of_type "lead_conversion") models = [] ->
   exists r, predict_lead_conversion data user_id model_name = Returned r
             /\ r = NoPrediction "No trained model available for lead conversion"
             /\ success r = false)
  /\ (filter (of_type "customer_lifetime_value") models = [] ->
      exists r, predict_customer_lifetime_value data user_id model_name = Returned r
                /\ r = NoPrediction "No trained model available for lifetime value prediction"
                /\ success r = false).
Proof.
  split; intros Hnone; eexists; (split; [|split; reflexivity]).
  - unfold predict_lead_conversion.
    rewrite (@no_artifact_no_path store model_dir user_id "lead_conversion"
               model_name models Hlist Hnone).
    reflexivity.
  - unfold predict_customer_lifetime_value.
    rewrite (@no_artifact_no_path store model_dir user_id "customer_lifetime_value"
               model_name models Hlist Hnone).
    reflexivity.
Qed.

End Predictor.

(** The value categories of the specification's test list. *)
Example value_categories :
  _categorize_lifetime_value 10001 = "high_value"
  /\ _categorize_lifetime_value 1001 = "medium_value"
  /\ _categorize_lifetime_value 101 = "low_value"
  /\ _categorize_lifetime_value 99 = "very_low_value".
Proof. repeat split; reflexivity. Qed.

(** A service without a model runtime: every call outside fails. *)
Definition offline : Service :=
  {| prepare_lead_features := fun _ => Raised (Exn "ImportError" "pandas");
     prepare_customer_features := fun _ => Raised (Exn "ImportError" "pandas");
     load_model := fun _ => Raised (Exn "FileNotFoundError" "no such file");
     predict_proba := fun _ _ => Raised (Exn "NotFittedError" "not fitted");
     predict := fun _ _ => Raised (Exn "NotFittedError" "not fitted");
     sorted_by_weight_desc := fun d => d |}.

Definition a_lead : record :=
  mkRecord (Some "42") [("company", Some "Acme Inc"); ("email", Some "a@acme.com")].

(** Owner u2 has no directory at all; owner u1 has lead-conversion
    artifacts only. *)
Lemma predict_without_artifact_not_found_witness :
  (exists r, predict_lead_conversion two_artifacts "models" offline a_lead "u2" None
             = Returned r
             /\ r = NoPrediction "No trained model available for lead conversion"
             /\ success r = false)
  /\ (exists r, predict_customer_lifetime_value two_artifacts "models" offline a_lead "u1"
                  (Some "scorer") = Returned r
                /\ r = NoPrediction "No trained model available for lifetime value prediction"
                /\ success r = false).
Proof.
  split.
  - apply (proj1 (@predict_without_artifact_not_found two_artifacts "models" offline
                    a_lead "u2" None [] eq_refl)).
    reflexivity.
  - apply (proj2 (@predict_without_artifact_not_found two_artifacts "models" offline
                    a_lead "u1" (Some "scorer")
                    [mkEntry "models/u1/scorer_b_20240601_093000.joblib" scorer_v2 1024;
                     mkEntry "models/u1/scorer_20240501_120000.joblib" scorer_v1 1024]
                    eq_refl)).
    reflexivity.
Defined.

(** With an artifact on file and the runtime offline, the failure is
    still a returned record. *)
Example predict_offline :
  predict_lead_conversion two_artifacts "models" offline a_lead "u1" None
  = Returned (NoPrediction "pandas").
Proof. reflexivity. Qed.

(** A runtime that answers: the model gives every lead the probabilities
    0.3 and 0.7. *)
Definition canned : Service :=
  {| prepare_lead_features := fun rs => Returned (mkDataFrame (length rs) []);
     prepare_customer_features := fun rs => Returned (mkDataFrame (length rs) []);
     load_model := fun _ =>
       Returned (mkEstimator GradientBoostingClassifier (Some [1]) None None, scorer_v2);
     predict_proba := fun _ X => Returned (repeat [3 # 10; 7 # 10] (index_len X));
     predict := fun _ X => Returned (repeat 1001 (index_len X));
     sorted_by_weight_desc := fun d => d |}.

Example predict_at_the_boundary :
  predict_lead_conversion two_artifacts "models" canned a_lead "u1" None
  = Returned (LeadConversion (7 # 10) (220 # 400) "medium"
                (mkExplanation [] 0)
                (mkInfo "models/u1/scorer_b_20240601_093000.joblib"
                        (Some "gradient_boosting") (Some "2024-06-01T09:30:00"))).
Proof. vm_compute. reflexivity. Qed.

Lemma classification_tiers_witness :
  tier_rule (7 # 10) "medium"
  /\ Forall (fun e => tier_rule (be_conversion_probability e) (be_prediction_class e))
            [mkBatchEntry "42" (7 # 10) (220 # 400) "medium";
             mkBatchEntry "lead_1" (7 # 10) (220 # 400) "medium"].
Proof.
  split.
  - apply (proj1 (classification_tiers two_artifacts "models" canned)
             a_lead "u1" None (7 # 10) (220 # 400) "medium" (mkExplanation [] 0)
             (mkInfo "models/u1/scorer_b_20240601_093000.joblib"
                     (Some "gradient_boosting") (Some "2024-06-01T09:30:00"))).
    vm_compute. reflexivity.
  - apply (proj1 (proj2 (classification_tiers two_artifacts "models" canned))
             [a_lead; mkRecord None []] "u1" None 2%nat
             [mkBatchEntry "42" (7 # 10) (220 # 400) "medium";
              mkBatchEntry "lead_1" (7 # 10) (220 # 400) "medium"]
             "models/u1/scorer_b_20240601_093000.joblib" (Some "gradient_boosting")).
    vm_compute. reflexivity.
Defined.

End Prediction.

(** * Further properties of the code

    What the three files do beyond the contracts above: the functions
    next to the ones embedded so far, the artifacts on disk, and the
    endpoints of [ml_service/api.py] that call them.  The file system and
    the HTTP layer are collaborators like the others: what is assumed of
    them is stated where it is used. *)

Unset Implicit Arguments.

(** ** Strings, once more *)

Module Str.
Import Py.
Local Open Scope string_scope.

Lemma append_nil_r (s : string) : s ++ "" = s.
Proof. induction s as [|c s IH]; simpl; [reflexivity | rewrite IH; reflexivity]. Qed.

Lemma append_assoc (a b c : string) : (a ++ b) ++ c = a ++ (b ++ c).
Proof. induction a as [|x a IH]; simpl; [reflexivity | rewrite IH; reflexivity]. Qed.

Lemma length_append (a b : string) :
  String.length (a ++ b) = (String.length a + String.length b)%nat.
Proof. induction a as [|x a IH]; simpl; [reflexivity | rewrite IH; reflexivity]. Qed.

Lemma lower_append (a b : string) : lower (a ++ b) = lower a ++ lower b.
Proof. induction a as [|x a IH]; simpl; [reflexivity | rewrite IH; reflexivity]. Qed.

Lemma is_prefix_refl_append (p s : string) : is_prefix p (p ++ s) = true.
Proof.
  induction p as [|c p IH]; simpl; [reflexivity|].
  rewrite Ascii.eqb_refl. exact IH.
Qed.

Lemma substring_in_middle (kw u v : string) : substring_in kw (u ++ kw ++ v) = true.
Proof.
  induction u as [|c u IH]; simpl.
  - destruct (kw ++ v) eqn:E; simpl; rewrite <- E, is_prefix_refl_append; reflexivity.
  - rewrite IH. apply orb_true_r.
Qed.

Lemma contains_char_append (c : ascii) (a b : string) :
  contains_char c (a ++ b) = contains_char c a || contains_char c b.
Proof.
  induction a as [|d a IH]; simpl; [reflexivity|].
  rewrite IH. apply orb_assoc.
Qed.

Lemma split_char_no_sep (c : ascii) (s : string) :
  contains_char c s = false -> split_char c s = [s].
Proof.
  induction s as [|d s IH]; simpl; [reflexivity|].
  destruct (Ascii.eqb c d); simpl; [discriminate|].
  intros H. rewrite (IH H). reflexivity.
Qed.

Lemma split_char_append (c : ascii) (a b : string) :
  contains_char c a = false ->
  split_char c (a ++ String c b) = a :: split_char c b.
Proof.
  induction a as [|d a IH]; simpl.
  - rewrite Ascii.eqb_refl. reflexivity.
  - destruct (Ascii.eqb c d); simpl; [discriminate|].
    intros H. rewrite (IH H). reflexivity.
Qed.

Lemma append_inj_l (a b c : string) : a ++ b = a ++ c -> b = c.
Proof.
  induction a as [|x a IH]; simpl; [auto|].
  intros H. injection H as H. apply IH, H.
Qed.

Lemma endswith_append (a b : string) : endswith (a ++ b) b = true.
Proof.
  induction a as [|c a IH].
  - destruct b; cbn [append endswith]; rewrite String.eqb_refl; reflexivity.
  - cbn [append endswith]. rewrite IH. apply orb_true_r.
Qed.

Lemma replace_from_skip (old new a b : string) :
  replace_from old new (a ++ b) (String.length a) = replace_from old new b 0.
Proof.
  induction a as [|c a IH]; simpl; [|exact IH].
  destruct b; reflexivity.
Qed.

(** An occurrence of [p] that starts in [u] and runs into what follows
    [u] meets the first character of what follows. *)
Lemma is_prefix_overlap (c : ascii) (t : string) (u p : string) :
  is_prefix p (u ++ String c t) = true ->
  is_prefix p u = true
  \/ exists a b, p = a ++ String c b /\ String.length a = String.length u.
Proof.
  revert p. induction u as [|d u IH]; intros p H.
  - destruct p as [|x p]; [left; reflexivity|].
    simpl in H. apply andb_true_iff in H. destruct H as [Hx _].
    apply Ascii.eqb_eq in Hx. subst x. right. exists "", p. split; reflexivity.
  - destruct p as [|x p]; [left; reflexivity|].
    simpl in H. apply andb_true_iff in H. destruct H as [Hx Hp].
    destruct (IH p Hp) as [Hpre|(a & b & -> & Hlen)].
    + left. simpl. rewrite Hx, Hpre. reflexivity.
    + right. exists (String x a), b.
      split; [reflexivity | simpl; rewrite Hlen; reflexivity].
Qed.

(** [(stem + old).replace(old, new)] when [old] starts with a character
    that it does not hold again and does not occur in [stem]: the only
    occurrence is the one at the end. *)
Lemma replace_suffix (c : ascii) (old' new stem : string) :
  contains_char c old' = false ->
  substring_in (String c old') stem = false ->
  replace (String c old') new (stem ++ String c old') = stem ++ new.
Proof.
  intros Hc. unfold replace. induction stem as [|d stem IH]; intros Hs.
  - cbn [append replace_from is_prefix]. rewrite Ascii.eqb_refl.
    assert (Hrefl : is_prefix old' old' = true)
      by (rewrite <- (append_nil_r old') at 2; apply is_prefix_refl_append).
    rewrite Hrefl. cbn [andb].
    replace (String.length (String c old') - 1)%nat with (String.length old')
      by (simpl; lia).
    pose proof (replace_from_skip (String c old') new old' "") as Hskip.
    rewrite append_nil_r in Hskip. rewrite Hskip.
    simpl. rewrite append_nil_r. reflexivity.
  - change (substring_in (String c old') (String d stem))
      with (is_prefix (String c old') (String d stem)
            || substring_in (String c old') stem) in Hs.
    apply orb_false_iff in Hs. destruct Hs as [Hp Hs].
    change (String d stem ++ String c old') with (String d (stem ++ String c old')).
    cbn [replace_from].
    destruct (is_prefix (String c old') (String d (stem ++ String c old'))) eqn:E.
    + exfalso.
      destruct (is_prefix_overlap c old' (String d stem) (String c old') E)
        as [Hpre|(a & b & Hab & Hlen)].
      * congruence.
      * destruct a as [|x a]; [discriminate Hlen|].
        simpl in Hab. injection Hab as _ ->.
        rewrite contains_char_append in Hc. simpl in Hc.
        rewrite Ascii.eqb_refl in Hc. rewrite orb_true_r in Hc. discriminate.
    + rewrite (IH Hs). reflexivity.
Qed.

(** *** os.path.join *)

Lemma relative_append (s t : string) :
  s <> "" -> is_prefix "/" (s ++ t) = is_prefix "/" s.
Proof.
  destruct s as [|c s']; [congruence|]. intros _. reflexivity.
Qed.

(** What is appended to a non-empty second argument is appended to the
    path. *)
Lemma path_join_append (d s t : string) :
  s <> "" -> path_join d (s ++ t) = path_join d s ++ t.
Proof.
  intros Hs. unfold path_join. rewrite (relative_append s t Hs).
  destruct (is_prefix "/" s); [reflexivity|].
  destruct (String.eqb d "" || endswith d "/").
  - rewrite append_assoc. reflexivity.
  - rewrite !append_assoc. reflexivity.
Qed.

Lemma no_slash_relative (name : string) :
  contains_char "/" name = false -> is_prefix "/" name = false.
Proof.
  destruct name as [|c name]; [reflexivity|]. cbn [contains_char is_prefix].
  intros H. apply orb_false_iff in H. destruct H as [-> _]. reflexivity.
Qed.

(** The path of a relative name is the directory, closed by a
    separator, and the name. *)
Lemma path_join_relative (d name : string) :
  is_prefix "/" name = false -> path_join d name = path_join d "" ++ name.
Proof.
  intros H. unfold path_join. rewrite H. cbn [is_prefix].
  destruct (String.eqb d "" || endswith d "/").
  - rewrite append_nil_r. reflexivity.
  - rewrite !append_assoc. reflexivity.
Qed.

End Str.

(** ** preprocessing.py: what decides the lead scores *)

Module LeadFacts.
Import Py Str LeadFeatures.
Local Open Scope string_scope.
Local Open Scope Z_scope.

(** [rest] is empty or begins a further piece of the address. *)
Definition further_pieces (rest : string) : Prop :=
  rest = "" \/ exists r, rest = String "@" r.

Lemma email_domain_second_piece (local domain rest : string) :
  contains_char "@" local = false ->
  contains_char "@" domain = false ->
  further_pieces rest ->
  email_domain (local ++ String "@" (domain ++ rest)) = lower domain.
Proof.
  intros Hl Hd Hrest. unfold email_domain.
  rewrite contains_char_append. simpl. rewrite orb_true_r.
  rewrite (split_char_append _ _ _ Hl).
  destruct Hrest as [->|[r ->]].
  - rewrite append_nil_r, (split_char_no_sep _ _ Hd). reflexivity.
  - rewrite (split_char_append _ _ _ Hd). reflexivity.
Qed.

Lemma append_at_nonempty (local tail : string) : local ++ String "@" tail <> "".
Proof. destruct local; discriminate. Qed.

(** X1.  The e-mail score of an address with an '@' is decided by the piece
    between the first and the second '@' alone: when that piece is ASCII
    text, the score is -5 if the piece, with its letters A to Z
    lower-cased, is one of the five freemail domains, and 15 otherwise.
    The part before the first '@' and whatever follows a second '@' play
    no role. *)
Theorem email_score_by_domain (local domain rest : string)
    (Hlocal : contains_char "@" local = false)
    (Hdomain : contains_char "@" domain = false)
    (Hascii : isascii domain = true)
    (Hrest : further_pieces rest) :
  calculate_email_domain_score (Some (local ++ String "@" (domain ++ rest)))
  = if str_in (lower domain) business_domains then -5 else 15.
Proof.
  unfold calculate_email_domain_score.
  destruct (String.eqb_spec (local ++ String "@" (domain ++ rest)) "") as [E|_].
  - exfalso. exact (append_at_nonempty _ _ E).
  - rewrite (email_domain_second_piece _ _ _ Hlocal Hdomain Hrest).
    destruct (str_in (lower domain) business_domains); reflexivity.
Qed.

Lemma email_score_by_domain_witness :
  calculate_email_domain_score (Some "Ann.Lee@GMail.com@example.org") = -5.
Proof.
  apply (email_score_by_domain "Ann.Lee" "GMail.com" "@example.org");
    [reflexivity | reflexivity | reflexivity | right; eexists; reflexivity].
Defined.

Lemma any_keyword_found (kws : list string) (kw u v : string) :
  In kw kws -> any_keyword kws (u ++ kw ++ v) = true.
Proof.
  intros Hin. unfold any_keyword. apply existsb_exists.
  exists kw. split; [exact Hin | apply substring_in_middle].
Qed.

Lemma keyword_nonempty (u w v : string) (kws : list string) :
  In (lower w) kws -> ~ In "" kws -> u ++ w ++ v <> "".
Proof.
  intros Hin Hne E. destruct u; [|discriminate].
  destruct w; [|discriminate]. apply Hne. exact Hin.
Qed.

(** X2.  Keywords are looked for as substrings of the lower-cased text: a name
    with one of the large-company keywords anywhere inside it, in any
    letter case, counts 50 whatever else it contains, and a job title
    with one of the decision-maker keywords anywhere inside it counts
    25. *)
Theorem keyword_anywhere_decides (u w v : string) :
  (In (lower w) ["inc"; "corp"; "corporation"; "ltd"; "limited"] ->
   estimate_company_size (Some (u ++ w ++ v)) = 50)
  /\ (In (lower w) decision_makers ->
      calculate_job_title_score (Some (u ++ w ++ v)) = 25).
Proof.
  split; intros Hin.
  - unfold estimate_company_size.
    destruct (String.eqb_spec (u ++ w ++ v) "") as [E|_].
    + exfalso. refine (keyword_nonempty u w v _ Hin _ E).
      simpl. intuition discriminate.
    + rewrite !lower_append.
      rewrite (any_keyword_found _ _ _ _ Hin). reflexivity.
  - unfold calculate_job_title_score.
    destruct (String.eqb_spec (u ++ w ++ v) "") as [E|_].
    + exfalso. refine (keyword_nonempty u w v _ Hin _ E).
      unfold decision_makers. simpl. intuition discriminate.
    + rewrite !lower_append.
      rewrite (any_keyword_found _ _ _ _ Hin). reflexivity.
Qed.

Lemma keyword_anywhere_decides_witness :
  estimate_company_size (Some "Princeton Foods LLC") = 50
  /\ calculate_job_title_score (Some "Senior assistant to the CTO") = 25.
Proof.
  split.
  - apply (proj1 (keyword_anywhere_decides "Pr" "inc" "eton Foods LLC")).
    simpl. auto.
  - apply (proj2 (keyword_anywhere_decides "Senior assistant to the " "CTO" "")).
    unfold decision_makers. simpl. auto.
Defined.

End LeadFacts.

(** ** preprocessing.py: the quality report *)

Module QualityFacts.
Import Py Frame Quality.
Local Open Scope string_scope.
Local Open Scope Q_scope.

Definition col_len (c : column) : nat :=
  match c with
  | NumCol v => length v
  | ObjCol v => length v
  | OtherCol _ v => length v
  end.

(** Every column has one cell per index entry. *)
Definition rectangular (df : DataFrame) : Prop :=
  Forall (fun nc => col_len (snd nc) = index_len df) (columns df).

Lemma filter_length_le {A} (f : A -> bool) (l : list A) :
  (length (filter f l) <= length l)%nat.
Proof.
  induction l as [|x l IH]; simpl; [lia|]. destruct (f x); simpl; lia.
Qed.

Lemma missing_count_le (c : column) : (missing_count c <= col_len c)%nat.
Proof. destruct c; simpl; apply filter_length_le. Qed.

Lemma nat_to_Q_nonneg (n : nat) : 0 <= nat_to_Q n.
Proof. unfold nat_to_Q, Qle. simpl. lia. Qed.

Lemma nat_to_Q_pos (n : nat) : (0 < n)%nat -> 0 < nat_to_Q n.
Proof. intros H. unfold nat_to_Q, Qlt. simpl. lia. Qed.

Lemma nat_to_Q_le (n m : nat) : (n <= m)%nat -> nat_to_Q n <= nat_to_Q m.
Proof. intros H. unfold nat_to_Q, Qle. simpl. lia. Qed.

Lemma fraction_nonneg (rows : nat) (c : column) : 0 <= missing_fraction rows c.
Proof.
  unfold missing_fraction. destruct rows as [|r].
  - unfold nat_to_Q at 2. simpl. unfold Qdiv, Qinv. simpl.
    rewrite Qmult_0_r. apply Qle_refl.
  - apply Qle_shift_div_l; [apply nat_to_Q_pos; lia|].
    rewrite Qmult_0_l. apply nat_to_Q_nonneg.
Qed.

Lemma fraction_le_1 (rows : nat) (c : column) :
  (missing_count c <= rows)%nat -> missing_fraction rows c <= 1.
Proof.
  intros Hle. unfold missing_fraction. destruct rows as [|r].
  - unfold nat_to_Q at 2. simpl. unfold Qdiv, Qinv. simpl.
    rewrite Qmult_0_r. discriminate.
  - apply Qle_shift_div_r; [apply nat_to_Q_pos; lia|].
    rewrite Qmult_1_l. apply nat_to_Q_le, Hle.
Qed.

Lemma fraction_zero (rows : nat) (c : column) :
  (0 < rows)%nat -> missing_fraction rows c == 0 -> missing_count c = 0%nat.
Proof.
  intros Hrows H. unfold missing_fraction in H.
  assert (Hpos : 0 < nat_to_Q rows) by (apply nat_to_Q_pos, Hrows).
  assert (Hnum : nat_to_Q (missing_count c) == 0).
  { setoid_replace (nat_to_Q (missing_count c))
      with (nat_to_Q (missing_count c) / nat_to_Q rows * nat_to_Q rows).
    - rewrite H. ring.
    - field. intros E. rewrite E in Hpos. apply (Qlt_irrefl 0 Hpos). }
  unfold nat_to_Q, Qeq in Hnum. simpl in Hnum. lia.
Qed.

Lemma penalty_nonneg (rows : nat) (cols : list (string * column)) :
  0 <= total_penalty rows cols.
Proof.
  induction cols as [|nc rest IH]; simpl; [apply Qle_refl|].
  pose proof (fraction_nonneg rows (snd nc)). lra.
Qed.

Lemma penalty_le (rows : nat) (cols : list (string * column)) :
  Forall (fun nc => (missing_count (snd nc) <= rows)%nat) cols ->
  total_penalty rows cols <= 10 * nat_to_Q (length cols).
Proof.
  induction cols as [|nc rest IH]; intros H; simpl.
  - unfold nat_to_Q, Qle. simpl. lia.
  - inversion H as [|? ? Hc Hrest]; subst. specialize (IH Hrest).
    pose proof (fraction_le_1 rows (snd nc) Hc) as H1.
    assert (E : nat_to_Q (S (length rest)) == 1 + nat_to_Q (length rest)).
    { unfold nat_to_Q. rewrite Nat2Z.inj_succ. unfold Z.succ.
      rewrite inject_Z_plus. ring. }
    rewrite E. lra.
Qed.

Lemma penalty_zero (rows : nat) (cols : list (string * column)) :
  (0 < rows)%nat ->
  (total_penalty rows cols == 0
   <-> Forall (fun nc => missing_count (snd nc) = 0%nat) cols).
Proof.
  intros Hrows. induction cols as [|nc rest IH]; simpl.
  - split; [constructor | reflexivity].
  - pose proof (fraction_nonneg rows (snd nc)) as H1.
    pose proof (penalty_nonneg rows rest) as H2.
    split.
    + intros H. constructor.
      * apply (fraction_zero rows _ Hrows). lra.
      * apply IH. lra.
    + intros H. inversion H as [|? ? Hc Hrest]; subst.
      apply IH in Hrest. rewrite Hrest.
      unfold missing_fraction. rewrite Hc.
      unfold nat_to_Q at 1. simpl. unfold Qdiv. ring.
Qed.

(** The score as a function of the penalty: the upper clamp never acts. *)
Lemma score_of_penalty (df : DataFrame) :
  let penalty := total_penalty (index_len df) (columns df) in
  (penalty <= 100 -> quality_score (report_of_columns df) == 100 - penalty)
  /\ (100 <= penalty -> quality_score (report_of_columns df) == 0).
Proof.
  intros penalty.
  pose proof (penalty_nonneg (index_len df) (columns df)) as Hnn. fold penalty in Hnn.
  rewrite quality_score_eq.
  pose proof (quality_loop (index_len df) (columns df) [] 0) as Hloop.
  fold penalty in Hloop.
  set (acc := snd (fold_left (quality_step (index_len df)) (columns df) ([], 0))) in *.
  unfold py_max, py_min.
  destruct (Qltb (100 + acc) 100) eqn:E1.
  - apply Qltb_lt in E1. destruct (Qltb 0 (100 + acc)) eqn:E2.
    + apply Qltb_lt in E2. split; intros; lra.
    + apply Qltb_ge in E2. split; intros; lra.
  - apply Qltb_ge in E1. replace (Qltb 0 100) with true by reflexivity.
    split; intros; lra.
Qed.

(** X3.  On a table with rows and distinct column labels the call returns,
    and the score is 100 exactly when no cell of the table is
    missing. *)
Theorem full_score_iff_nothing_missing (df : DataFrame)
    (Hrows : (0 < index_len df)%nat)
    (Hlabels : NoDup (map fst (columns df))) :
  exists report,
    validate_data_quality df = Returned report
    /\ (quality_score report == 100
        <-> Forall (fun nc => missing_count (snd nc) = 0%nat) (columns df)).
Proof.
  exists (report_of_columns df).
  split; [apply validate_data_quality_distinct, Hlabels|].
  pose proof (score_of_penalty df) as [Hlow Hhigh]. cbv zeta in *.
  pose proof (penalty_nonneg (index_len df) (columns df)) as Hnn.
  rewrite <- (penalty_zero _ _ Hrows).
  set (penalty := total_penalty (index_len df) (columns df)) in *.
  split; intros H.
  - destruct (Qlt_le_dec penalty 100) as [Hlt|Hge].
    + assert (Hs := Hlow (Qlt_le_weak _ _ Hlt)). lra.
    + assert (Hs := Hhigh Hge). lra.
  - rewrite Hlow; lra.
Qed.

Definition complete_frame : DataFrame :=
  mkDataFrame 2 [("visits", NumCol [Some 1; Some 2]);
                 ("company", ObjCol [OStr "Acme"; OStr "Hooli"])].

Lemma full_score_iff_nothing_missing_witness :
  exists report,
    validate_data_quality complete_frame = Returned report
    /\ (quality_score report == 100
        <-> Forall (fun nc => missing_count (snd nc) = 0%nat) (columns complete_frame)).
Proof.
  apply (full_score_iff_nothing_missing complete_frame).
  - simpl. lia.
  - repeat constructor; simpl; intuition discriminate.
Defined.

(** X4.  Each column can cost at most 10 points: on a table whose labels are
    distinct and whose columns all have the length of the index, the
    call returns a score of 100 - 10 n or more for n columns, so the
    score can reach 0 only from ten columns on. *)
Theorem quality_score_floor (df : DataFrame)
    (Hlabels : NoDup (map fst (columns df))) (Hrect : rectangular df) :
  exists report,
    validate_data_quality df = Returned report
    /\ 100 - 10 * nat_to_Q (length (columns df)) <= quality_score report
    /\ ((length (columns df) < 10)%nat -> 0 < quality_score report).
Proof.
  exists (report_of_columns df).
  split; [apply validate_data_quality_distinct, Hlabels|].
  pose proof (score_of_penalty df) as [Hlow Hhigh]. cbv zeta in *.
  assert (Hbound : total_penalty (index_len df) (columns df)
                   <= 10 * nat_to_Q (length (columns df))).
  { apply penalty_le. unfold rectangular in Hrect.
    eapply Forall_impl; [|exact Hrect].
    intros nc Hnc. simpl in Hnc. rewrite <- Hnc. apply missing_count_le. }
  pose proof (penalty_nonneg (index_len df) (columns df)) as Hnn.
  set (penalty := total_penalty (index_len df) (columns df)) in *.
  set (n := length (columns df)) in *.
  split.
  - destruct (Qlt_le_dec penalty 100) as [Hlt|Hge].
    + rewrite (Hlow (Qlt_le_weak _ _ Hlt)). lra.
    + rewrite (Hhigh Hge). lra.
  - intros Hn.
    assert (Hn9 : nat_to_Q n <= 9).
    { change 9 with (nat_to_Q 9). apply nat_to_Q_le. lia. }
    assert (Hlt : penalty <= 100) by lra.
    rewrite (Hlow Hlt). lra.
Qed.

Lemma quality_score_floor_witness :
  exists report,
    validate_data_quality sample_frame = Returned report
    /\ 100 - 10 * nat_to_Q 3 <= quality_score report
    /\ ((3 < 10)%nat -> 0 < quality_score report).
Proof.
  apply (quality_score_floor sample_frame).
  - repeat constructor; simpl; intuition discriminate.
  - repeat constructor.
Defined.

Definition count_entry (nc : string * column) : string * nat :=
  (fst nc, missing_count (snd nc)).

Lemma quality_loop_counts (rows : nat) (cols : list (string * column))
    (mv : list (string * nat)) (acc : Q) :
  NoDup (map fst mv ++ map fst cols) ->
  fst (fold_left (quality_step rows) cols (mv, acc)) = (mv ++ map count_entry cols)%list.
Proof.
  revert mv acc. induction cols as [|nc rest IH]; intros mv acc Hnd; simpl.
  - rewrite app_nil_r. reflexivity.
  - assert (Hfresh : ~ In (fst nc) (map fst mv)).
    { intros Hin. apply NoDup_remove_2 in Hnd. apply Hnd.
      apply in_or_app. left. exact Hin. }
    assert (Hstep : quality_step rows (mv, acc) nc
                    = ((mv ++ [count_entry nc])%list, snd (quality_step rows (mv, acc) nc))).
    { unfold quality_step. simpl.
      rewrite (Importance.dict_set_fresh _ _ _ Hfresh).
      destruct (0 <? missing_count (snd nc))%nat; reflexivity. }
    rewrite Hstep, IH.
    + rewrite <- app_assoc. reflexivity.
    + rewrite map_app. simpl. rewrite <- app_assoc. exact Hnd.
Qed.

Lemma dict_get_count (name : string) (c : column) (cols : list (string * column)) :
  NoDup (map fst cols) -> In (name, c) cols ->
  dict_get name (map count_entry cols) = Some (missing_count c).
Proof.
  induction cols as [|[n0 c0] rest IH]; intros Hnd Hin; [destruct Hin|].
  inversion Hnd as [|? ? Hnotin Hrest]; subst. simpl.
  destruct Hin as [E|Hin].
  - injection E as -> ->. rewrite String.eqb_refl. reflexivity.
  - destruct (String.eqb_spec n0 name) as [->|_].
    + exfalso. apply Hnotin. apply (in_map fst) in Hin. exact Hin.
    + apply IH; assumption.
Qed.

(** X5.  The report counts what is there: on a table with distinct column
    labels the call returns a report with the number of rows and of
    columns, and under every column label the number of missing cells
    of that column. *)
Theorem report_counts_missing_cells (df : DataFrame)
    (Hlabels : NoDup (map fst (columns df))) :
  exists report,
    validate_data_quality df = Returned report
    /\ total_rows report = index_len df
    /\ total_columns report = length (columns df)
    /\ forall name c, In (name, c) (columns df) ->
         dict_get name (missing_values report) = Some (missing_count c).
Proof.
  exists (report_of_columns df).
  split; [apply validate_data_quality_distinct, Hlabels|].
  pose proof (quality_loop_counts (index_len df) (columns df) [] 0 Hlabels) as Hmv.
  unfold report_of_columns.
  destruct (fold_left (quality_step (index_len df)) (columns df) ([], 0)) as [mv score].
  simpl in *. subst mv.
  repeat split. intros name c Hin. apply dict_get_count; assumption.
Qed.

Lemma report_counts_missing_cells_witness :
  exists report,
    validate_data_quality sample_frame = Returned report
    /\ total_rows report = 4%nat
    /\ total_columns report = 3%nat
    /\ forall name c, In (name, c) (columns sample_frame) ->
         dict_get name (missing_values report) = Some (missing_count c).
Proof.
  apply (report_counts_missing_cells sample_frame).
  repeat constructor; simpl; intuition discriminate.
Defined.

End QualityFacts.

(** ** preprocessing.py: what imputation does to a table *)

Module ImputationFacts.
Import Py Frame Imputation.
Local Open Scope string_scope.
Local Open Scope Q_scope.
Local Open Scope py_scope.

(** *** When the call returns *)

(** The strategy string is none of the three that select a statistic. *)
Definition unnamed (strategy : string) : Prop :=
  strategy <> "mean" /\ strategy <> "median" /\ strategy <> "most_frequent".

(** A numeric or an object column has a cell that is not NaN. *)
Definition has_value (c : column) : Prop :=
  match c with
  | NumCol vals => observed vals <> []
  | ObjCol vals => forallb is_nan vals = false
  | OtherCol _ _ => True
  end.

(** The imputers keep a column that has a cell other than NaN.  A
    column of NaN only is kept by a constant fill alone, and only by a
    release before 1.8: for a numeric column that is the fill of an
    unnamed strategy, for an object column the fill with "unknown". *)
Definition kept (release : sklearn_release) (strategy : string) (c : column) : Prop :=
  match c with
  | NumCol vals => observed vals <> [] \/ (release = Before_1_8 /\ unnamed strategy)
  | ObjCol vals => forallb is_nan vals = false \/ release = Before_1_8
  | OtherCol _ _ => True
  end.

Definition all_kept (release : sklearn_release) (strategy : string)
    (cols : list (string * column)) : Prop :=
  Forall (fun nc => kept release strategy (snd nc)) cols.

Lemma numeric_fill_kept (release : sklearn_release) (strategy : string)
    (vals : list (option Q)) :
  numeric_fill release strategy vals <> None <-> kept release strategy (NumCol vals).
Proof.
  unfold numeric_fill, kept, unnamed.
  destruct (String.eqb_spec strategy "mean") as [E1|N1];
    [|destruct (String.eqb_spec strategy "median") as [E2|N2];
      [|destruct (String.eqb_spec strategy "most_frequent") as [E3|N3]]];
    destruct release, (observed vals); split; intros H;
    first [ congruence
          | left; discriminate
          | right; repeat split; first [assumption | reflexivity]
          | destruct H as [H|(? & ? & ? & ?)]; congruence ].
Qed.

Lemma impute_object_kept (release : sklearn_release) (strategy : string)
    (vals : list objcell) :
  impute_object release vals <> None <-> kept release strategy (ObjCol vals).
Proof.
  unfold impute_object, kept.
  destruct release, (forallb is_nan vals); split; intros H;
    first [ congruence
          | left; reflexivity
          | right; reflexivity
          | destruct H as [H|H]; congruence ].
Qed.

Lemma has_statistics_kept (release : sklearn_release) (strategy : string)
    (cols : list (string * column)) :
  has_statistics release strategy cols <-> all_kept release strategy cols.
Proof.
  unfold has_statistics, all_kept. rewrite !Forall_forall.
  split; intros H [name c] Hin; specialize (H _ Hin); cbn [snd] in *;
    destruct c as [vals|vals|dt vals]; try exact I.
  - apply numeric_fill_kept, H.
  - apply (impute_object_kept release strategy), H.
  - apply numeric_fill_kept, H.
  - apply (impute_object_kept release strategy), H.
Qed.

Definition numbers_kept (release : sklearn_release) (strategy : string)
    (cols : list (string * column)) : Prop :=
  Forall (fun nc => match snd nc with
                    | NumCol vals => numeric_fill release strategy vals <> None
                    | _ => True
                    end) cols.

Lemma has_statistics_split (release : sklearn_release) (strategy : string)
    (cols : list (string * column)) :
  has_statistics release strategy cols
  <-> numbers_kept release strategy cols /\ objects_kept release cols.
Proof.
  unfold has_statistics, numbers_kept, objects_kept. rewrite !Forall_forall.
  split.
  - intros H. split; intros [name c] Hin; specialize (H _ Hin); cbn [snd] in *;
      destruct c; auto.
  - intros [Hn Ho] [name c] Hin. specialize (Hn _ Hin). specialize (Ho _ Hin).
    cbn [snd] in *. destruct c; auto.
Qed.

(** The numeric assignment returns or raises, and leaves the object
    columns as they are. *)
Lemma assign_numeric_outcome (release : sklearn_release) (strategy : string)
    (cols : list (string * column)) :
  (numbers_kept release strategy cols
   /\ exists cols', assign_numeric release strategy cols = Returned cols'
                    /\ (objects_kept release cols' <-> objects_kept release cols))
  \/ (~ numbers_kept release strategy cols
      /\ assign_numeric release strategy cols = Raised column_mismatch).
Proof.
  induction cols as [|[name c] rest IH].
  - left. split; [constructor|]. exists []. split; [reflexivity | tauto].
  - assert (Hcons : forall c0 (P : string * column -> Prop) l l',
               (Forall P l' <-> Forall P l) -> (P (name, c0) <-> P (name, c)) ->
               (Forall P ((name, c0) :: l') <-> Forall P ((name, c) :: l))).
    { intros c0 P l l' Hl Hc. split; intros H; inversion H; subst;
        constructor; tauto. }
    destruct c as [vals|vals|dt vals].
    + simpl. unfold impute_numeric.
      destruct (numeric_fill release strategy vals) as [fill|] eqn:E.
      * destruct IH as [[Hs (rest' & Hr & Ho)]|[Hs Hr]].
        -- left. split; [constructor; [simpl; congruence | exact Hs]|].
           rewrite Hr. simpl. eexists. split; [reflexivity|].
           apply Hcons; [exact Ho | simpl; tauto].
        -- right. split; [|rewrite Hr; reflexivity].
           intros H. inversion H; subst. contradiction.
      * right. split; [|reflexivity].
        intros H. inversion H as [|? ? Hc _]; subst. simpl in Hc. congruence.
    + simpl. destruct IH as [[Hs (rest' & Hr & Ho)]|[Hs Hr]].
      * left. split; [constructor; [exact I | exact Hs]|]. rewrite Hr. simpl.
        eexists. split; [reflexivity|]. apply Hcons; [exact Ho | tauto].
      * right. split; [|rewrite Hr; reflexivity].
        intros H. inversion H; subst. contradiction.
    + simpl. destruct IH as [[Hs (rest' & Hr & Ho)]|[Hs Hr]].
      * left. split; [constructor; [exact I | exact Hs]|]. rewrite Hr. simpl.
        eexists. split; [reflexivity|]. apply Hcons; [exact Ho | tauto].
      * right. split; [|rewrite Hr; reflexivity].
        intros H. inversion H; subst. contradiction.
Qed.

Lemma assign_categorical_raises (release : sklearn_release)
    (cols : list (string * column)) :
  ~ objects_kept release cols ->
  assign_categorical release cols = Raised column_mismatch.
Proof.
  induction cols as [|[name c] rest IH]; intros Hno.
  - exfalso. apply Hno. constructor.
  - destruct c as [vals|vals|dt vals]; simpl.
    + rewrite IH; [reflexivity|]. intros H. apply Hno. constructor; [exact I | exact H].
    + destruct (impute_object release vals) as [vals'|] eqn:E; [|reflexivity].
      rewrite IH; [reflexivity|]. intros H. apply Hno.
      constructor; [simpl; congruence | exact H].
    + rewrite IH; [reflexivity|]. intros H. apply Hno. constructor; [exact I | exact H].
Qed.

Lemma without_numeric_columns (release : sklearn_release) (strategy : string)
    (cols : list (string * column)) :
  (0 <? length (filter (fun nc => is_numeric (snd nc)) cols))%nat = false ->
  numbers_kept release strategy cols.
Proof.
  intros H. apply Nat.ltb_ge in H. unfold numbers_kept.
  induction cols as [|[name c] rest IH]; [constructor|].
  destruct c; simpl in H; try lia; (constructor; [exact I | apply IH; exact H]).
Qed.

Lemma without_object_columns (release : sklearn_release)
    (cols : list (string * column)) :
  (0 <? length (filter (fun nc => is_object (snd nc)) cols))%nat = false ->
  objects_kept release cols.
Proof.
  intros H. apply Nat.ltb_ge in H. unfold objects_kept.
  induction cols as [|[name c] rest IH]; [constructor|].
  destruct c; simpl in H; try lia; (constructor; [exact I | apply IH; exact H]).
Qed.

(** X6.  On a table with rows and distinct column labels, whose numbers are
    finite or NaN, the call returns exactly when the imputers keep every
    column, [kept]: a column with a cell other than NaN always, a column
    of NaN only under a constant fill of a release of scikit-learn
    before 1.8.  Otherwise a column is discarded and the call raises
    the ValueError of the column assignment. *)
Theorem handle_missing_values_returns_or_raises (release : sklearn_release)
    (df : DataFrame) (strategy : string)
    (Hrows : (0 < index_len df)%nat)
    (Hlabels : NoDup (map fst (columns df))) :
  (all_kept release strategy (columns df) ->
   exists df', handle_missing_values release df strategy = Returned df')
  /\ (~ all_kept release strategy (columns df) ->
      handle_missing_values release df strategy = Raised column_mismatch).
Proof.
  split.
  - intros Hk. apply has_statistics_kept in Hk.
    apply (@handle_missing_values_returns release df strategy Hrows Hk).
  - intros Hno. rewrite <- has_statistics_kept, has_statistics_split in Hno.
    unfold handle_missing_values, check_array.
    destruct (Nat.eqb_spec (index_len df) 0) as [E|_]; [lia|].
    assert (Hobj : forall cols1,
               (objects_kept release cols1 <-> objects_kept release (columns df)) ->
               ~ objects_kept release (columns df) ->
               (cols2 <- (if (0 <? length (filter (fun nc => is_object (snd nc))
                                             (columns df)))%nat
                          then _ <- Returned tt ;; assign_categorical release cols1
                          else Returned cols1) ;;
                Returned (mkDataFrame (index_len df) cols2))
               = Raised column_mismatch).
    { intros cols1 Hiff Hnot.
      destruct (0 <? length (filter (fun nc => is_object (snd nc)) (columns df)))%nat eqn:Eo.
      - cbn [bind]. rewrite assign_categorical_raises; [reflexivity | tauto].
      - exfalso. apply Hnot. apply without_object_columns, Eo. }
    destruct (0 <? length (filter (fun nc => is_numeric (snd nc)) (columns df)))%nat eqn:En.
    + cbn [bind].
      destruct (assign_numeric_outcome release strategy (columns df))
        as [[Hs (cols1 & Hr & Ho)]|[_ Hr]].
      * rewrite Hr. cbn [bind]. apply (Hobj cols1 Ho). tauto.
      * rewrite Hr. reflexivity.
    + cbn [bind]. apply (Hobj (columns df)); [tauto|].
      pose proof (without_numeric_columns release strategy _ En). tauto.
Qed.

Definition unseen_score : DataFrame :=
  mkDataFrame 2
    [("lead_score", NumCol [None; None]);
     ("visits", NumCol [Some 4; None])].

Lemma handle_missing_values_returns_or_raises_witness :
  handle_missing_values From_1_8 unseen_score "constant" = Raised column_mismatch
  /\ exists df', handle_missing_values Before_1_8 unseen_score "constant" = Returned df'.
Proof.
  assert (Hlabels : NoDup (map fst (columns unseen_score)))
    by (repeat constructor; simpl; intuition discriminate).
  split.
  - apply (proj2 (handle_missing_values_returns_or_raises From_1_8 unseen_score "constant"
                    ltac:(simpl; lia) Hlabels)).
    intros H. inversion H as [|? ? Hc _]; subst.
    destruct Hc as [Hc|[Hc _]]; [apply Hc; reflexivity | discriminate Hc].
  - apply (proj1 (handle_missing_values_returns_or_raises Before_1_8 unseen_score "constant"
                    ltac:(simpl; lia) Hlabels)).
    apply Forall_cons; [|apply Forall_cons; [|apply Forall_nil]].
    + right. split; [reflexivity|]. repeat split; discriminate.
    + left. discriminate.
Defined.

(** *** What a returned table looks like *)

(** A present number stays; a gap has become a number. *)
Definition filled_number (v v' : option Q) : Prop :=
  match v with
  | Some q => v' = Some q
  | None => v' <> None
  end.

Definition filled_column (c c' : column) : Prop :=
  match c, c' with
  | NumCol vals, NumCol vals' => Forall2 filled_number vals vals'
  | ObjCol vals, ObjCol vals' => vals' = map fill_obj vals
  | OtherCol dt vals, OtherCol dt' vals' => dt = dt' /\ vals = vals'
  | _, _ => False
  end.

Definition filled_from (nc nc' : string * column) : Prop :=
  fst nc = fst nc' /\ filled_column (snd nc) (snd nc').

(** The relation after the numeric step: object columns are still as
    they were. *)
Definition numbers_filled (nc nc' : string * column) : Prop :=
  fst nc = fst nc'
  /\ match snd nc, snd nc' with
     | NumCol vals, NumCol vals' => Forall2 filled_number vals vals'
     | c, c' => c = c'
     end.

Lemma impute_numeric_fills (release : sklearn_release) (strategy : string)
    (vals vals' : list (option Q)) :
  impute_numeric release strategy vals = Some vals' -> Forall2 filled_number vals vals'.
Proof.
  unfold impute_numeric.
  destruct (numeric_fill release strategy vals) as [fill|]; [|discriminate].
  intros H. injection H as <-.
  induction vals as [|v vals IH]; simpl; constructor; [|exact IH].
  destruct v; simpl; [reflexivity | discriminate].
Qed.

Lemma assign_numeric_fills (release : sklearn_release) (strategy : string)
    (cols cols' : list (string * column)) :
  assign_numeric release strategy cols = Returned cols' ->
  Forall2 numbers_filled cols cols'.
Proof.
  revert cols'. induction cols as [|[name c] rest IH]; intros cols' H; simpl in H.
  - injection H as <-. constructor.
  - destruct c as [vals|vals|dt vals].
    + destruct (impute_numeric release strategy vals) as [vals'|] eqn:E; [|discriminate].
      apply bind_returned in H. destruct H as (rest' & Hrest & Hret).
      injection Hret as <-. constructor; [|apply IH; exact Hrest].
      split; [reflexivity|]. simpl. apply (impute_numeric_fills _ _ _ _ E).
    + apply bind_returned in H. destruct H as (rest' & Hrest & Hret).
      injection Hret as <-. constructor; [|apply IH; exact Hrest].
      split; reflexivity.
    + apply bind_returned in H. destruct H as (rest' & Hrest & Hret).
      injection Hret as <-. constructor; [|apply IH; exact Hrest].
      split; reflexivity.
Qed.

Lemma numbers_filled_refl (cols : list (string * column)) :
  (0 <? length (filter (fun nc => is_numeric (snd nc)) cols))%nat = false ->
  Forall2 numbers_filled cols cols.
Proof.
  intros H. apply Nat.ltb_ge in H.
  induction cols as [|[name c] rest IH]; [constructor|].
  destruct c; simpl in H; try lia;
    (constructor; [split; reflexivity | apply IH; exact H]).
Qed.

Lemma impute_object_fills (release : sklearn_release) (vals vals' : list objcell) :
  impute_object release vals = Some vals' -> vals' = map fill_obj vals.
Proof.
  unfold impute_object. intros H.
  destruct release; [|destruct (forallb is_nan vals); [discriminate|]];
    injection H as <-; reflexivity.
Qed.

Lemma categorical_after_numbers (release : sklearn_release)
    (cols cols1 cols2 : list (string * column)) :
  Forall2 numbers_filled cols cols1 ->
  assign_categorical release cols1 = Returned cols2 ->
  Forall2 filled_from cols cols2.
Proof.
  intros H. revert cols2.
  induction H as [|[n c] [n1 c1] rest rest1 [Hname Hc] _ IH]; intros cols2 Hret.
  - simpl in Hret. injection Hret as <-. constructor.
  - simpl in Hname, Hc. subst n1.
    destruct c1 as [v1|v1|dt1 v1]; simpl in Hret.
    + apply bind_returned in Hret. destruct Hret as (rest' & Hrest & Hret).
      injection Hret as <-. constructor; [|apply IH; exact Hrest].
      split; [reflexivity|]. destruct c as [v|v|dt v]; simpl in *;
        try discriminate Hc; exact Hc.
    + destruct (impute_object release v1) as [v1'|] eqn:E; [|discriminate].
      apply bind_returned in Hret. destruct Hret as (rest' & Hrest & Hret).
      injection Hret as <-. constructor; [|apply IH; exact Hrest].
      split; [reflexivity|]. destruct c as [v|v|dt v]; simpl in *;
        try discriminate Hc.
      injection Hc as ->. apply (impute_object_fills _ _ _ E).
    + apply bind_returned in Hret. destruct Hret as (rest' & Hrest & Hret).
      injection Hret as <-. constructor; [|apply IH; exact Hrest].
      split; [reflexivity|]. destruct c as [v|v|dt v]; simpl in *;
        try discriminate Hc.
      injection Hc as -> ->. split; reflexivity.
Qed.

Lemma no_objects_after_numbers (cols cols1 : list (string * column)) :
  (0 <? length (filter (fun nc => is_object (snd nc)) cols))%nat = false ->
  Forall2 numbers_filled cols cols1 ->
  Forall2 filled_from cols cols1.
Proof.
  intros H. apply Nat.ltb_ge in H.
  induction 1 as [|[n c] [n1 c1] rest rest1 [Hname Hc] _ IH]; [constructor|].
  simpl in *. subst n1.
  destruct c as [v|v|dt v]; simpl in H; try lia.
  - constructor; [|apply IH; exact H]. split; [reflexivity|].
    destruct c1; simpl in *; try discriminate Hc; try contradiction; exact Hc.
  - constructor; [|apply IH; exact H]. subst c1. split; [reflexivity|].
    simpl. split; reflexivity.
Qed.

(** X7.  A returned table has the index, the labels and the column order of
    the input.  In a numeric column every number that was there is still
    there and every gap holds a number; in an object column exactly the
    NaN cells have become "unknown"; a column of any other dtype is
    untouched. *)
Theorem handle_missing_values_fills_gaps_only (release : sklearn_release)
    (df df' : DataFrame) (strategy : string)
    (Hret : handle_missing_values release df strategy = Returned df') :
  index_len df' = index_len df
  /\ Forall2 filled_from (columns df) (columns df').
Proof.
  unfold handle_missing_values in Hret.
  apply bind_returned in Hret. destruct Hret as (cols1 & H1 & H).
  apply bind_returned in H. destruct H as (cols2 & H2 & H).
  injection H as <-. simpl. split; [reflexivity|].
  assert (Hnum : Forall2 numbers_filled (columns df) cols1).
  { destruct (0 <? length (filter (fun nc => is_numeric (snd nc)) (columns df)))%nat eqn:E.
    - apply bind_returned in H1. destruct H1 as ([] & _ & H1).
      apply (assign_numeric_fills _ _ _ _ H1).
    - injection H1 as <-. apply numbers_filled_refl, E. }
  destruct (0 <? length (filter (fun nc => is_object (snd nc)) (columns df)))%nat eqn:E.
  - apply bind_returned in H2. destruct H2 as ([] & _ & H2).
    apply (categorical_after_numbers release _ _ _ Hnum H2).
  - injection H2 as <-. apply (no_objects_after_numbers _ _ E Hnum).
Qed.

Definition mixed_table : DataFrame :=
  mkDataFrame 3
    [("lead_score", NumCol [Some 4; None; Some 8]);
     ("company", ObjCol [OStr "Acme"; ONaN; ONone]);
     ("is_active", OtherCol "bool" [Some "True"; Some "False"; Some "True"])].

Definition mixed_table_filled : DataFrame :=
  mkDataFrame 3
    [("lead_score", NumCol [Some 4; Some ((4 + (8 + 0)) / 2); Some 8]);
     ("company", ObjCol [OStr "Acme"; OStr "unknown"; ONone]);
     ("is_active", OtherCol "bool" [Some "True"; Some "False"; Some "True"])].

Lemma handle_missing_values_fills_gaps_only_witness :
  index_len mixed_table_filled = index_len mixed_table
  /\ Forall2 filled_from (columns mixed_table) (columns mixed_table_filled).
Proof.
  apply (handle_missing_values_fills_gaps_only From_1_8 mixed_table mixed_table_filled
           "mean").
  reflexivity.
Defined.

(** *** A strategy the code does not name *)

Definition zero_filled (nc : string * column) : string * column :=
  match snd nc with
  | NumCol vals => (fst nc, NumCol (map (fill_num 0) vals))
  | ObjCol vals => (fst nc, ObjCol (map fill_obj vals))
  | OtherCol _ _ => nc
  end.

(** The release keeps a column of NaN only, or the column has a value. *)
Definition filled_anyway (release : sklearn_release) (c : column) : Prop :=
  release = Before_1_8 \/ has_value c.

Lemma unnamed_strategy_fill (release : sklearn_release) (strategy : string)
    (vals : list (option Q)) :
  unnamed strategy -> filled_anyway release (NumCol vals) ->
  numeric_fill release strategy vals = Some 0.
Proof.
  intros (H1 & H2 & H3) Hk. unfold numeric_fill.
  destruct (String.eqb_spec strategy "mean"); [contradiction|].
  destruct (String.eqb_spec strategy "median"); [contradiction|].
  destruct (String.eqb_spec strategy "most_frequent"); [contradiction|].
  destruct release; [reflexivity|].
  destruct Hk as [Hk|Hk]; [discriminate Hk|]. simpl in Hk.
  destruct (observed vals); [congruence | reflexivity].
Qed.

Lemma constant_fill_object (release : sklearn_release) (vals : list objcell) :
  filled_anyway release (ObjCol vals) ->
  impute_object release vals = Some (map fill_obj vals).
Proof.
  intros Hk. unfold impute_object. destruct release; [reflexivity|].
  destruct Hk as [Hk|Hk]; [discriminate Hk|]. simpl in Hk. rewrite Hk. reflexivity.
Qed.

Definition numbers_zeroed (nc : string * column) : string * column :=
  match snd nc with
  | NumCol vals => (fst nc, NumCol (map (fill_num 0) vals))
  | _ => nc
  end.

Lemma assign_numeric_unnamed (release : sklearn_release) (strategy : string)
    (cols : list (string * column)) :
  unnamed strategy ->
  Forall (fun nc => filled_anyway release (snd nc)) cols ->
  assign_numeric release strategy cols = Returned (map numbers_zeroed cols).
Proof.
  intros Hun Hk. induction cols as [|[name c] rest IH]; [reflexivity|].
  inversion Hk as [|? ? Hc Hrest]; subst. specialize (IH Hrest).
  destruct c as [vals|vals|dt vals]; simpl.
  - unfold impute_numeric. rewrite (unnamed_strategy_fill release strategy vals Hun Hc).
    rewrite IH. reflexivity.
  - rewrite IH. reflexivity.
  - rewrite IH. reflexivity.
Qed.

Lemma numbers_zeroed_id (cols : list (string * column)) :
  (0 <? length (filter (fun nc => is_numeric (snd nc)) cols))%nat = false ->
  map numbers_zeroed cols = cols.
Proof.
  intros H. apply Nat.ltb_ge in H.
  induction cols as [|[name c] rest IH]; [reflexivity|].
  destruct c; simpl in H; try lia; simpl; unfold numbers_zeroed at 1; simpl;
    f_equal; apply IH; exact H.
Qed.

Lemma categorical_zeroed (release : sklearn_release) (cols : list (string * column)) :
  Forall (fun nc => filled_anyway release (snd nc)) cols ->
  assign_categorical release (map numbers_zeroed cols) = Returned (map zero_filled cols).
Proof.
  intros Hk. induction cols as [|[name c] rest IH]; [reflexivity|].
  inversion Hk as [|? ? Hc Hrest]; subst. specialize (IH Hrest).
  destruct c as [vals|vals|dt vals]; cbn [map].
  - unfold numbers_zeroed at 1. cbn [snd fst assign_categorical].
    rewrite IH. reflexivity.
  - unfold numbers_zeroed at 1. cbn [snd fst assign_categorical].
    rewrite (constant_fill_object release vals Hc), IH. reflexivity.
  - unfold numbers_zeroed at 1. cbn [snd fst assign_categorical].
    rewrite IH. reflexivity.
Qed.

Lemma zero_filled_without_objects (cols : list (string * column)) :
  (0 <? length (filter (fun nc => is_object (snd nc)) cols))%nat = false ->
  map numbers_zeroed cols = map zero_filled cols.
Proof.
  intros H. apply Nat.ltb_ge in H.
  induction cols as [|[name c] rest IH]; [reflexivity|].
  destruct c; simpl in H; try lia; simpl; f_equal; apply IH; exact H.
Qed.

(** X8.  Only the three names mean, median and most_frequent select a
    statistic.  Under any other strategy string, a misspelt one included,
    the call on a table with rows and distinct column labels returns
    with every numeric gap filled with 0 and every NaN of an object
    column with "unknown", provided that scikit-learn is a release before
    1.8 or every numeric and every object column has a cell other than
    NaN. *)
Theorem unnamed_strategy_fills_zero (release : sklearn_release)
    (df : DataFrame) (strategy : string)
    (Hrows : (0 < index_len df)%nat)
    (Hlabels : NoDup (map fst (columns df)))
    (Hunnamed : unnamed strategy)
    (Hkept : release = Before_1_8
             \/ Forall (fun nc => has_value (snd nc)) (columns df)) :
  handle_missing_values release df strategy
  = Returned (mkDataFrame (index_len df) (map zero_filled (columns df))).
Proof.
  assert (Hk : Forall (fun nc => filled_anyway release (snd nc)) (columns df)).
  { destruct Hkept as [Hr|Hv].
    - apply Forall_forall. intros nc _. left. exact Hr.
    - eapply Forall_impl; [|exact Hv]. intros nc H. right. exact H. }
  unfold handle_missing_values, check_array.
  destruct (Nat.eqb_spec (index_len df) 0) as [E|_]; [lia|].
  assert (H1 : (if (0 <? length (filter (fun nc => is_numeric (snd nc)) (columns df)))%nat
                then _ <- Returned tt ;; assign_numeric release strategy (columns df)
                else Returned (columns df))
               = Returned (map numbers_zeroed (columns df))).
  { destruct (0 <? length (filter (fun nc => is_numeric (snd nc)) (columns df)))%nat eqn:E.
    - simpl. apply assign_numeric_unnamed; assumption.
    - rewrite (numbers_zeroed_id _ E). reflexivity. }
  rewrite H1. cbn [bind].
  destruct (0 <? length (filter (fun nc => is_object (snd nc)) (columns df)))%nat eqn:E.
  - cbn [bind]. rewrite (categorical_zeroed release _ Hk). reflexivity.
  - cbn [bind]. rewrite (zero_filled_without_objects _ E). reflexivity.
Qed.

Lemma unnamed_strategy_fills_zero_witness :
  handle_missing_values From_1_8 mixed_table "Mean"
  = Returned (mkDataFrame 3 (map zero_filled (columns mixed_table))).
Proof.
  apply (unnamed_strategy_fills_zero From_1_8 mixed_table "Mean").
  - simpl. lia.
  - repeat constructor; simpl; intuition discriminate.
  - repeat split; discriminate.
  - right. repeat (apply Forall_cons; [simpl; first [discriminate | reflexivity | exact I]|]).
    apply Forall_nil.
Defined.

(** *** A table without rows *)

(** X9.  On a table without rows the call raises a ValueError as soon as the
    table has a numeric or an object column, under every strategy; with
    columns of other dtypes only it returns the table. *)
Theorem no_rows_raises (release : sklearn_release) (df : DataFrame) (strategy : string)
    (Hrows : index_len df = 0%nat) :
  if existsb (fun nc => is_numeric (snd nc) || is_object (snd nc)) (columns df)
  then exists msg, handle_missing_values release df strategy = Raised (ValueError msg)
  else handle_missing_values release df strategy = Returned df.
Proof.
  unfold handle_missing_values, check_array. rewrite Hrows. simpl.
  destruct df as [n cols]. simpl in *. subst n.
  destruct (0 <? length (filter (fun nc => is_numeric (snd nc)) cols))%nat eqn:En.
  - assert (Hex : existsb (fun nc => is_numeric (snd nc) || is_object (snd nc)) cols = true).
    { apply Nat.ltb_lt in En. apply existsb_exists.
      destruct (filter (fun nc => is_numeric (snd nc)) cols) as [|nc l] eqn:Ef;
        [simpl in En; lia|].
      assert (Hin : In nc (filter (fun nc => is_numeric (snd nc)) cols))
        by (rewrite Ef; left; reflexivity).
      apply filter_In in Hin. destruct Hin as [Hin Hnum].
      exists nc. split; [exact Hin | rewrite Hnum; reflexivity]. }
    rewrite Hex. simpl. eauto.
  - simpl.
    destruct (0 <? length (filter (fun nc => is_object (snd nc)) cols))%nat eqn:Eo.
    + assert (Hex : existsb (fun nc => is_numeric (snd nc) || is_object (snd nc)) cols = true).
      { apply Nat.ltb_lt in Eo. apply existsb_exists.
        destruct (filter (fun nc => is_object (snd nc)) cols) as [|nc l] eqn:Ef;
          [simpl in Eo; lia|].
        assert (Hin : In nc (filter (fun nc => is_object (snd nc)) cols))
          by (rewrite Ef; left; reflexivity).
        apply filter_In in Hin. destruct Hin as [Hin Hobj].
        exists nc. split; [exact Hin | rewrite Hobj; apply orb_true_r]. }
      rewrite Hex. simpl. eauto.
    + assert (Hex : existsb (fun nc => is_numeric (snd nc) || is_object (snd nc)) cols = false).
      { apply Nat.ltb_ge in En. apply Nat.ltb_ge in Eo.
        induction cols as [|[name c] rest IH]; [reflexivity|].
        destruct c; simpl in En, Eo; try lia. simpl. apply IH; assumption. }
      rewrite Hex. reflexivity.
Qed.

Definition no_leads : DataFrame :=
  mkDataFrame 0 [("lead_score", NumCol []); ("company", ObjCol [])].

Lemma no_rows_raises_witness :
  exists msg, handle_missing_values From_1_8 no_leads "mean" = Raised (ValueError msg).
Proof.
  exact (no_rows_raises From_1_8 no_leads "mean" eq_refl).
Defined.

End ImputationFacts.

(** ** model_training.py: when the importances are a distribution *)

Module ImportanceFacts.
Import Py Importance.
Local Open Scope string_scope.
Local Open Scope Q_scope.

(** X10.  For distinct feature names the stored importances are numbers that
    add up to 1 whenever the scores the model exposes, its native
    importances or else its flattened layer weights, come one per feature
    and do not add up to zero; a model that exposes neither gets equal
    weights, which always add up to 1. *)
Theorem importances_add_up_to_one (model : estimator) (names : list string)
    (Hnames : names <> [])
    (Hdistinct : NoDup names)
    (Hnative : forall native,
        feature_importances_ model = Some native ->
        length names = length native /\ ~ Qsum native == 0)
    (Hlayers : forall cs flat,
        feature_importances_ model = None -> coefs_ model = Some cs ->
        np_abs_flatten cs = Returned flat ->
        length names = length flat /\ ~ Qsum flat == 0) :
  sums_to_one (get_feature_importance model names).
Proof.
  exact (@feature_importance_sums_to_one model names Hnames Hdistinct Hnative Hlayers).
Qed.

Lemma importances_add_up_to_one_witness :
  sums_to_one
    (get_feature_importance (Training.sample_estimator RandomForestClassifier)
       ["company_size_score"; "job_title_score"]).
Proof.
  apply (importances_add_up_to_one (Training.sample_estimator RandomForestClassifier)
           ["company_size_score"; "job_title_score"]).
  - discriminate.
  - constructor; [simpl; intuition discriminate|].
    constructor; [simpl; tauto | constructor].
  - intros native H. injection H as <-. split; [reflexivity | discriminate].
  - intros cs flat H. discriminate H.
Defined.

End ImportanceFacts.

(** ** model_training.py: what a training call hands back *)

Module TrainingFacts.
Import Py Frame Importance Training.
Local Open Scope string_scope.
Local Open Scope py_scope.

Section Trainer.

Variable be : Backend.
Variable model_dir : string.

Lemma save_model_path (model : estimator) (metadata : model_metadata) (path : string) :
  save_model be model_dir model metadata = Returned path ->
  path = path_join (path_join model_dir (md_user_id metadata))
           (md_model_name metadata ++ "_" ++ now_strftime be ++ ".joblib").
Proof.
  unfold save_model. intros H.
  apply bind_returned in H. destruct H as (_ & _ & H).
  apply bind_returned in H. destruct H as (_ & _ & H).
  apply bind_returned in H. destruct H as (_ & _ & H).
  injection H as <-. reflexivity.
Qed.

(** X11.  A record that [train_model] returns repeats the request: task type,
    algorithm, model name and owner are the arguments, the features are
    the column labels of X, the class is the one registered for the
    pair, the metrics of the record are the metrics of its metadata, and
    the path is what [os.path.join] makes of the model directory, the
    owner and the file name model_name_timestamp.joblib. *)
Theorem train_model_echoes_request (model_type algorithm : string) (X : DataFrame)
    (y : column) (model_name user_id : string) (r : training_result)
    (Hret : train_model be model_dir model_type algorithm X y model_name user_id
            = Returned r) :
  exists model_path md m config,
    r = TrainingSucceeded model_path md m
    /\ lookup_algorithm model_type algorithm = Some config
    /\ md_model_type md = model_type
    /\ md_algorithm md = algorithm
    /\ md_model_name md = model_name
    /\ md_user_id md = user_id
    /\ md_features md = map fst (columns X)
    /\ md_model_class md = class_name (alg_model config)
    /\ md_metrics md = m
    /\ model_path
       = path_join (path_join model_dir user_id)
           (model_name ++ "_" ++ now_strftime be ++ ".joblib").
Proof.
  unfold train_model, lookup_algorithm in *.
  destruct (dict_get model_type model_configs) as [algorithms|]; [|discriminate].
  destruct (dict_get algorithm algorithms) as [model_config|]; [|discriminate].
  apply bind_returned in Hret.
  destruct Hret as ([[[X_train X_test] y_train] y_test] & _ & H).
  apply bind_returned in H. destruct H as (_ & _ & H).
  apply bind_returned in H. destruct H as ([model best_params] & _ & H).
  apply bind_returned in H. destruct H as (y_pred & _ & H).
  apply bind_returned in H. destruct H as (y_pred_proba & _ & H).
  apply bind_returned in H. destruct H as (m & _ & H).
  apply bind_returned in H. destruct H as (path & Hsave & H).
  injection H as <-. apply save_model_path in Hsave. simpl in Hsave.
  eexists _, _, _, model_config.
  repeat (split; [reflexivity|]). exact Hsave.
Qed.

(** *** The ROC-AUC of a classifier *)

(** The body of the [try] in [calculate_metrics]. *)
Definition roc_auc_of (y_true : column) (proba : list (list Q)) : outcome Q :=
  if (n_unique be y_true =? 2)%nat
  then positive <- second_column proba ;; roc_auc_binary be y_true positive
  else roc_auc_ovr be y_true proba.

(** X12.  For a classifier with probabilities, the metrics are returned
    whenever the four basic scores are, whatever the ROC-AUC computation
    does: its value is stored under roc_auc when it returns, and None is
    stored there when it raises. *)
Theorem roc_auc_failure_is_recorded (y_true : column) (y_pred : list Q)
    (proba : list (list Q)) (accuracy precision recall f1 : Q)
    (Hacc : score be "accuracy" y_true y_pred = Returned accuracy)
    (Hprec : score be "precision_weighted" y_true y_pred = Returned precision)
    (Hrec : score be "recall_weighted" y_true y_pred = Returned recall)
    (Hf1 : score be "f1_weighted" y_true y_pred = Returned f1) :
  calculate_metrics be "lead_conversion" y_true y_pred (Some proba)
  = Returned [("accuracy", Some accuracy); ("precision", Some precision);
              ("recall", Some recall); ("f1_score", Some f1);
              ("roc_auc", match roc_auc_of y_true proba with
                          | Returned auc => Some auc
                          | Raised _ => None
                          end)].
Proof.
  unfold calculate_metrics, roc_auc_of. simpl.
  rewrite Hacc, Hprec, Hrec, Hf1. simpl.
  destruct (n_unique be y_true =? 2)%nat.
  - destruct (second_column proba) as [positive|e]; simpl; [|reflexivity].
    destruct (roc_auc_binary be y_true positive); reflexivity.
  - destruct (roc_auc_ovr be y_true proba); reflexivity.
Qed.

(** *** Constructors that take no random_state *)

Lemma registered_untuned (model_type algorithm : string) (config : algorithm_config) :
  lookup_algorithm model_type algorithm = Some config ->
  alg_params config = [] ->
  accepts_random_state (alg_model config) = false.
Proof.
  unfold lookup_algorithm, model_configs. cbn [dict_get].
  repeat match goal with
         | |- context [String.eqb ?a ?b] => destruct (String.eqb a b); cbn [dict_get]
         end;
    intros H; try discriminate H; injection H as <-; cbn;
    intros Hnil; try discriminate Hnil; reflexivity.
Qed.

Lemma registered_linear_regression (model_type : string) (config : algorithm_config) :
  lookup_algorithm model_type "linear_regression" = Some config ->
  alg_params config = [].
Proof.
  unfold lookup_algorithm, model_configs. cbn [dict_get].
  change (String.eqb "linear_regression" "linear_regression") with true.
  change (String.eqb "random_forest" "linear_regression") with false.
  change (String.eqb "gradient_boosting" "linear_regression") with false.
  change (String.eqb "logistic_regression" "linear_regression") with false.
  change (String.eqb "neural_network" "linear_regression") with false.
  cbv iota.
  repeat match goal with
         | |- context [String.eqb ?a ?b] => destruct (String.eqb a b)
         end;
    intros H; try discriminate H; injection H as <-; reflexivity.
Qed.

(** X13.  Every model is built with [random_state=42].  With the constructors
    of scikit-learn, a pair whose parameter grid is empty never yields a
    result: each record returned belongs to a pair with a grid, so the
    model in it is the best estimator of a grid search and the branch
    that fits the model directly has produced none. *)
Theorem trained_models_are_tuned (model_type algorithm : string) (X : DataFrame)
    (y : column) (model_name user_id : string) (r : training_result)
    (Hctor : sklearn_constructors be)
    (Hret : train_model be model_dir model_type algorithm X y model_name user_id
            = Returned r) :
  exists config,
    lookup_algorithm model_type algorithm = Some config
    /\ alg_params config <> []
    /\ algorithm <> "linear_regression".
Proof.
  unfold train_model in Hret.
  destruct (dict_get model_type model_configs) as [algorithms|] eqn:Et; [|discriminate].
  destruct (dict_get algorithm algorithms) as [model_config|] eqn:Ea; [|discriminate].
  assert (Hlook : lookup_algorithm model_type algorithm = Some model_config).
  { unfold lookup_algorithm. rewrite Et. exact Ea. }
  apply bind_returned in Hret.
  destruct Hret as ([[[X_train X_test] y_train] y_test] & _ & H).
  apply bind_returned in H. destruct H as ([] & Hc & _).
  assert (Hacc : accepts_random_state (alg_model model_config) = true).
  { destruct (accepts_random_state (alg_model model_config)) eqn:E; [reflexivity|].
    destruct (Hctor _ E) as [msg Hmsg]. congruence. }
  exists model_config. split; [exact Hlook|]. split.
  - intros Hnil. rewrite (registered_untuned _ _ _ Hlook Hnil) in Hacc. discriminate.
  - intros ->. pose proof (registered_linear_regression _ _ Hlook) as Hnil.
    rewrite (registered_untuned _ _ _ Hlook Hnil) in Hacc. discriminate.
Qed.

End Trainer.

(** *** cross_validate_model *)

Record cv_summary := mkSummary {
  cv_mean : Q;
  cv_std : Q;
  cv_min : Q;
  cv_max : Q
}.

(** [scores.min()]; numpy raises on an empty array. *)
Definition np_min (values : list Q) : outcome Q :=
  match values with
  | [] => Raised (ValueError
                    "zero-size array to reduction operation minimum which has no identity")
  | v :: rest => Returned (fold_left (fun best x => if Qltb x best then x else best) rest v)
  end.

Section CrossValidation.

Variable be : Backend.

(** [cross_val_score(model, X, y, cv=cv_folds, scoring=metric)]: the
    score of each fold, as numbers. *)
Variable cross_val_score :
  ModelClass -> DataFrame -> column -> nat -> string -> outcome (list Q).

(** [scores.mean()] and [scores.std()], numpy's floating-point
    reductions: the rounding of the sum and of the division is numpy's,
    and nothing is assumed of it. *)
Variable np_mean : list Q -> Q.
Variable np_std : list Q -> Q.

(** The dict of one metric; its entries are evaluated in the order
    mean, std, min, max. *)
Definition summarize (scores : list Q) : outcome cv_summary :=
  lowest <- np_min scores ;;
  highest <- Prediction.np_max scores ;;
  Returned (mkSummary (np_mean scores) (np_std scores) lowest highest).

Fixpoint cv_loop (c : ModelClass) (X : DataFrame) (y : column) (cv_folds : nat)
    (scoring_metrics : list string) (cv_results : list (string * cv_summary))
  : outcome (list (string * cv_summary)) :=
  match scoring_metrics with
  | [] => Returned cv_results
  | metric :: rest =>
      scores <- cross_val_score c X y cv_folds metric ;;
      summary <- summarize scores ;;
      cv_loop c X y cv_folds rest (dict_set metric summary cv_results)
  end.

(** [self.model_configs[model_type]['algorithms'][algorithm]]: a missing
    key is a KeyError, whose message is the key in quotes. *)
Definition KeyError (key : string) : exn := Exn "KeyError" ("'" ++ key ++ "'").

Definition classification_scorings : list string :=
  ["accuracy"; "precision_weighted"; "recall_weighted"; "f1_weighted"].

Definition regression_scorings : list string :=
  ["r2"; "neg_mean_squared_error"; "neg_mean_absolute_error"].

Definition cross_validate_model (model_type algorithm : string) (X : DataFrame)
    (y : column) (cv_folds : nat) : outcome (list (string * cv_summary)) :=
  match dict_get model_type model_configs with
  | None => Raised (KeyError model_type)
  | Some algorithms =>
      match dict_get algorithm algorithms with
      | None => Raised (KeyError algorithm)
      | Some model_config =>
          let ModelClass := alg_model model_config in
          _ <- construct be ModelClass ;;
          scoring_metrics <-
            (if String.eqb model_type "lead_conversion"
             then _ <- cross_val_score ModelClass X y cv_folds "accuracy" ;;
                  Returned classification_scorings
             else _ <- cross_val_score ModelClass X y cv_folds "r2" ;;
                  Returned regression_scorings) ;;
          cv_loop ModelClass X y cv_folds scoring_metrics []
      end
  end.

Definition fold_max (rest : list Q) (v : Q) : Q :=
  fold_left (fun best x => if Qltb best x then x else best) rest v.

Definition fold_min (rest : list Q) (v : Q) : Q :=
  fold_left (fun best x => if Qltb x best then x else best) rest v.

Lemma fold_max_bounds (rest : list Q) (v : Q) :
  (v <= fold_max rest v)%Q /\ Forall (fun x => (x <= fold_max rest v)%Q) rest.
Proof.
  revert v. induction rest as [|x rest IH]; intros v; simpl.
  - split; [apply Qle_refl | constructor].
  - unfold fold_max in *. simpl.
    destruct (Qltb v x) eqn:E.
    + apply Qltb_lt in E. destruct (IH x) as [Hx Hrest].
      split; [lra|]. constructor; assumption.
    + apply Qltb_ge in E. destruct (IH v) as [Hv Hrest].
      split; [exact Hv|]. constructor; [lra | exact Hrest].
Qed.

Lemma fold_min_bounds (rest : list Q) (v : Q) :
  (fold_min rest v <= v)%Q /\ Forall (fun x => (fold_min rest v <= x)%Q) rest.
Proof.
  revert v. induction rest as [|x rest IH]; intros v; simpl.
  - split; [apply Qle_refl | constructor].
  - unfold fold_min in *. simpl.
    destruct (Qltb x v) eqn:E.
    + apply Qltb_lt in E. destruct (IH x) as [Hx Hrest].
      split; [lra|]. constructor; assumption.
    + apply Qltb_ge in E. destruct (IH v) as [Hv Hrest].
      split; [exact Hv|]. constructor; [lra | exact Hrest].
Qed.

Lemma fold_max_in (rest : list Q) (v : Q) : In (fold_max rest v) (v :: rest).
Proof.
  revert v. induction rest as [|x rest IH]; intros v; [left; reflexivity|].
  unfold fold_max in *. cbn [fold_left]. destruct (Qltb v x).
  - right. apply IH.
  - destruct (IH v) as [H|H]; [left; exact H | right; right; exact H].
Qed.

Lemma fold_min_in (rest : list Q) (v : Q) : In (fold_min rest v) (v :: rest).
Proof.
  revert v. induction rest as [|x rest IH]; intros v; [left; reflexivity|].
  unfold fold_min in *. cbn [fold_left]. destruct (Qltb x v).
  - right. apply IH.
  - destruct (IH v) as [H|H]; [left; exact H | right; right; exact H].
Qed.

(** The summary of the fold scores of one metric: its minimum and its
    maximum are fold scores, the least and the greatest of them, and its
    mean and deviation are numpy's. *)
Definition summary_of (scores : list Q) (summary : cv_summary) : Prop :=
  In (cv_min summary) scores
  /\ In (cv_max summary) scores
  /\ Forall (fun x => (cv_min summary <= x <= cv_max summary)%Q) scores
  /\ cv_mean summary = np_mean scores
  /\ cv_std summary = np_std scores.

Lemma summarize_summary (scores : list Q) (summary : cv_summary) :
  summarize scores = Returned summary -> summary_of scores summary.
Proof.
  unfold summarize, summary_of. destruct scores as [|v rest]; [discriminate|].
  cbn [np_min Prediction.np_max bind]. intros H. injection H as <-.
  cbn [cv_min cv_mean cv_max cv_std].
  fold (fold_min rest v). fold (fold_max rest v).
  destruct (fold_min_bounds rest v) as [Hv1 Hr1].
  destruct (fold_max_bounds rest v) as [Hv2 Hr2].
  split; [apply fold_min_in|]. split; [apply fold_max_in|].
  split; [|split; reflexivity].
  constructor; [split; assumption|].
  rewrite Forall_forall in *. intros x Hx. split; [apply Hr1, Hx | apply Hr2, Hx].
Qed.

(** Every entry of the results summarizes the fold scores of its own
    metric. *)
Definition summarized (c : ModelClass) (X : DataFrame) (y : column) (cv_folds : nat)
    (results : list (string * cv_summary)) : Prop :=
  Forall (fun r => exists scores,
                     cross_val_score c X y cv_folds (fst r) = Returned scores
                     /\ summary_of scores (snd r)) results.

Lemma dict_set_summarized (c : ModelClass) (X : DataFrame) (y : column) (cv_folds : nat)
    (key : string) (scores : list Q) (summary : cv_summary)
    (results : list (string * cv_summary)) :
  cross_val_score c X y cv_folds key = Returned scores ->
  summary_of scores summary ->
  summarized c X y cv_folds results ->
  summarized c X y cv_folds (dict_set key summary results).
Proof.
  intros Hs Hsum. induction 1 as [|[k v] rest Hv Hrest IH]; simpl.
  - constructor; [exists scores; split; assumption | constructor].
  - destruct (String.eqb k key).
    + constructor; [exists scores; split; assumption | exact Hrest].
    + constructor; [exact Hv | exact IH].
Qed.

Lemma dict_set_keys (key : string) (summary : cv_summary)
    (results : list (string * cv_summary)) :
  ~ In key (map fst results) ->
  map fst (dict_set key summary results) = (map fst results ++ [key])%list.
Proof.
  induction results as [|[k v] rest IH]; simpl; intros Hfresh; [reflexivity|].
  destruct (String.eqb_spec k key) as [->|Hne]; [tauto|].
  simpl. rewrite IH; [reflexivity | tauto].
Qed.

Lemma cv_loop_results (c : ModelClass) (X : DataFrame) (y : column) (cv_folds : nat)
    (scoring_metrics : list string) :
  forall cv_results results,
    NoDup (map fst cv_results ++ scoring_metrics)%list ->
    summarized c X y cv_folds cv_results ->
    cv_loop c X y cv_folds scoring_metrics cv_results = Returned results ->
    map fst results = (map fst cv_results ++ scoring_metrics)%list
    /\ summarized c X y cv_folds results.
Proof.
  induction scoring_metrics as [|metric rest IH]; intros cv_results results Hnd Hord H;
    simpl in H.
  - injection H as <-. rewrite app_nil_r. split; [reflexivity | exact Hord].
  - apply bind_returned in H. destruct H as (scores & Hscores & H).
    apply bind_returned in H. destruct H as (summary & Hsum & H).
    assert (Hfresh : ~ In metric (map fst cv_results)).
    { intros Hin. apply NoDup_remove_2 in Hnd. apply Hnd, in_or_app. left. exact Hin. }
    destruct (IH (dict_set metric summary cv_results) results) as [Hkeys Hres].
    + rewrite dict_set_keys by exact Hfresh. rewrite <- app_assoc. exact Hnd.
    + apply (dict_set_summarized c X y cv_folds metric scores summary cv_results
               Hscores (summarize_summary _ _ Hsum) Hord).
    + exact H.
    + split; [|exact Hres].
      rewrite Hkeys, dict_set_keys by exact Hfresh. rewrite <- app_assoc. reflexivity.
Qed.

(** X14.  A result of [cross_validate_model] belongs to a registered pair (for
    any other the lookup raises KeyError, where [train_model] raises
    ValueError).  It has one summary per scoring of the task, in order:
    accuracy, precision_weighted, recall_weighted and f1_weighted for
    lead conversion, r2 and the two negated errors otherwise.  Every
    summary is that of the fold scores of its own metric for the
    registered class: min and max are the least and the greatest fold
    score, mean and std are what numpy computes from the fold scores. *)
Theorem cross_validation_summaries (model_type algorithm : string) (X : DataFrame)
    (y : column) (cv_folds : nat) (results : list (string * cv_summary))
    (Hret : cross_validate_model model_type algorithm X y cv_folds = Returned results) :
  exists config,
    lookup_algorithm model_type algorithm = Some config
    /\ map fst results
       = (if String.eqb model_type "lead_conversion"
          then classification_scorings else regression_scorings)
    /\ summarized (alg_model config) X y cv_folds results.
Proof.
  unfold cross_validate_model, lookup_algorithm in *.
  destruct (dict_get model_type model_configs) as [algorithms|]; [|discriminate].
  destruct (dict_get algorithm algorithms) as [model_config|]; [|discriminate].
  exists model_config. split; [reflexivity|].
  apply bind_returned in Hret. destruct Hret as (_ & _ & H).
  apply bind_returned in H. destruct H as (scoring_metrics & Hm & H).
  assert (Hmetrics : scoring_metrics
                     = if String.eqb model_type "lead_conversion"
                       then classification_scorings else regression_scorings).
  { destruct (String.eqb model_type "lead_conversion");
      apply bind_returned in Hm; destruct Hm as (_ & _ & Hm);
      injection Hm as <-; reflexivity. }
  subst scoring_metrics.
  apply (cv_loop_results (alg_model model_config) X y cv_folds _ [] results);
    [|constructor | exact H].
  cbn [map app]. destruct (String.eqb model_type "lead_conversion");
    repeat constructor; simpl; intuition discriminate.
Qed.

End CrossValidation.

(** The quiet backend with the constructors of scikit-learn. *)
Definition sklearn_backend : Backend :=
  {| train_test_split := train_test_split quiet_backend;
     construct := fun c =>
       if accepts_random_state c then Returned tt
       else Raised (Exn "TypeError"
                      "__init__() got an unexpected keyword argument 'random_state'");
     grid_search_fit := grid_search_fit quiet_backend;
     fit := fit quiet_backend;
     predict := predict quiet_backend;
     predict_proba := predict_proba quiet_backend;
     score := score quiet_backend;
     n_unique := n_unique quiet_backend;
     roc_auc_binary := roc_auc_binary quiet_backend;
     roc_auc_ovr := roc_auc_ovr quiet_backend;
     np_sqrt := np_sqrt quiet_backend;
     now_isoformat := now_isoformat quiet_backend;
     now_strftime := now_strftime quiet_backend;
     makedirs := makedirs quiet_backend;
     joblib_dump := joblib_dump quiet_backend;
     json_dump := json_dump quiet_backend |}.

Definition scorer_run : training_result :=
  TrainingSucceeded "models/u1/scorer_20240501_120000.joblib"
    (mkMetadata "lead_conversion" "random_forest" "scorer" "u1"
       "2024-05-01T12:00:00" 2 2 ["company_size_score"; "job_title_score"]
       [("n_estimators", PInt 100)]
       (get_feature_importance (sample_estimator RandomForestClassifier)
          ["company_size_score"; "job_title_score"])
       [("accuracy", Some 1%Q); ("precision", Some 1%Q); ("recall", Some 1%Q);
        ("f1_score", Some 1%Q); ("roc_auc", Some 1%Q)]
       "RandomForestClassifier")
    [("accuracy", Some 1%Q); ("precision", Some 1%Q); ("recall", Some 1%Q);
     ("f1_score", Some 1%Q); ("roc_auc", Some 1%Q)].

Lemma train_model_echoes_request_witness :
  exists model_path md m config,
    scorer_run = TrainingSucceeded model_path md m
    /\ lookup_algorithm "lead_conversion" "random_forest" = Some config
    /\ md_model_type md = "lead_conversion"
    /\ md_algorithm md = "random_forest"
    /\ md_model_name md = "scorer"
    /\ md_user_id md = "u1"
    /\ md_features md = map fst (columns two_leads)
    /\ md_model_class md = class_name (alg_model config)
    /\ md_metrics md = m
    /\ model_path
       = path_join (path_join "models" "u1")
           ("scorer" ++ "_" ++ now_strftime quiet_backend ++ ".joblib").
Proof.
  apply (train_model_echoes_request quiet_backend "models" "lead_conversion"
           "random_forest" two_leads two_labels "scorer" "u1" scorer_run).
  reflexivity.
Defined.

(** Probabilities with a single column: the binary ROC-AUC cannot be
    computed. *)
Lemma roc_auc_failure_is_recorded_witness :
  calculate_metrics quiet_backend "lead_conversion" two_labels [1; 0]%Q
    (Some [[1]; [0]]%Q)
  = Returned [("accuracy", Some 1%Q); ("precision", Some 1%Q);
              ("recall", Some 1%Q); ("f1_score", Some 1%Q); ("roc_auc", None)].
Proof.
  apply (roc_auc_failure_is_recorded quiet_backend two_labels [1; 0]%Q [[1]; [0]]%Q
           1%Q 1%Q 1%Q 1%Q); reflexivity.
Defined.

Lemma trained_models_are_tuned_witness :
  exists config,
    lookup_algorithm "lead_conversion" "random_forest" = Some config
    /\ alg_params config <> []
    /\ "random_forest" <> "linear_regression".
Proof.
  apply (trained_models_are_tuned sklearn_backend "models" "lead_conversion"
           "random_forest" two_leads two_labels "scorer" "u1" scorer_run).
  - intros c Hc. simpl. rewrite Hc. eexists. reflexivity.
  - reflexivity.
Defined.

(** Three folds with the same scores for every scoring. *)
Definition three_scores (c : ModelClass) (X : DataFrame) (y : column) (cv_folds : nat)
    (metric : string) : outcome (list Q) :=
  Returned [8 # 10; 6 # 10; 7 # 10]%Q.

(** A mean and a deviation for the run below, in exact arithmetic. *)
Definition exact_mean (values : list Q) : Q :=
  (Qsum values / inject_Z (Z.of_nat (length values)))%Q.

Definition exact_std (values : list Q) : Q :=
  np_sqrt quiet_backend
    (exact_mean (map (fun x => (x - exact_mean values) * (x - exact_mean values))%Q
                   values)).

Definition three_summary : cv_summary :=
  mkSummary (exact_mean [8 # 10; 6 # 10; 7 # 10]%Q)
    (exact_std [8 # 10; 6 # 10; 7 # 10]%Q) (6 # 10) (8 # 10).

Definition three_results : list (string * cv_summary) :=
  [("r2", three_summary);
   ("neg_mean_squared_error", three_summary);
   ("neg_mean_absolute_error", three_summary)].

Lemma cross_validation_summaries_witness :
  exists config,
    lookup_algorithm "customer_lifetime_value" "random_forest" = Some config
    /\ map fst three_results
       = (if String.eqb "customer_lifetime_value" "lead_conversion"
          then classification_scorings else regression_scorings)
    /\ summarized three_scores exact_mean exact_std (alg_model config)
         two_leads two_labels 3 three_results.
Proof.
  apply (cross_validation_summaries quiet_backend three_scores exact_mean exact_std
           "customer_lifetime_value" "random_forest" two_leads two_labels 3).
  reflexivity.
Defined.

End TrainingFacts.

(** ** prediction_service.py: what a prediction record holds *)

Module PredictionFacts.
Import Py Frame Importance Artifacts Prediction.
Local Open Scope string_scope.
Local Open Scope Q_scope.
Local Open Scope py_scope.

(** *** Confidence of a classification *)

Lemma Qabs_cases (x : Q) :
  (0 <= x /\ Qabs x == x) \/ (x <= 0 /\ Qabs x == - x).
Proof.
  destruct (Qlt_le_dec x 0) as [H|H].
  - right. split; [apply Qlt_le_weak, H | apply Qabs_neg, Qlt_le_weak, H].
  - left. split; [exact H | apply Qabs_pos, H].
Qed.

(** X15.  For the two probabilities of a binary classifier the confidence is
    1/4 + 3/2 |p - 1/2|: it is 1/4 for a prediction of 1/2, grows with
    the distance from 1/2 and reaches 1 for the predictions 0 and 1. *)
Theorem binary_confidence (p : Q) (Hp : 0 <= p <= 1) :
  exists c,
    _calculate_prediction_confidence p [1 - p; p] = Returned c
    /\ c == (1 # 4) + (3 # 2) * Qabs (p - (1 # 2))
    /\ 1 # 4 <= c <= 1.
Proof.
  unfold _calculate_prediction_confidence, np_max, py_min. cbn [fold_left bind].
  eexists. split; [reflexivity|]. destruct Hp as [Hp0 Hp1].
  unfold Qdiv. change (/ 2) with (1 # 2).
  destruct (Qabs_cases (p - (1 # 2))) as [[Hs Ha]|[Hs Ha]];
    revert Ha; generalize (Qabs (p - (1 # 2))); intros a Ha;
    destruct (Qltb 1 (a * 2)) eqn:E1; destruct (Qltb (1 - p) p) eqn:E2;
    try apply Qltb_lt in E1; try apply Qltb_ge in E1;
    try apply Qltb_lt in E2; try apply Qltb_ge in E2;
    (split; [|split]); lra.
Qed.

Lemma binary_confidence_witness :
  exists c,
    _calculate_prediction_confidence (7 # 10) [1 - (7 # 10); 7 # 10] = Returned c
    /\ c == (1 # 4) + (3 # 2) * Qabs ((7 # 10) - (1 # 2))
    /\ 1 # 4 <= c <= 1.
Proof.
  apply (binary_confidence (7 # 10)). split; unfold Qle; simpl; lia.
Defined.

(** *** Lifetime values *)

Definition value_rule (v : Q) (category : string) : Prop :=
  (category = "high_value" <-> 10000 < v)
  /\ (category = "medium_value" <-> 1000 < v /\ v <= 10000)
  /\ (category = "low_value" <-> 100 < v /\ v <= 1000)
  /\ (category = "very_low_value" <-> v <= 100).

Lemma categorize_rule (v : Q) : value_rule v (_categorize_lifetime_value v).
Proof.
  unfold value_rule, _categorize_lifetime_value.
  destruct (Qltb 10000 v) eqn:E1; destruct (Qltb 1000 v) eqn:E2;
    destruct (Qltb 100 v) eqn:E3;
    try apply Qltb_lt in E1; try apply Qltb_ge in E1;
    try apply Qltb_lt in E2; try apply Qltb_ge in E2;
    try apply Qltb_lt in E3; try apply Qltb_ge in E3;
    repeat split; intros; try discriminate; try reflexivity; try lra.
Qed.

Lemma regression_confidence_range (v : Q) :
  0 <= v ->
  1 # 10 <= _calculate_regression_confidence v <= 1
  /\ (v <= 900 -> _calculate_regression_confidence v == v / 1000 + (1 # 10))
  /\ (900 <= v -> _calculate_regression_confidence v == 1).
Proof.
  intros Hv. unfold _calculate_regression_confidence, py_min.
  unfold Qdiv. change (/ 1000) with (1 # 1000).
  destruct (Qabs_cases v) as [[_ Ha]|[Hs Ha]];
    revert Ha; generalize (Qabs v); intros a Ha;
    destruct (Qltb (9 # 10) (a * (1 # 1000))) eqn:E;
    try apply Qltb_lt in E; try apply Qltb_ge in E;
    repeat split; intros; lra.
Qed.

Section Predictor.

Variable store : Store.
Variable model_dir : string.
Variable sv : Service.

(** X16.  A returned lifetime value is never negative: a negative prediction
    of the model is reported as 0.  The confidence next to it is
    v/1000 + 0.1 up to v = 900 and 1 from there on, so it lies between
    0.1 and 1; the category is high_value above 10000, medium_value above
    1000, low_value above 100 and very_low_value otherwise. *)
Theorem lifetime_value_record (customer_data : record) (user_id : string)
    (model_name : option string) (v c : Q) (category : string)
    (fi : explanation) (info : model_info)
    (Hret : predict_customer_lifetime_value store model_dir sv customer_data user_id
              model_name
            = Returned (LifetimeValue v c category fi info)) :
  0 <= v
  /\ 1 # 10 <= c <= 1
  /\ (v <= 900 -> c == v / 1000 + (1 # 10))
  /\ (900 <= v -> c == 1)
  /\ value_rule v category.
Proof.
  unfold predict_customer_lifetime_value, try_except in Hret.
  destruct (bind (_get_best_model_path store model_dir user_id
                    "customer_lifetime_value" model_name) _)
    as [r|e] eqn:E; [|discriminate].
  injection Hret as ->.
  apply bind_returned in E. destruct E as (model_path & _ & E).
  destruct (no_path model_path); [discriminate|].
  apply bind_returned in E. destruct E as (features_df & _ & E).
  apply bind_returned in E. destruct E as ([model md] & _ & E).
  apply bind_returned in E. destruct E as (predictions & _ & E).
  apply bind_returned in E. destruct E as (prediction & _ & E).
  injection E as <- <- <- _ _.
  assert (Hv : 0 <= py_max 0 prediction).
  { unfold py_max. destruct (Qltb 0 prediction) eqn:E0.
    - apply Qltb_lt in E0. lra.
    - lra. }
  split; [exact Hv|].
  destruct (regression_confidence_range _ Hv) as (Hr & Hlow & Hhigh).
  split; [exact Hr|]. split; [exact Hlow|]. split; [exact Hhigh|].
  apply categorize_rule.
Qed.

(** *** Batches *)

(** [lead_data.get('id', f'lead_{i}')] *)
Definition lead_id_of (i : nat) (lead_data : record) : string :=
  match record_id lead_data with
  | Some id => id
  | None => "lead_" ++ NilZero.string_of_uint (Nat.to_uint i)
  end.

Lemma batch_entries_in_order (leads_data : list record) (proba : list (list Q)) :
  forall (i : nat) (entries : list batch_entry),
    batch_entries i leads_data proba = Returned entries ->
    length entries = length leads_data
    /\ forall k lead_data,
         nth_error leads_data k = Some lead_data ->
         exists e row,
           nth_error entries k = Some e
           /\ nth_error proba (i + k) = Some row
           /\ be_lead_id e = lead_id_of (i + k) lead_data
           /\ positive_class row = Returned (be_conversion_probability e)
           /\ _calculate_prediction_confidence (be_conversion_probability e) row
              = Returned (be_confidence e).
Proof.
  induction leads_data as [|lead rest IH]; intros i entries H; simpl in H.
  - injection H as <-. split; [reflexivity|]. intros [|k] ld Hk; discriminate Hk.
  - apply bind_returned in H. destruct H as (row & Hrow & H).
    apply bind_returned in H. destruct H as (q & Hq & H).
    apply bind_returned in H. destruct H as (conf & Hconf & H).
    apply bind_returned in H. destruct H as (rest' & Hrest & H).
    injection H as <-. destruct (IH _ _ Hrest) as [Hlen Hall].
    split; [simpl; rewrite Hlen; reflexivity|].
    intros [|k] ld Hk.
    + injection Hk as <-. eexists _, row. rewrite Nat.add_0_r.
      split; [reflexivity|]. split.
      * unfold index in Hrow. destruct (nth_error proba i); [|discriminate].
        injection Hrow as ->. reflexivity.
      * split; [reflexivity|]. split; [exact Hq | exact Hconf].
    + simpl in Hk. destruct (Hall _ _ Hk) as (e & r & He & Hr & Hid & Hp & Hc).
      exists e, r. replace (i + S k)%nat with (S i + k)%nat by lia.
      split; [exact He|]. split; [exact Hr|]. split; [exact Hid|].
      split; [exact Hp | exact Hc].
Qed.

(** X17.  A batch is all or nothing.  A returned batch has one entry for every
    lead, in the order of the request, and its count is the number of
    leads; the entry of lead number k carries the lead's own id, or
    lead_k when it has none. *)
Theorem batch_has_one_entry_per_lead (leads_data : list record) (user_id : string)
    (model_name : option string) (n : nat) (entries : list batch_entry)
    (path : string) (alg : option string)
    (Hret : batch_predict_lead_conversion store model_dir sv leads_data user_id model_name
            = Returned (BatchPredictions n entries path alg)) :
  n = length leads_data
  /\ length entries = length leads_data
  /\ forall k lead_data,
       nth_error leads_data k = Some lead_data ->
       exists e, nth_error entries k = Some e /\ be_lead_id e = lead_id_of k lead_data.
Proof.
  unfold batch_predict_lead_conversion, try_except in Hret.
  destruct (bind (_get_best_model_path store model_dir user_id "lead_conversion" model_name) _)
    as [r|e] eqn:E; [|discriminate].
  injection Hret as ->.
  apply bind_returned in E. destruct E as (model_path & _ & E).
  destruct (no_path model_path); [discriminate|].
  apply bind_returned in E. destruct E as (features_df & _ & E).
  apply bind_returned in E. destruct E as ([model md] & _ & E).
  apply bind_returned in E. destruct E as (proba & _ & E).
  apply bind_returned in E. destruct E as (results & Hres & E).
  injection E as <- <- _ _.
  destruct (batch_entries_in_order _ _ _ _ Hres) as [Hlen Hall].
  split; [exact Hlen|]. split; [exact Hlen|].
  intros k ld Hk. destruct (Hall _ _ Hk) as (e & row & He & _ & Hid & _).
  exists e. split; [exact He | exact Hid].
Qed.

(** *** One lead, asked for alone or as a batch *)

(** The two collaborators keep the number of rows: a feature table has
    one row per record, the estimator answers one row per row. *)
Definition row_preserving : Prop :=
  (forall rs df, prepare_lead_features sv rs = Returned df -> index_len df = length rs)
  /\ (forall model X rows, predict_proba sv model X = Returned rows ->
                           length rows = index_len X).

(** X18.  The single prediction takes the maximum over the whole answer of the
    estimator, the batch over the row of the lead.  For one lead the two
    coincide: a batch of that lead alone carries the probability, the
    confidence and the label of the single prediction, and fails with the
    same message where the single prediction fails. *)
Theorem batch_of_one_agrees (lead_data : record) (user_id : string)
    (model_name : option string) (Hrows : row_preserving) :
  match predict_lead_conversion store model_dir sv lead_data user_id model_name with
  | Returned (LeadConversion p c label fi info) =>
      batch_predict_lead_conversion store model_dir sv [lead_data] user_id model_name
      = Returned (BatchPredictions 1 [mkBatchEntry (lead_id_of 0 lead_data) p c label]
                    (info_model_path info) (info_algorithm info))
  | Returned (NoPrediction error) =>
      batch_predict_lead_conversion store model_dir sv [lead_data] user_id model_name
      = Returned (NoBatch error)
  | _ => False
  end.
Proof.
  destruct Hrows as [Hprep Hproba].
  unfold predict_lead_conversion, batch_predict_lead_conversion.
  destruct (_get_best_model_path store model_dir user_id "lead_conversion" model_name)
    as [model_path|e]; [|reflexivity].
  cbn [bind]. destruct (no_path model_path); [reflexivity|].
  destruct (prepare_lead_features sv [lead_data]) as [features_df|e] eqn:Ef; [|reflexivity].
  cbn [bind]. destruct (load_model sv (resolved model_path)) as [[model md]|e];
    [|reflexivity].
  cbn [bind]. destruct (predict_proba sv model features_df) as [proba|e] eqn:Ep;
    [|reflexivity].
  cbn [bind]. apply Hprep in Ef. apply Hproba in Ep. rewrite Ef in Ep.
  destruct proba as [|row [|row' more]]; try discriminate Ep.
  cbn [index nth_error bind concat batch_entries]. rewrite app_nil_r.
  destruct (positive_class row) as [p|e]; [|reflexivity].
  cbn [bind]. destruct (_calculate_prediction_confidence p row) as [c|e]; reflexivity.
Qed.

(** *** One undated document *)

Lemma keyed_raises (models : list model_entry) (e : exn) :
  keyed models = Raised e -> e = Exn "KeyError" "'training_date'".
Proof.
  induction models as [|m rest IH]; simpl; [discriminate|].
  unfold training_date at 1.
  destruct (sm_training_date (metadata m)); cbn [bind].
  - destruct (keyed rest) as [ks|e']; cbn [bind]; [discriminate|].
    intros H. injection H as <-. apply IH. reflexivity.
  - intros H. injection H as <-. reflexivity.
Qed.

Lemma keyed_undated (models : list model_entry) (m : model_entry) :
  In m models -> sm_training_date (metadata m) = None ->
  keyed models = Raised (Exn "KeyError" "'training_date'").
Proof.
  intros Hin Hnone. destruct (keyed models) as [ks|e] eqn:E.
  - exfalso. assert (Hd : Forall dated models).
    { clear Hin. revert ks E. induction models as [|x rest IH]; intros ks E; [constructor|].
      simpl in E. apply bind_returned in E. destruct E as (d & Hd & E).
      apply bind_returned in E. destruct E as (rest' & Hrest & _).
      constructor; [exists d; exact Hd | apply (IH _ Hrest)]. }
    rewrite Forall_forall in Hd. destruct (Hd _ Hin) as [d Hdm].
    unfold training_date in Hdm. rewrite Hnone in Hdm. discriminate.
  - rewrite (keyed_raises _ _ E). reflexivity.
Qed.

(** X19.  The listing sorts by [training_date], read by index from every
    document of the owner.  One readable metadata document without that
    field, of whatever task type, makes the listing raise KeyError, and
    every prediction for the owner, single or batch, for either task and
    whatever the model name, returns the error record with the message
    'training_date'. *)
Theorem undated_document_blocks_owner (user_id : string) (filenames : list string)
    (entries : list model_entry) (undated : model_entry)
    (Hdir : dir_exists store (path_join model_dir user_id) = true)
    (Hls : listdir store (path_join model_dir user_id) = Returned filenames)
    (Hread : read_entries store (path_join model_dir user_id) filenames = Returned entries)
    (Hin : In undated entries)
    (Hnone : sm_training_date (metadata undated) = None) :
  get_model_list store model_dir user_id = Raised (Exn "KeyError" "'training_date'")
  /\ forall data model_name,
       predict_lead_conversion store model_dir sv data user_id model_name
       = Returned (NoPrediction "'training_date'")
       /\ predict_customer_lifetime_value store model_dir sv data user_id model_name
          = Returned (NoPrediction "'training_date'")
       /\ forall more,
            batch_predict_lead_conversion store model_dir sv (data :: more) user_id
              model_name
            = Returned (NoBatch "'training_date'").
Proof.
  assert (Hlist : get_model_list store model_dir user_id
                  = Raised (Exn "KeyError" "'training_date'")).
  { unfold get_model_list. rewrite Hdir, Hls. cbn [negb bind]. rewrite Hread. cbn [bind].
    unfold sorted_desc. rewrite (keyed_undated _ _ Hin Hnone). reflexivity. }
  split; [exact Hlist|]. intros data model_name.
  unfold predict_lead_conversion, predict_customer_lifetime_value,
    batch_predict_lead_conversion, _get_best_model_path.
  rewrite Hlist. repeat split; reflexivity.
Qed.

(** *** The artifact behind a prediction *)

Lemma best_model_of_listed (models : list model_entry) (model_type : string)
    (model_name : option string) (path : string) :
  Forall (dated) models ->
  best_model_of models model_type model_name = Returned (Some path) ->
  exists m, In m models /\ of_type model_type m = true /\ model_path m = path.
Proof.
  intros Hd. unfold best_model_of.
  assert (Hdt : Forall dated (filter (of_type model_type) models)).
  { rewrite Forall_forall in *. intros m Hm. apply filter_In in Hm. apply Hd, Hm. }
  assert (Hlatest : bind (max_by_training_date (filter (of_type model_type) models))
                      (fun best_model => Returned (Some (model_path best_model)))
                    = Returned (Some path) ->
                    exists m, In m models /\ of_type model_type m = true
                              /\ model_path m = path).
  { intros H. apply bind_returned in H. destruct H as (best & Hbest & H).
    injection H as <-.
    destruct (filter (of_type model_type) models) as [|t0 ts] eqn:Et;
      [discriminate Hbest|].
    destruct (@max_by_training_date_latest (t0 :: ts) ltac:(discriminate) Hdt)
      as (chosen & Hmax & Hin & _).
    rewrite Hmax in Hbest. injection Hbest as <-.
    rewrite <- Et in Hin. apply filter_In in Hin. destruct Hin as [Hin Hty].
    exists chosen. repeat split; assumption. }
  destruct (filter (of_type model_type) models) as [|t0 ts] eqn:Et; [discriminate|].
  destruct model_name as [name|]; [|exact Hlatest].
  destruct (String.eqb name ""); [exact Hlatest|].
  destruct (find (named name) (t0 :: ts)) as [model|] eqn:Ef; [|exact Hlatest].
  intros H. injection H as <-. apply find_some in Ef. destruct Ef as [Hin _].
  rewrite <- Et in Hin. apply filter_In in Hin. destruct Hin as [Hin Hty].
  exists model. repeat split; assumption.
Qed.

Lemma resolved_path_listed (user_id model_type : string) (model_name : option string)
    (model_path0 : option string) :
  _get_best_model_path store model_dir user_id model_type model_name
  = Returned model_path0 ->
  no_path model_path0 = false ->
  exists models m,
    get_model_list store model_dir user_id = Returned models
    /\ In m models /\ of_type model_type m = true
    /\ model_path m = resolved model_path0.
Proof.
  unfold _get_best_model_path. intros H Hno.
  apply bind_returned in H. destruct H as (models & Hlist & H).
  destruct model_path0 as [path|]; [|discriminate Hno].
  destruct (best_model_of_listed models model_type model_name path
              (@get_model_list_dated store model_dir user_id models Hlist) H)
    as (m & Hin & Hty & Hpath).
  exists models, m. repeat split; assumption.
Qed.

(** X20.  Every successful prediction names, as its model path, the path of an
    artifact that the owner's listing holds and whose stored task type is
    the task asked for: a lead conversion is never computed from a
    lifetime-value artifact, nor from the artifact of another owner's
    listing. *)
Theorem prediction_names_listed_artifact (data : record) (user_id : string)
    (model_name : option string) :
  (forall p c label fi info,
      predict_lead_conversion store model_dir sv data user_id model_name
      = Returned (LeadConversion p c label fi info) ->
      exists models m,
        get_model_list store model_dir user_id = Returned models
        /\ In m models /\ of_type "lead_conversion" m = true
        /\ model_path m = info_model_path info)
  /\ (forall v c category fi info,
      predict_customer_lifetime_value store model_dir sv data user_id model_name
      = Returned (LifetimeValue v c category fi info) ->
      exists models m,
        get_model_list store model_dir user_id = Returned models
        /\ In m models /\ of_type "customer_lifetime_value" m = true
        /\ model_path m = info_model_path info).
Proof.
  split.
  - intros p c label fi info Hret.
    unfold predict_lead_conversion, try_except in Hret.
    destruct (bind (_get_best_model_path store model_dir user_id "lead_conversion"
                      model_name) _) as [r|e] eqn:E; [|discriminate].
    injection Hret as ->.
    apply bind_returned in E. destruct E as (model_path0 & Hpath & E).
    destruct (no_path model_path0) eqn:Hno; [discriminate|].
    apply bind_returned in E. destruct E as (features_df & _ & E).
    apply bind_returned in E. destruct E as ([model md] & _ & E).
    apply bind_returned in E. destruct E as (proba & _ & E).
    apply bind_returned in E. destruct E as (row & _ & E).
    apply bind_returned in E. destruct E as (q & _ & E).
    apply bind_returned in E. destruct E as (conf & _ & E).
    injection E as _ _ _ _ <-. simpl.
    apply (resolved_path_listed _ _ _ _ Hpath Hno).
  - intros v c category fi info Hret.
    unfold predict_customer_lifetime_value, try_except in Hret.
    destruct (bind (_get_best_model_path store model_dir user_id
                      "customer_lifetime_value" model_name) _) as [r|e] eqn:E;
      [|discriminate].
    injection Hret as ->.
    apply bind_returned in E. destruct E as (model_path0 & Hpath & E).
    destruct (no_path model_path0) eqn:Hno; [discriminate|].
    apply bind_returned in E. destruct E as (features_df & _ & E).
    apply bind_returned in E. destruct E as ([model md] & _ & E).
    apply bind_returned in E. destruct E as (predictions & _ & E).
    apply bind_returned in E. destruct E as (prediction & _ & E).
    injection E as _ _ _ _ <-. simpl.
    apply (resolved_path_listed _ _ _ _ Hpath Hno).
Qed.

End Predictor.

(** *** Two owners with mixed artifacts *)

Definition ltv_v1 : stored_metadata :=
  mkStored (Some "customer_lifetime_value") (Some "ltv") (Some "2024-07-01T08:00:00")
    (Some "gradient_boosting") [].

Definition undated_ltv : stored_metadata :=
  mkStored (Some "customer_lifetime_value") (Some "ltv_old") None
    (Some "random_forest") [].

(** Owner u1 has a lead-conversion and a lifetime-value artifact; owner
    u3 has a lead-conversion artifact and a lifetime-value document
    without a training date. *)
Definition mixed_artifacts : Store :=
  {| dir_exists := fun d => String.eqb d "models/u1" || String.eqb d "models/u3";
     listdir := fun d =>
       if String.eqb d "models/u1"
       then Returned ["scorer_20240501_120000_metadata.json";
                      "ltv_20240701_080000_metadata.json"]
       else Returned ["scorer_20240501_120000_metadata.json";
                      "ltv_old_20230101_000000_metadata.json"];
     read_json := fun path =>
       if endswith path "scorer_20240501_120000_metadata.json" then Returned scorer_v1
       else if endswith path "ltv_20240701_080000_metadata.json" then Returned ltv_v1
       else Returned undated_ltv;
     blob_size := fun _ => 1024%nat |}.

Lemma lifetime_value_record_witness :
  0 <= 1001
  /\ 1 # 10 <= _calculate_regression_confidence 1001 <= 1
  /\ (1001 <= 900 -> _calculate_regression_confidence 1001 == 1001 / 1000 + (1 # 10))
  /\ (900 <= 1001 -> _calculate_regression_confidence 1001 == 1)
  /\ value_rule 1001 "medium_value".
Proof.
  apply (lifetime_value_record mixed_artifacts "models" canned a_lead "u1" None
           1001 (_calculate_regression_confidence 1001) "medium_value"
           (mkExplanation [] 0)
           (mkInfo "models/u1/ltv_20240701_080000.joblib"
                   (Some "gradient_boosting") (Some "2024-06-01T09:30:00"))).
  vm_compute. reflexivity.
Defined.

Lemma batch_has_one_entry_per_lead_witness :
  2%nat = length [a_lead; mkRecord None []]
  /\ length [mkBatchEntry "42" (7 # 10) (220 # 400) "medium";
             mkBatchEntry "lead_1" (7 # 10) (220 # 400) "medium"]
     = length [a_lead; mkRecord None []]
  /\ forall k lead_data,
       nth_error [a_lead; mkRecord None []] k = Some lead_data ->
       exists e,
         nth_error [mkBatchEntry "42" (7 # 10) (220 # 400) "medium";
                    mkBatchEntry "lead_1" (7 # 10) (220 # 400) "medium"] k = Some e
         /\ be_lead_id e = lead_id_of k lead_data.
Proof.
  apply (batch_has_one_entry_per_lead two_artifacts "models" canned
           [a_lead; mkRecord None []] "u1" None 2%nat
           [mkBatchEntry "42" (7 # 10) (220 # 400) "medium";
            mkBatchEntry "lead_1" (7 # 10) (220 # 400) "medium"]
           "models/u1/scorer_b_20240601_093000.joblib" (Some "gradient_boosting")).
  vm_compute. reflexivity.
Defined.

Lemma batch_of_one_agrees_witness :
  match predict_lead_conversion two_artifacts "models" canned a_lead "u1" None with
  | Returned (LeadConversion p c label fi info) =>
      batch_predict_lead_conversion two_artifacts "models" canned [a_lead] "u1" None
      = Returned (BatchPredictions 1 [mkBatchEntry (lead_id_of 0 a_lead) p c label]
                    (info_model_path info) (info_algorithm info))
  | Returned (NoPrediction error) =>
      batch_predict_lead_conversion two_artifacts "models" canned [a_lead] "u1" None
      = Returned (NoBatch error)
  | _ => False
  end.
Proof.
  apply (batch_of_one_agrees two_artifacts "models" canned a_lead "u1" None).
  split.
  - intros rs df H. injection H as <-. reflexivity.
  - intros model X rows H. injection H as <-. apply repeat_length.
Defined.

Lemma undated_document_blocks_owner_witness :
  get_model_list mixed_artifacts "models" "u3" = Raised (Exn "KeyError" "'training_date'")
  /\ forall data model_name,
       predict_lead_conversion mixed_artifacts "models" canned data "u3" model_name
       = Returned (NoPrediction "'training_date'")
       /\ predict_customer_lifetime_value mixed_artifacts "models" canned data "u3"
            model_name
          = Returned (NoPrediction "'training_date'")
       /\ forall more,
            batch_predict_lead_conversion mixed_artifacts "models" canned (data :: more)
              "u3" model_name
            = Returned (NoBatch "'training_date'").
Proof.
  apply (undated_document_blocks_owner mixed_artifacts "models" canned "u3"
           ["scorer_20240501_120000_metadata.json";
            "ltv_old_20230101_000000_metadata.json"]
           [mkEntry "models/u3/scorer_20240501_120000.joblib" scorer_v1 1024;
            mkEntry "models/u3/ltv_old_20230101_000000.joblib" undated_ltv 1024]
           (mkEntry "models/u3/ltv_old_20230101_000000.joblib" undated_ltv 1024)).
  - reflexivity.
  - reflexivity.
  - reflexivity.
  - right. left. reflexivity.
  - reflexivity.
Defined.

Lemma prediction_names_listed_artifact_witness :
  exists models m,
    get_model_list mixed_artifacts "models" "u1" = Returned models
    /\ In m models /\ of_type "customer_lifetime_value" m = true
    /\ model_path m = "models/u1/ltv_20240701_080000.joblib".
Proof.
  apply (proj2 (prediction_names_listed_artifact mixed_artifacts "models" canned
                  a_lead "u1" None)
           1001 (_calculate_regression_confidence 1001) "medium_value"
           (mkExplanation [] 0)
           (mkInfo "models/u1/ltv_20240701_080000.joblib"
                   (Some "gradient_boosting") (Some "2024-06-01T09:30:00"))).
  vm_compute. reflexivity.
Defined.

End PredictionFacts.

(** ** model_training.py: the listing of an owner's models *)

Module ArtifactFacts.
Import Py Importance Artifacts.
Local Open Scope string_scope.
Local Open Scope py_scope.

Lemma read_entries_holds (store : Store) (user_dir filename : string)
    (doc : stored_metadata) :
  endswith filename "_metadata.json" = true ->
  read_json store (path_join user_dir filename) = Returned doc ->
  forall filenames entries,
    In filename filenames ->
    read_entries store user_dir filenames = Returned entries ->
    exists m,
      In m entries
      /\ model_path m = replace "_metadata.json" ".joblib" (path_join user_dir filename)
      /\ Artifacts.metadata m = doc.
Proof.
  intros Hend Hdoc. induction filenames as [|f rest IH]; intros entries Hin H;
    [destruct Hin|].
  simpl in H. destruct Hin as [->|Hin].
  - rewrite Hend, Hdoc in H. cbn [bind] in H.
    apply bind_returned in H. destruct H as (entries' & _ & H).
    injection H as <-. eexists. split; [left; reflexivity|]. split; reflexivity.
  - destruct (endswith f "_metadata.json").
    + apply bind_returned in H. destruct H as (md & _ & H).
      apply bind_returned in H. destruct H as (entries' & Hrest & H).
      injection H as <-. destruct (IH _ Hin Hrest) as (m & Hm & Hp & Hd).
      exists m. split; [right; exact Hm|]. split; assumption.
    + apply (IH _ Hin H).
Qed.

Lemma keyed_entries (models : list model_entry) (ks : list (string * model_entry)) :
  keyed models = Returned ks -> map snd ks = models.
Proof.
  revert ks. induction models as [|m rest IH]; intros ks H; simpl in H.
  - injection H as <-. reflexivity.
  - apply bind_returned in H. destruct H as (dt & _ & H).
    apply bind_returned in H. destruct H as (rest' & Hrest & H).
    injection H as <-. simpl. rewrite (IH _ Hrest). reflexivity.
Qed.

Lemma insert_desc_in (x y : string * model_entry) (sorted : list (string * model_entry)) :
  In y (insert_desc x sorted) <-> y = x \/ In y sorted.
Proof.
  induction sorted as [|z rest IH]; simpl.
  - split; intros [H|H]; auto.
  - destruct (String.ltb (fst x) (fst z)); simpl; rewrite ?IH; intuition auto.
Qed.

Lemma sort_in (y : string * model_entry) (ks : list (string * model_entry)) :
  In y (fold_right insert_desc [] ks) <-> In y ks.
Proof.
  induction ks as [|k rest IH]; simpl; [reflexivity|].
  rewrite insert_desc_in, IH. intuition auto.
Qed.

Lemma sorted_desc_in (models sorted : list model_entry) (m : model_entry) :
  sorted_desc models = Returned sorted -> (In m sorted <-> In m models).
Proof.
  unfold sorted_desc. intros H.
  apply bind_returned in H. destruct H as (ks & Hks & H). injection H as <-.
  rewrite <- (keyed_entries _ _ Hks).
  rewrite !in_map_iff. split; intros ((dt & x) & Hx & Hin); exists (dt, x);
    (split; [exact Hx|]); apply sort_in; exact Hin.
Qed.

Lemma insert_desc_length (x : string * model_entry) (sorted : list (string * model_entry)) :
  length (insert_desc x sorted) = S (length sorted).
Proof.
  induction sorted as [|z rest IH]; simpl; [reflexivity|].
  destruct (String.ltb (fst x) (fst z)); simpl; [rewrite IH|]; reflexivity.
Qed.

Lemma sorted_desc_length (models sorted : list model_entry) :
  sorted_desc models = Returned sorted -> length sorted = length models.
Proof.
  unfold sorted_desc. intros H.
  apply bind_returned in H. destruct H as (ks & Hks & H). injection H as <-.
  rewrite <- (keyed_entries _ _ Hks), !length_map.
  clear Hks. induction ks as [|k rest IH]; simpl; [reflexivity|].
  rewrite insert_desc_length, IH. reflexivity.
Qed.

Section Listing.

Variable store : Store.
Variable model_dir : string.

(** The entry that the listing makes of one metadata file. *)
Definition entry_of (user_dir filename : string) (m : model_entry) : Prop :=
  endswith filename "_metadata.json" = true
  /\ model_path m = replace "_metadata.json" ".joblib" (path_join user_dir filename)
  /\ read_json store (path_join user_dir filename) = Returned (metadata m)
  /\ file_size m = blob_size store (model_path m).

Lemma read_entries_complete (user_dir : string) (filenames : list string) :
  forall entries,
    read_entries store user_dir filenames = Returned entries ->
    length entries
    = length (filter (fun f => endswith f "_metadata.json") filenames)
    /\ Forall (fun m => exists f, In f filenames /\ entry_of user_dir f m) entries.
Proof.
  induction filenames as [|f rest IH]; intros entries H; simpl in H.
  - injection H as <-. split; [reflexivity | constructor].
  - cbn [filter]. destruct (endswith f "_metadata.json") eqn:E.
    + apply bind_returned in H. destruct H as (md & Hmd & H).
      apply bind_returned in H. destruct H as (entries' & Hrest & H).
      injection H as <-. destruct (IH _ Hrest) as [Hlen Hall].
      split; [simpl; rewrite Hlen; reflexivity|].
      constructor.
      * exists f. split; [left; reflexivity|].
        unfold entry_of. cbn [model_path metadata file_size]. auto.
      * eapply Forall_impl; [|exact Hall].
        intros m (f' & Hin & He). exists f'. split; [right; exact Hin | exact He].
    + destruct (IH _ H) as [Hlen Hall]. split; [exact Hlen|].
      eapply Forall_impl; [|exact Hall].
      intros m (f' & Hin & He). exists f'. split; [right; exact Hin | exact He].
Qed.

(** X21.  The listing of an owner is made of the metadata files alone.  For an
    owner without a directory it is empty.  Otherwise it has one entry
    for every name of the directory that ends in "_metadata.json", and
    none for any other file: each entry carries the document read from
    its file, the path of the file with "_metadata.json" replaced by
    ".joblib", and the size of the blob at that path, which is 0 when
    there is no blob.  The entries are in the order of their training
    dates, the latest first. *)
Theorem listing_mirrors_metadata_files (user_id : string) (models : list model_entry)
    (Hlist : get_model_list store model_dir user_id = Returned models) :
  StronglySorted not_older models
  /\ (dir_exists store (path_join model_dir user_id) = false -> models = [])
  /\ (dir_exists store (path_join model_dir user_id) = true ->
      exists filenames,
        listdir store (path_join model_dir user_id) = Returned filenames
        /\ length models
           = length (filter (fun f => endswith f "_metadata.json") filenames)
        /\ Forall (fun m => exists f, In f filenames
                                     /\ entry_of (path_join model_dir user_id) f m)
             models).
Proof.
  split; [apply (@get_model_list_newest_first store model_dir user_id models Hlist)|].
  unfold get_model_list in Hlist.
  destruct (dir_exists store (path_join model_dir user_id)); cbn [negb] in Hlist.
  - split; [discriminate|]. intros _.
    apply bind_returned in Hlist. destruct Hlist as (filenames & Hls & H).
    apply bind_returned in H. destruct H as (entries & Hentries & Hsorted).
    exists filenames. split; [exact Hls|].
    destruct (read_entries_complete _ _ _ Hentries) as [Hlen Hall].
    split; [rewrite (sorted_desc_length _ _ Hsorted); exact Hlen|].
    rewrite Forall_forall in *. intros m Hm.
    apply Hall, (sorted_desc_in _ _ m Hsorted), Hm.
  - injection Hlist as <-. split; [reflexivity | discriminate].
Qed.

End Listing.

Lemma listing_mirrors_metadata_files_witness :
  StronglySorted not_older
    [mkEntry "models/u1/scorer_b_20240601_093000.joblib" scorer_v2 1024;
     mkEntry "models/u1/scorer_20240501_120000.joblib" scorer_v1 1024]
  /\ (dir_exists two_artifacts (path_join "models" "u1") = false ->
      [mkEntry "models/u1/scorer_b_20240601_093000.joblib" scorer_v2 1024;
       mkEntry "models/u1/scorer_20240501_120000.joblib" scorer_v1 1024] = [])
  /\ (dir_exists two_artifacts (path_join "models" "u1") = true ->
      exists filenames,
        listdir two_artifacts (path_join "models" "u1") = Returned filenames
        /\ length [mkEntry "models/u1/scorer_b_20240601_093000.joblib" scorer_v2 1024;
                   mkEntry "models/u1/scorer_20240501_120000.joblib" scorer_v1 1024]
           = length (filter (fun f => endswith f "_metadata.json") filenames)
        /\ Forall (fun m => exists f, In f filenames
                                     /\ entry_of two_artifacts (path_join "models" "u1")
                                          f m)
             [mkEntry "models/u1/scorer_b_20240601_093000.joblib" scorer_v2 1024;
              mkEntry "models/u1/scorer_20240501_120000.joblib" scorer_v1 1024]).
Proof.
  apply (listing_mirrors_metadata_files two_artifacts "models" "u1").
  reflexivity.
Defined.

End ArtifactFacts.

(** ** model_training.py: artifacts on disk *)

Module Disk.
Import Py Frame Importance Artifacts.
Local Open Scope string_scope.
Local Open Scope py_scope.

(** *** The file system and the two serializers

    - [os_path_exists], [os_path_getsize], [os_listdir]: the reads;
    - [os_makedirs d]: [os.makedirs(d, exist_ok=True)];
    - [os_remove], [joblib_dump], [json_dump]: the writes, each handing
      back the disk it leaves, whether it returns or raises;
    - [joblib_load p], [json_load p]: [joblib.load(p)] and
      [json.load(open(p))]. *)
Record FileSystem := mkFileSystem {
  disk : Type;
  os_path_exists : disk -> string -> bool;
  os_path_getsize : disk -> string -> nat;
  os_listdir : disk -> string -> outcome (list string);
  os_makedirs : string -> disk -> outcome unit * disk;
  os_remove : string -> disk -> outcome unit * disk;
  joblib_dump : estimator -> string -> disk -> outcome unit * disk;
  joblib_load : disk -> string -> outcome estimator;
  json_dump : Training.model_metadata -> string -> disk -> outcome unit * disk;
  json_load : disk -> string -> outcome stored_metadata
}.

(** The fields the readers look at, as [json.load] returns them from the
    document [json.dump] wrote. *)
Definition as_stored (md : Training.model_metadata) : stored_metadata :=
  mkStored (Some (Training.md_model_type md)) (Some (Training.md_model_name md))
    (Some (Training.md_training_date md)) (Some (Training.md_algorithm md))
    (Training.md_feature_importance md).

Section OnDisk.

Variable fs : FileSystem.
Variable model_dir : string.

(** What [get_model_list] sees of a disk. *)
Definition store_of (d : disk fs) : Store :=
  {| dir_exists := os_path_exists fs d;
     listdir := os_listdir fs d;
     read_json := json_load fs d;
     blob_size := fun path =>
       if os_path_exists fs d path then os_path_getsize fs d path else 0%nat |}.

(** *** Code that changes the disk *)

Definition io (A : Type) : Type := disk fs -> outcome A * disk fs.

Definition ret {A} (a : A) : io A := fun d => (Returned a, d).

Definition io_bind {A B} (c : io A) (k : A -> io B) : io B :=
  fun d =>
    match c d with
    | (Returned a, d') => k a d'
    | (Raised e, d') => (Raised e, d')
    end.

Definition read {A} (f : disk fs -> A) : io A := fun d => (Returned (f d), d).

Definition io_try {A} (body : io A) (handler : exn -> io A) : io A :=
  fun d =>
    match body d with
    | (Returned a, d') => (Returned a, d')
    | (Raised e, d') => handler e d'
    end.

Declare Scope io_scope.
Notation "x <~ c ;; k" := (io_bind c (fun x => k))
  (at level 61, c at next level, right associativity) : io_scope.
Local Open Scope io_scope.

Lemma io_bind_returned {A B} (c : io A) (k : A -> io B) (d d' : disk fs) (b : B) :
  io_bind c k d = (Returned b, d') ->
  exists a d1, c d = (Returned a, d1) /\ k a d1 = (Returned b, d').
Proof.
  unfold io_bind. destruct (c d) as [[a|e] d1]; [eauto | discriminate].
Qed.

Lemma io_bind_raised {A B} (c : io A) (k : A -> io B) (d d' : disk fs) (e : exn) :
  io_bind c k d = (Raised e, d') ->
  c d = (Raised e, d')
  \/ exists a d1, c d = (Returned a, d1) /\ k a d1 = (Raised e, d').
Proof.
  unfold io_bind. destruct (c d) as [[a|e0] d1]; [eauto|].
  intros H. injection H as <- <-. left. reflexivity.
Qed.

Definition save_model (timestamp : string) (model : estimator)
    (metadata : Training.model_metadata) : io string :=
  let model_name := Training.md_model_name metadata in
  let user_id := Training.md_user_id metadata in
  let user_dir := path_join model_dir user_id in
  _ <~ os_makedirs fs user_dir ;;
  let model_filename := model_name ++ "_" ++ timestamp ++ ".joblib" in
  let model_path := path_join user_dir model_filename in
  _ <~ joblib_dump fs model model_path ;;
  let metadata_filename := model_name ++ "_" ++ timestamp ++ "_metadata.json" in
  let metadata_path := path_join user_dir metadata_filename in
  _ <~ json_dump fs metadata metadata_path ;;
  ret model_path.

Definition load_model (d : disk fs) (model_path : string)
  : outcome (estimator * stored_metadata) :=
  model <- joblib_load fs d model_path ;;
  let metadata_path := replace ".joblib" "_metadata.json" model_path in
  metadata <- json_load fs d metadata_path ;;
  Returned (model, metadata).

Definition delete_model (model_path : string) : io bool :=
  io_try
    (there <~ read (fun d => os_path_exists fs d model_path) ;;
     _ <~ (if there then os_remove fs model_path else ret tt) ;;
     let metadata_path := replace ".joblib" "_metadata.json" model_path in
     there' <~ read (fun d => os_path_exists fs d metadata_path) ;;
     _ <~ (if there' then os_remove fs metadata_path else ret tt) ;;
     ret true)
    (fun _ => ret false).

(** *** Predictions of the trainer

    [model_predict] and [model_predict_proba] are the two methods of a
    fitted estimator. *)

Variable model_predict : estimator -> DataFrame -> outcome (list Q).
Variable model_predict_proba : estimator -> DataFrame -> outcome (list (list Q)).

Definition predict (d : disk fs) (model_path : string) (X : DataFrame)
  : outcome (list Q) :=
  '(model, _) <- load_model d model_path ;;
  model_predict model X.

(** [np.minimum(np.abs(predictions) / 100, 0.9) + 0.1], for one
    prediction. *)
Definition magnitude_confidence (prediction : Q) : Q :=
  (py_min (Qabs prediction / 100) (9 # 10) + (1 # 10))%Q.

Definition predict_proba (d : disk fs) (model_path : string) (X : DataFrame)
  : outcome (list (list Q)) :=
  '(model, _) <- load_model d model_path ;;
  if has_predict_proba (model_class model)
  then model_predict_proba model X
  else
    predictions <- model_predict model X ;;
    Returned (map (fun p => [1 - magnitude_confidence p; magnitude_confidence p]%Q)
                predictions).

(** *** What is assumed of the file system *)

(** What was dumped is what loading yields, and writing a document
    leaves the blobs at other paths alone. *)
Definition blobs_kept : Prop :=
  (forall d model path d', joblib_dump fs model path d = (Returned tt, d') ->
                           joblib_load fs d' path = Returned model)
  /\ (forall d md path d', json_dump fs md path d = (Returned tt, d') ->
        forall q, q <> path -> joblib_load fs d' q = joblib_load fs d q).

Definition documents_kept : Prop :=
  forall d md path d', json_dump fs md path d = (Returned tt, d') ->
                       json_load fs d' path = Returned (as_stored md).

(** A directory that was made exists, and stays when files are written;
    a document written into a directory is one of its entries. *)
Definition folders_kept : Prop :=
  (forall d dir d', os_makedirs fs dir d = (Returned tt, d') ->
                    os_path_exists fs d' dir = true)
  /\ (forall d model path d', joblib_dump fs model path d = (Returned tt, d') ->
         forall q, os_path_exists fs d q = true -> os_path_exists fs d' q = true)
  /\ (forall d md path d', json_dump fs md path d = (Returned tt, d') ->
         forall q, os_path_exists fs d q = true -> os_path_exists fs d' q = true).

Definition documents_listed : Prop :=
  forall d md dir name d',
    json_dump fs md (path_join dir name) d = (Returned tt, d') ->
    contains_char "/" name = false ->
    exists names, os_listdir fs d' dir = Returned names /\ In name names.

(** Removing takes the path away and no other; a removal that raises
    has removed nothing. *)
Definition removal : Prop :=
  (forall d path d', os_remove fs path d = (Returned tt, d') ->
     os_path_exists fs d' path = false
     /\ forall q, q <> path -> os_path_exists fs d' q = os_path_exists fs d q)
  /\ (forall d path e d', os_remove fs path d = (Raised e, d') -> d' = d).

(** *** Saving, then loading *)

Definition stem_of (timestamp : string) (metadata : Training.model_metadata) : string :=
  path_join (path_join model_dir (Training.md_user_id metadata))
    (Training.md_model_name metadata ++ "_" ++ timestamp).

Lemma name_dated (timestamp : string) (metadata : Training.model_metadata) :
  Training.md_model_name metadata ++ "_" ++ timestamp <> "".
Proof. destruct (Training.md_model_name metadata); discriminate. Qed.

Lemma model_path_stem (timestamp : string) (metadata : Training.model_metadata) :
  path_join (path_join model_dir (Training.md_user_id metadata))
    (Training.md_model_name metadata ++ "_" ++ timestamp ++ ".joblib")
  = stem_of timestamp metadata ++ ".joblib".
Proof.
  unfold stem_of.
  rewrite <- (Str.path_join_append _ _ ".joblib" (name_dated timestamp metadata)).
  rewrite !Str.append_assoc. reflexivity.
Qed.

Lemma metadata_path_stem (timestamp : string) (metadata : Training.model_metadata) :
  path_join (path_join model_dir (Training.md_user_id metadata))
    (Training.md_model_name metadata ++ "_" ++ timestamp ++ "_metadata.json")
  = stem_of timestamp metadata ++ "_metadata.json".
Proof.
  unfold stem_of.
  rewrite <- (Str.path_join_append _ _ "_metadata.json" (name_dated timestamp metadata)).
  rewrite !Str.append_assoc. reflexivity.
Qed.

Lemma save_model_steps (timestamp : string) (model : estimator)
    (metadata : Training.model_metadata) (d d' : disk fs) (path : string) :
  save_model timestamp model metadata d = (Returned path, d') ->
  path = stem_of timestamp metadata ++ ".joblib"
  /\ exists d1 d2,
       os_makedirs fs (path_join model_dir (Training.md_user_id metadata)) d
       = (Returned tt, d1)
       /\ joblib_dump fs model (stem_of timestamp metadata ++ ".joblib") d1
          = (Returned tt, d2)
       /\ json_dump fs metadata (stem_of timestamp metadata ++ "_metadata.json") d2
          = (Returned tt, d').
Proof.
  unfold save_model, io_bind, ret.
  rewrite model_path_stem, metadata_path_stem.
  destruct (os_makedirs fs _ d) as [[[]|e] d1] eqn:E1; [|discriminate].
  destruct (joblib_dump fs model _ d1) as [[[]|e] d2] eqn:E2; [|discriminate].
  destruct (json_dump fs metadata _ d2) as [[[]|e] d3] eqn:E3; [|discriminate].
  intros H. injection H as <- <-. split; [reflexivity|].
  exists d1, d2. split; [reflexivity|]. split; [exact E2 | exact E3].
Qed.

(** X22.  A saved model loads back: [load_model] on the path that [save_model]
    returned yields the estimator that was saved and the metadata
    document written next to it, provided that ".joblib" occurs nowhere
    in model_dir/user_id/model_name_timestamp.  (The metadata path is
    computed by replacing every ".joblib" of the model path.) *)
Theorem saved_model_loads_back (timestamp : string) (model : estimator)
    (metadata : Training.model_metadata) (d d' : disk fs) (path : string)
    (Hblobs : blobs_kept) (Hdocs : documents_kept)
    (Hstem : substring_in ".joblib" (stem_of timestamp metadata) = false)
    (Hsave : save_model timestamp model metadata d = (Returned path, d')) :
  load_model d' path = Returned (model, as_stored metadata).
Proof.
  destruct (save_model_steps _ _ _ _ _ _ Hsave) as (-> & d1 & d2 & _ & Hdump & Hjson).
  destruct Hblobs as [Hround Hframe].
  unfold load_model.
  rewrite (Hframe _ _ _ _ Hjson (stem_of timestamp metadata ++ ".joblib")).
  - rewrite (Hround _ _ _ _ Hdump). cbn [bind].
    rewrite (Str.replace_suffix "." "joblib" "_metadata.json" _ eq_refl Hstem).
    rewrite (Hdocs _ _ _ _ Hjson). reflexivity.
  - intros H. apply Str.append_inj_l in H. discriminate H.
Qed.

(** *** Saving, then listing *)

(** X23.  A saved model is listed: when the listing of the owner returns, it
    holds an entry with the path that [save_model] returned and the
    metadata document written next to it, provided that the model name
    and the timestamp hold no "/" and that "_metadata.json" occurs
    nowhere in model_dir/user_id/model_name_timestamp.  (The listed path
    is computed by replacing every "_metadata.json" of the document
    path.) *)
Theorem saved_model_is_listed (timestamp : string) (model : estimator)
    (metadata : Training.model_metadata) (d d' : disk fs) (path : string)
    (models : list model_entry)
    (Hdocs : documents_kept) (Hfolders : folders_kept) (Hlisted : documents_listed)
    (Hname : contains_char "/" (Training.md_model_name metadata ++ "_" ++ timestamp)
             = false)
    (Hstem : substring_in "_metadata.json" (stem_of timestamp metadata) = false)
    (Hsave : save_model timestamp model metadata d = (Returned path, d'))
    (Hlist : get_model_list (store_of d') model_dir (Training.md_user_id metadata)
             = Returned models) :
  exists m,
    In m models /\ model_path m = path /\ Artifacts.metadata m = as_stored metadata.
Proof.
  destruct (save_model_steps _ _ _ _ _ _ Hsave) as (-> & d1 & d2 & Hmk & Hdump & Hjson).
  destruct Hfolders as (Hmade & Hblob & Hdoc).
  set (user_dir := path_join model_dir (Training.md_user_id metadata)) in *.
  set (filename := Training.md_model_name metadata ++ "_" ++ timestamp
                   ++ "_metadata.json").
  assert (Hpath : path_join user_dir filename
                  = stem_of timestamp metadata ++ "_metadata.json")
    by apply metadata_path_stem.
  assert (Hslash : contains_char "/" filename = false).
  { unfold filename.
    replace (Training.md_model_name metadata ++ "_" ++ timestamp ++ "_metadata.json")
      with ((Training.md_model_name metadata ++ "_" ++ timestamp) ++ "_metadata.json")
      by (rewrite !Str.append_assoc; reflexivity).
    rewrite Str.contains_char_append, Hname. reflexivity. }
  assert (Hend : endswith filename "_metadata.json" = true).
  { unfold filename.
    replace (Training.md_model_name metadata ++ "_" ++ timestamp ++ "_metadata.json")
      with ((Training.md_model_name metadata ++ "_" ++ timestamp) ++ "_metadata.json")
      by (rewrite !Str.append_assoc; reflexivity).
    apply Str.endswith_append. }
  rewrite <- Hpath in Hjson.
  destruct (Hlisted _ _ _ _ _ Hjson Hslash) as (names & Hnames & Hin).
  assert (Hthere : os_path_exists fs d' user_dir = true).
  { apply (Hdoc _ _ _ _ Hjson), (Hblob _ _ _ _ Hdump), (Hmade _ _ _ Hmk). }
  unfold get_model_list in Hlist. fold user_dir in Hlist.
  cbn [dir_exists listdir store_of] in Hlist.
  rewrite Hthere, Hnames in Hlist. cbn [negb bind] in Hlist.
  apply bind_returned in Hlist. destruct Hlist as (entries & Hentries & Hsorted).
  destruct (ArtifactFacts.read_entries_holds (store_of d') user_dir filename
              (as_stored metadata)
              Hend (Hdocs _ _ _ _ Hjson) names entries Hin Hentries)
    as (m & Hm & Hmp & Hmd).
  exists m. split; [apply (ArtifactFacts.sorted_desc_in _ _ m Hsorted), Hm|].
  split; [|exact Hmd].
  rewrite Hmp, Hpath.
  apply (Str.replace_suffix "_" "metadata.json" ".joblib" _ eq_refl Hstem).
Qed.

(** *** Deleting *)

(** [if os.path.exists(p): os.remove(p)] *)
Definition remove_if_there (p : string) : io unit :=
  there <~ read (fun d => os_path_exists fs d p) ;;
  if there then os_remove fs p else ret tt.

Lemma remove_if_there_returned (p : string) (d0 d1 : disk fs) :
  removal ->
  remove_if_there p d0 = (Returned tt, d1) ->
  os_path_exists fs d1 p = false
  /\ forall q, q <> p -> os_path_exists fs d1 q = os_path_exists fs d0 q.
Proof.
  intros [Hgone _]. unfold remove_if_there, io_bind, read.
  destruct (os_path_exists fs d0 p) eqn:E.
  - apply Hgone.
  - unfold ret. intros H. injection H as <-. split; [exact E | reflexivity].
Qed.

Lemma remove_if_there_raised (p : string) (d0 d1 : disk fs) (e : exn) :
  removal ->
  remove_if_there p d0 = (Raised e, d1) ->
  d1 = d0 /\ os_path_exists fs d0 p = true /\ os_remove fs p d0 = (Raised e, d0).
Proof.
  intros [_ Hkept]. unfold remove_if_there, io_bind, read.
  destruct (os_path_exists fs d0 p) eqn:E.
  - intros H. pose proof (Hkept _ _ _ _ H) as ->. auto.
  - unfold ret. discriminate.
Qed.

Lemma delete_model_steps (model_path : string) :
  delete_model model_path
  = io_try
      (_ <~ remove_if_there model_path ;;
       _ <~ remove_if_there (replace ".joblib" "_metadata.json" model_path) ;;
       ret true)
      (fun _ => ret false).
Proof. reflexivity. Qed.

Lemma delete_model_true (model_path : string) (d d' : disk fs) :
  delete_model model_path d = (Returned true, d') ->
  exists d1,
    remove_if_there model_path d = (Returned tt, d1)
    /\ remove_if_there (replace ".joblib" "_metadata.json" model_path) d1
       = (Returned tt, d').
Proof.
  rewrite delete_model_steps. unfold io_try.
  destruct (io_bind (remove_if_there model_path) _ d) as [[b|e] d3] eqn:E;
    [|unfold ret; discriminate].
  intros H. injection H as -> ->.
  apply io_bind_returned in E. destruct E as ([] & d1 & E1 & E).
  apply io_bind_returned in E. destruct E as ([] & d2 & E2 & E).
  unfold ret in E. injection E as <-. exists d1. split; assumption.
Qed.

(** X24.  When [delete_model] returns True, the model file is not there any
    more, nor is the path that the code derives from the model path by
    replacing every ".joblib" with "_metadata.json", and no other path
    has appeared or disappeared.  For a model path stem.joblib the
    derived path is the metadata file stem_metadata.json that
    [save_model] wrote, and that file is gone, provided ".joblib" does
    not occur in the stem; where the derived path is another one, the
    metadata file is as it was before the call. *)
Theorem deleted_model_is_gone (model_path : string) (d d' : disk fs)
    (Hremoval : removal)
    (Hdel : delete_model model_path d = (Returned true, d')) :
  os_path_exists fs d' model_path = false
  /\ os_path_exists fs d' (replace ".joblib" "_metadata.json" model_path) = false
  /\ (forall q, q <> model_path ->
                q <> replace ".joblib" "_metadata.json" model_path ->
                os_path_exists fs d' q = os_path_exists fs d q)
  /\ (forall stem, model_path = stem ++ ".joblib" ->
                   substring_in ".joblib" stem = false ->
                   os_path_exists fs d' (stem ++ "_metadata.json") = false)
  /\ (forall stem, model_path = stem ++ ".joblib" ->
                   replace ".joblib" "_metadata.json" model_path
                   <> stem ++ "_metadata.json" ->
                   os_path_exists fs d' (stem ++ "_metadata.json")
                   = os_path_exists fs d (stem ++ "_metadata.json")).
Proof.
  destruct (delete_model_true _ _ _ Hdel) as (d1 & E1 & E2).
  set (metadata_path := replace ".joblib" "_metadata.json" model_path) in *.
  destruct (remove_if_there_returned _ _ _ Hremoval E1) as [Hgone1 Hframe1].
  destruct (remove_if_there_returned _ _ _ Hremoval E2) as [Hgone2 Hframe2].
  assert (Hframe : forall q, q <> model_path -> q <> metadata_path ->
                             os_path_exists fs d' q = os_path_exists fs d q).
  { intros q Hq1 Hq2. rewrite (Hframe2 _ Hq2). apply (Hframe1 _ Hq1). }
  split; [|split; [exact Hgone2|split; [exact Hframe|split]]].
  - destruct (String.eqb_spec model_path metadata_path) as [Heq|Hne].
    + rewrite Heq. exact Hgone2.
    + rewrite (Hframe2 _ Hne). exact Hgone1.
  - intros stem Hpath Hstem.
    rewrite <- (Str.replace_suffix "." "joblib" "_metadata.json" stem eq_refl Hstem).
    rewrite <- Hpath. exact Hgone2.
  - intros stem Hpath Hother. apply Hframe.
    + rewrite Hpath. intros H. apply Str.append_inj_l in H. discriminate H.
    + intros H. apply Hother. symmetry. exact H.
Qed.

(** X25.  When [delete_model] returns False, a file that could not be removed
    is still there.  It is either the model file, and then the disk is
    as it was; or it is the metadata file, and then the model file is
    already gone and is not restored. *)
Theorem failed_delete_is_not_undone (model_path : string) (d d' : disk fs)
    (Hremoval : removal)
    (Hdel : delete_model model_path d = (Returned false, d')) :
  (d' = d /\ os_path_exists fs d model_path = true
   /\ exists e, os_remove fs model_path d = (Raised e, d))
  \/ (os_path_exists fs d' model_path = false
      /\ os_path_exists fs d' (replace ".joblib" "_metadata.json" model_path) = true
      /\ exists e, os_remove fs (replace ".joblib" "_metadata.json" model_path) d'
                   = (Raised e, d')).
Proof.
  revert Hdel. rewrite delete_model_steps.
  set (metadata_path := replace ".joblib" "_metadata.json" model_path).
  unfold io_try.
  destruct (io_bind (remove_if_there model_path) _ d) as [[b|e] d3] eqn:E.
  - intros H. injection H as -> ->.
    apply io_bind_returned in E. destruct E as ([] & d1 & _ & E).
    apply io_bind_returned in E. destruct E as ([] & d2 & _ & E).
    unfold ret in E. discriminate E.
  - unfold ret. intros H. injection H as ->.
    apply io_bind_raised in E. destruct E as [E1|([] & d1 & E1 & E)].
    + destruct (remove_if_there_raised _ _ _ _ Hremoval E1) as (-> & Hthere & Hrm).
      left. eauto.
    + apply io_bind_raised in E. destruct E as [E2|([] & d2 & _ & E)];
        [|unfold ret in E; discriminate E].
      destruct (remove_if_there_raised _ _ _ _ Hremoval E2) as (-> & Hthere & Hrm).
      destruct (remove_if_there_returned _ _ _ Hremoval E1) as [Hgone _].
      right. eauto.
Qed.

(** *** Probabilities from a regressor *)

Lemma magnitude_confidence_range (p : Q) :
  (1 # 10 <= magnitude_confidence p <= 1)%Q.
Proof.
  unfold magnitude_confidence, py_min, Qdiv. change (/ 100)%Q with (1 # 100)%Q.
  pose proof (Qabs_nonneg p) as Ha. revert Ha. generalize (Qabs p). intros a Ha.
  destruct (Qltb (9 # 10) (a * (1 # 100))) eqn:E;
    try apply Qltb_lt in E; try apply Qltb_ge in E; split; lra.
Qed.

(** X26.  For an estimator without [predict_proba], a regressor, the trainer
    makes up the probabilities from the predictions of the same call:
    one row [1 - c, c] per prediction, in order, where
    c = min(|prediction| / 100, 0.9) + 0.1 lies between 0.1 and 1, so
    every row is a pair of numbers between 0 and 1 that add up to 1. *)
Theorem regressor_probabilities (d : disk fs) (model_path : string) (X : DataFrame)
    (model : estimator) (md : stored_metadata) (rows : list (list Q))
    (Hload : load_model d model_path = Returned (model, md))
    (Hreg : has_predict_proba (model_class model) = false)
    (Hret : predict_proba d model_path X = Returned rows) :
  exists predictions,
    predict d model_path X = Returned predictions
    /\ Forall2 (fun prediction row =>
                  let c := (py_min (Qabs prediction / 100) (9 # 10) + (1 # 10))%Q in
                  row = [1 - c; c]%Q /\ (1 # 10 <= c <= 1)%Q)
         predictions rows.
Proof.
  unfold predict_proba, predict in *. rewrite Hload in *. cbn [bind] in *.
  rewrite Hreg in Hret.
  apply bind_returned in Hret. destruct Hret as (predictions & Hp & H).
  injection H as <-. exists predictions.
  split; [exact Hp|]. clear Hp.
  induction predictions as [|p rest IH]; cbn [map]; constructor; [|exact IH].
  cbv zeta. split; [reflexivity | apply magnitude_confidence_range].
Qed.

End OnDisk.

(** *** A disk in memory *)

Inductive node :=
| Blob (model : estimator)
| Document (md : stored_metadata)
| Folder.

Definition files := list (string * node).

Fixpoint forget (path : string) (d : files) : files :=
  match d with
  | [] => []
  | (k, v) :: rest =>
      if String.eqb k path then forget path rest else (k, v) :: forget path rest
  end.

Fixpoint strip (prefix s : string) : option string :=
  match prefix, s with
  | EmptyString, _ => Some s
  | String a prefix', String b s' => if Ascii.eqb a b then strip prefix' s' else None
  | String _ _, EmptyString => None
  end.

Definition entries_of (dir : string) (d : files) : list string :=
  flat_map (fun kv => match strip (path_join dir "") (fst kv) with
                      | Some name => if contains_char "/" name then [] else [name]
                      | None => []
                      end) d.

Definition write (v : node) (path : string) (d : files) : outcome unit * files :=
  match dict_get path d with
  | Some Folder => (Raised (Exn "IsADirectoryError" path), d)
  | _ => (Returned tt, (path, v) :: d)
  end.

Definition memory : FileSystem :=
  {| disk := files;
     os_path_exists := fun d path =>
       match dict_get path d with Some _ => true | None => false end;
     os_path_getsize := fun _ _ => 1024%nat;
     os_listdir := fun d dir => Returned (entries_of dir d);
     os_makedirs := fun dir d =>
       match dict_get dir d with
       | Some Folder => (Returned tt, d)
       | Some _ => (Raised (Exn "FileExistsError" dir), d)
       | None => (Returned tt, (dir, Folder) :: d)
       end;
     os_remove := fun path d =>
       match dict_get path d with
       | Some Folder => (Raised (Exn "IsADirectoryError" path), d)
       | Some _ => (Returned tt, forget path d)
       | None => (Raised (Exn "FileNotFoundError" path), d)
       end;
     joblib_dump := fun model path d => write (Blob model) path d;
     joblib_load := fun d path =>
       match dict_get path d with
       | Some (Blob model) => Returned model
       | Some _ => Raised (Exn "UnpicklingError" path)
       | None => Raised (Exn "FileNotFoundError" path)
       end;
     json_dump := fun md path d => write (Document (as_stored md)) path d;
     json_load := fun d path =>
       match dict_get path d with
       | Some (Document md) => Returned md
       | Some _ => Raised (Exn "JSONDecodeError" path)
       | None => Raised (Exn "FileNotFoundError" path)
       end |}.

Lemma write_cons (v : node) (path : string) (d d' : files) :
  write v path d = (Returned tt, d') -> d' = (path, v) :: d.
Proof.
  unfold write. destruct (dict_get path d) as [[| |]|]; intros H;
    try discriminate H; injection H as <-; reflexivity.
Qed.

Lemma write_found (v : node) (path : string) (d d' : files) :
  write v path d = (Returned tt, d') -> dict_get path d' = Some v.
Proof.
  intros H. rewrite (write_cons _ _ _ _ H). simpl. rewrite String.eqb_refl. reflexivity.
Qed.

Lemma write_frame (v : node) (path : string) (d d' : files) (q : string) :
  write v path d = (Returned tt, d') -> q <> path -> dict_get q d' = dict_get q d.
Proof.
  intros H Hq. rewrite (write_cons _ _ _ _ H). simpl.
  destruct (String.eqb_spec path q); [congruence | reflexivity].
Qed.

Lemma write_keeps (v : node) (path : string) (d d' : files) (q : string) :
  write v path d = (Returned tt, d') -> dict_get q d <> None -> dict_get q d' <> None.
Proof.
  intros H Hq. destruct (String.eqb_spec q path) as [->|Hne].
  - rewrite (write_found _ _ _ _ H). discriminate.
  - rewrite (write_frame _ _ _ _ _ H Hne). exact Hq.
Qed.

Lemma strip_append (prefix s : string) : strip prefix (prefix ++ s) = Some s.
Proof.
  induction prefix as [|c prefix IH]; simpl; [reflexivity|].
  rewrite Ascii.eqb_refl. exact IH.
Qed.

Lemma forget_gone (path : string) (d : files) : dict_get path (forget path d) = None.
Proof.
  induction d as [|[k v] rest IH]; simpl; [reflexivity|].
  destruct (String.eqb k path) eqn:E; [exact IH|]. simpl. rewrite E. exact IH.
Qed.

Lemma forget_frame (path q : string) (d : files) :
  q <> path -> dict_get q (forget path d) = dict_get q d.
Proof.
  intros Hq. induction d as [|[k v] rest IH]; simpl; [reflexivity|].
  destruct (String.eqb_spec k path) as [->|Hk].
  - destruct (String.eqb_spec path q); [congruence | exact IH].
  - simpl. rewrite IH. reflexivity.
Qed.

Lemma memory_blobs_kept : blobs_kept memory.
Proof.
  split.
  - intros d model path d' H. simpl in *. rewrite (write_found _ _ _ _ H). reflexivity.
  - intros d md path d' H q Hq. simpl in *. rewrite (write_frame _ _ _ _ _ H Hq).
    reflexivity.
Qed.

Lemma memory_documents_kept : documents_kept memory.
Proof.
  intros d md path d' H. simpl in *. rewrite (write_found _ _ _ _ H). reflexivity.
Qed.

Lemma memory_folders_kept : folders_kept memory.
Proof.
  assert (Hw : forall d d' path v q,
             write v path d = (Returned tt, d') ->
             match dict_get q d with Some _ => true | None => false end = true ->
             match dict_get q d' with Some _ => true | None => false end = true).
  { intros d d' path v q H Hq. pose proof (write_keeps _ _ _ _ q H) as Hk.
    destruct (dict_get q d); [|discriminate].
    destruct (dict_get q d'); [reflexivity|].
    exfalso. apply Hk; [discriminate | reflexivity]. }
  split; [|split].
  - intros d dir d'. simpl. destruct (dict_get dir d) as [[| |]|] eqn:E; intros H;
      try discriminate H; injection H as <-.
    + rewrite E. reflexivity.
    + simpl. rewrite String.eqb_refl. reflexivity.
  - intros d model path d' H q. apply (Hw _ _ _ _ _ H).
  - intros d md path d' H q. apply (Hw _ _ _ _ _ H).
Qed.

Lemma memory_documents_listed : documents_listed memory.
Proof.
  intros d md dir name d' H Hname. simpl in *. eexists. split; [reflexivity|].
  rewrite (write_cons _ _ _ _ H).
  unfold entries_of. cbn [flat_map fst]. apply in_or_app. left.
  rewrite (Str.path_join_relative dir name (Str.no_slash_relative name Hname)).
  rewrite strip_append, Hname. left. reflexivity.
Qed.

Lemma memory_removal : removal memory.
Proof.
  split.
  - intros d path d'. simpl. destruct (dict_get path d) as [[| |]|]; intros H;
      try discriminate H; injection H as <-;
      (split; [rewrite forget_gone; reflexivity|]);
      intros q Hq; rewrite (forget_frame _ _ _ Hq); reflexivity.
  - intros d path e d'. simpl. destruct (dict_get path d) as [[| |]|]; intros H;
      try discriminate H; injection H as _ <-; reflexivity.
Qed.

(** *** One model, saved and deleted *)

Definition scorer_metadata : Training.model_metadata :=
  Training.mkMetadata "lead_conversion" "random_forest" "scorer" "u1"
    "2024-05-01T12:00:00" 2 2 ["company_size_score"; "job_title_score"]
    [("n_estimators", Training.PInt 100)] [] [("accuracy", Some 1%Q)]
    "RandomForestClassifier".

Definition forest : estimator := Training.sample_estimator RandomForestClassifier.

Definition after_save : files :=
  [("models/u1/scorer_20240501_120000_metadata.json",
    Document (as_stored scorer_metadata));
   ("models/u1/scorer_20240501_120000.joblib", Blob forest);
   ("models/u1", Folder)].

Lemma saved_model_loads_back_witness :
  load_model memory after_save "models/u1/scorer_20240501_120000.joblib"
  = Returned (forest, as_stored scorer_metadata).
Proof.
  apply (saved_model_loads_back memory "models" "20240501_120000" forest
           scorer_metadata [] after_save "models/u1/scorer_20240501_120000.joblib"
           memory_blobs_kept memory_documents_kept);
    reflexivity.
Defined.

Lemma saved_model_is_listed_witness :
  exists m,
    In m [mkEntry "models/u1/scorer_20240501_120000.joblib"
            (as_stored scorer_metadata) 1024]
    /\ model_path m = "models/u1/scorer_20240501_120000.joblib"
    /\ Artifacts.metadata m = as_stored scorer_metadata.
Proof.
  apply (saved_model_is_listed memory "models" "20240501_120000" forest
           scorer_metadata [] after_save "models/u1/scorer_20240501_120000.joblib"
           [mkEntry "models/u1/scorer_20240501_120000.joblib"
              (as_stored scorer_metadata) 1024]
           memory_documents_kept memory_folders_kept memory_documents_listed);
    reflexivity.
Defined.

Lemma deleted_model_is_gone_witness :
  os_path_exists memory [("models/u1", Folder)]
    "models/u1/scorer_20240501_120000.joblib" = false
  /\ os_path_exists memory [("models/u1", Folder)]
       "models/u1/scorer_20240501_120000_metadata.json" = false.
Proof.
  destruct (deleted_model_is_gone memory "models/u1/scorer_20240501_120000.joblib"
              after_save [("models/u1", Folder)] memory_removal eq_refl)
    as (Hmodel & _ & _ & Hmetadata & _).
  split; [exact Hmodel|].
  apply (Hmetadata "models/u1/scorer_20240501_120000"); reflexivity.
Defined.

(** A directory sits where the metadata file should be. *)
Definition blocked : files :=
  [("models/u1/scorer_20240501_120000.joblib", Blob forest);
   ("models/u1/scorer_20240501_120000_metadata.json", Folder)].

Lemma failed_delete_is_not_undone_witness :
  ([("models/u1/scorer_20240501_120000_metadata.json", Folder)] = blocked
   /\ os_path_exists memory blocked "models/u1/scorer_20240501_120000.joblib" = true
   /\ exists e, os_remove memory "models/u1/scorer_20240501_120000.joblib" blocked
                = (Raised e, blocked))
  \/ (os_path_exists memory [("models/u1/scorer_20240501_120000_metadata.json", Folder)]
        "models/u1/scorer_20240501_120000.joblib" = false
      /\ os_path_exists memory
           [("models/u1/scorer_20240501_120000_metadata.json", Folder)]
           (replace ".joblib" "_metadata.json" "models/u1/scorer_20240501_120000.joblib")
         = true
      /\ exists e,
           os_remove memory
             (replace ".joblib" "_metadata.json"
                "models/u1/scorer_20240501_120000.joblib")
             [("models/u1/scorer_20240501_120000_metadata.json", Folder)]
           = (Raised e, [("models/u1/scorer_20240501_120000_metadata.json", Folder)])).
Proof.
  apply (failed_delete_is_not_undone memory
           "models/u1/scorer_20240501_120000.joblib" blocked
           [("models/u1/scorer_20240501_120000_metadata.json", Folder)]
           memory_removal).
  reflexivity.
Defined.

Definition ltv_model : estimator := Training.sample_estimator RandomForestRegressor.

Definition ltv_disk : files :=
  [("models/u1/ltv_20240701_080000_metadata.json", Document PredictionFacts.ltv_v1);
   ("models/u1/ltv_20240701_080000.joblib", Blob ltv_model)].

Lemma regressor_probabilities_witness :
  exists predictions,
    predict memory (fun _ _ => Returned [50; -2000]%Q) ltv_disk
      "models/u1/ltv_20240701_080000.joblib" (mkDataFrame 2 [])
    = Returned predictions
    /\ Forall2 (fun prediction row =>
                  let c := (py_min (Qabs prediction / 100) (9 # 10) + (1 # 10))%Q in
                  row = [1 - c; c]%Q /\ (1 # 10 <= c <= 1)%Q)
         predictions
         (map (fun p => [1 - magnitude_confidence p; magnitude_confidence p]%Q)
            [50; -2000]%Q).
Proof.
  apply (regressor_probabilities memory (fun _ _ => Returned [50; -2000]%Q)
           (fun _ _ => Raised (Exn "AttributeError" "predict_proba"))
           ltv_disk "models/u1/ltv_20240701_080000.joblib" (mkDataFrame 2 [])
           ltv_model PredictionFacts.ltv_v1
           (map (fun p => [1 - magnitude_confidence p; magnitude_confidence p]%Q)
              [50; -2000]%Q));
    reflexivity.
Defined.

(** With ".joblib" in the owner's id, the metadata path that
    [load_model] and [delete_model] compute is not the one [save_model]
    wrote to. *)
Example metadata_path_astray :
  replace ".joblib" "_metadata.json" "models/u.joblib/scorer_20240501_120000.joblib"
  = "models/u_metadata.json/scorer_20240501_120000_metadata.json".
Proof. reflexivity. Qed.

(** The model of such an owner is deleted, [delete_model] returns True,
    and the metadata document stays on the disk. *)
Example metadata_outlives_model :
  delete_model memory "models/u.joblib/scorer_20240501_120000.joblib"
    [("models/u.joblib/scorer_20240501_120000_metadata.json",
      Document (as_stored scorer_metadata));
     ("models/u.joblib/scorer_20240501_120000.joblib", Blob forest)]
  = (Returned true,
     [("models/u.joblib/scorer_20240501_120000_metadata.json",
       Document (as_stored scorer_metadata))]).
Proof. reflexivity. Qed.

End Disk.

(** ** api.py: what the endpoints answer *)

Module Api.
Import Py Frame Artifacts Prediction.
Local Open Scope string_scope.

Inductive ModelType := LEAD_CONVERSION | CUSTOMER_LIFETIME_VALUE.

Inductive Algorithm :=
| RANDOM_FOREST
| GRADIENT_BOOSTING
| LOGISTIC_REGRESSION
| LINEAR_REGRESSION
| NEURAL_NETWORK.

Definition model_type_value (t : ModelType) : string :=
  match t with
  | LEAD_CONVERSION => "lead_conversion"
  | CUSTOMER_LIFETIME_VALUE => "customer_lifetime_value"
  end.

Definition algorithm_value (a : Algorithm) : string :=
  match a with
  | RANDOM_FOREST => "random_forest"
  | GRADIENT_BOOSTING => "gradient_boosting"
  | LOGISTIC_REGRESSION => "logistic_regression"
  | LINEAR_REGRESSION => "linear_regression"
  | NEURAL_NETWORK => "neural_network"
  end.

(** What leaves an endpoint: the body of the response, or the
    HTTPException it raises. *)
Inductive answer (A : Type) : Type :=
| Ok (body : A)
| HttpError (status_code : nat) (detail : string).

Arguments Ok {A} body.
Arguments HttpError {A} status_code detail.

Definition status {A} (a : answer A) : nat :=
  match a with
  | Ok _ => 200%nat
  | HttpError status_code _ => status_code
  end.

(** What is raised inside an endpoint: an HTTPException of its own, or
    anything else. *)
Inductive raised :=
| Http (status_code : nat) (detail : string)
| Other (e : exn).

Inductive handler (A : Type) : Type :=
| Done (a : A)
| Threw (r : raised).

Arguments Done {A} a.
Arguments Threw {A} r.

Definition and_then {A B} (c : handler A) (k : A -> handler B) : handler B :=
  match c with
  | Done a => k a
  | Threw r => Threw r
  end.

Definition call {A} (c : outcome A) : handler A :=
  match c with
  | Returned a => Done a
  | Raised e => Threw (Other e)
  end.

Declare Scope api_scope.
Notation "x <- c ;; k" := (and_then c (fun x => k))
  (at level 61, c at next level, right associativity) : api_scope.
Local Open Scope api_scope.

Section Endpoints.

(** [str(e)] for an HTTPException with the given status and detail. *)
Variable http_str : nat -> string -> string.

Definition str (r : raised) : string :=
  match r with
  | Http status_code detail => http_str status_code detail
  | Other e => exn_msg e
  end.

(** [except Exception as e: raise HTTPException(status_code=500,
    detail=str(e))]; HTTPException is an Exception. *)
Definition except_exception {A} (body : handler A) : answer A :=
  match body with
  | Done a => Ok a
  | Threw r => HttpError 500 (str r)
  end.

(** [except HTTPException: raise] before [except Exception]. *)
Definition except_http_then_exception {A} (body : handler A) : answer A :=
  match body with
  | Done a => Ok a
  | Threw (Http status_code detail) => HttpError status_code detail
  | Threw (Other e) => HttpError 500 (exn_msg e)
  end.

(** *** /predict and /predict/batch *)

Section Predictions.

Variable store : Store.
Variable model_dir : string.
Variable sv : Service.

Definition error_of_result (r : prediction_result) : string :=
  match r with
  | NoPrediction error => error
  | _ => ""
  end.

(** The request's model type is one of the two members of the enum, so
    the third branch of the source is never taken. *)
Definition predict (model_type : ModelType) (user_id : string)
    (model_name : option string) (data : record) : answer prediction_result :=
  except_exception
    (result <- (match model_type with
                | LEAD_CONVERSION =>
                    call (predict_lead_conversion store model_dir sv data user_id
                            model_name)
                | CUSTOMER_LIFETIME_VALUE =>
                    call (predict_customer_lifetime_value store model_dir sv data user_id
                            model_name)
                end) ;;
     if negb (Prediction.success result)
     then Threw (Http 500 (error_of_result result))
     else Done result).

Definition batch_success (r : batch_result) : bool :=
  match r with
  | BatchPredictions _ _ _ _ => true
  | NoBatch _ => false
  end.

Definition error_of_batch (r : batch_result) : string :=
  match r with
  | NoBatch error => error
  | _ => ""
  end.

Definition batch_predict (model_type : ModelType) (user_id : string)
    (model_name : option string) (data : list record) : answer batch_result :=
  except_exception
    (result <- (match model_type with
                | LEAD_CONVERSION =>
                    call (batch_predict_lead_conversion store model_dir sv data user_id
                            model_name)
                | CUSTOMER_LIFETIME_VALUE =>
                    Threw (Http 400 "Batch prediction only supported for lead conversion")
                end) ;;
     if negb (batch_success result)
     then Threw (Http 500 (error_of_batch result))
     else Done result).

Definition list_models (user_id : string) : answer (list model_entry) :=
  except_exception (call (get_model_list store model_dir user_id)).

(** What the service returned for the request. *)
Definition served (model_type : ModelType) (user_id : string)
    (model_name : option string) (data : record) : outcome prediction_result :=
  match model_type with
  | LEAD_CONVERSION => predict_lead_conversion store model_dir sv data user_id model_name
  | CUSTOMER_LIFETIME_VALUE =>
      predict_customer_lifetime_value store model_dir sv data user_id model_name
  end.

(** X27.  /predict answers 200 or 500 and nothing else.  It answers 200 with
    the record of the service when that record reports success.  When
    the service reports an error, a missing model included, the answer
    is 500, and its detail is not the error message itself but the string
    form of the HTTPException that carried it, because that exception is
    caught by the handler for Exception and wrapped again. *)
Theorem predict_answers_200_or_500 (model_type : ModelType) (user_id : string)
    (model_name : option string) (data : record) :
  match predict model_type user_id model_name data with
  | Ok result =>
      served model_type user_id model_name data = Returned result
      /\ Prediction.success result = true
  | HttpError status_code detail =>
      status_code = 500%nat
      /\ exists error,
           served model_type user_id model_name data = Returned (NoPrediction error)
           /\ detail = http_str 500 error
  end.
Proof.
  unfold predict, served.
  destruct model_type.
  - destruct (predict_lead_conversion_never_raises store model_dir sv data user_id
                model_name) as [r Hr].
    rewrite Hr. destruct r; simpl; eauto.
  - destruct (predict_customer_lifetime_value_never_raises store model_dir sv data user_id
                model_name) as [r Hr].
    rewrite Hr. destruct r; simpl; eauto.
Qed.

Lemma batch_never_raises (leads_data : list record) (user_id : string)
    (model_name : option string) :
  exists r, batch_predict_lead_conversion store model_dir sv leads_data user_id model_name
            = Returned r.
Proof. apply try_except_total. eauto. Qed.

(** X28.  /predict/batch never answers 400.  A request for lifetime values
    raises the HTTPException with status 400 inside the [try], where the
    handler for Exception catches it: the answer is 500 and its detail is
    the string form of the 400 exception.  For lead conversion the answer
    is 200 with the batch of the service, or 500 when the service
    reported an error. *)
Theorem batch_answers_200_or_500 (model_type : ModelType) (user_id : string)
    (model_name : option string) (data : list record) :
  match batch_predict model_type user_id model_name data with
  | Ok result =>
      model_type = LEAD_CONVERSION
      /\ batch_predict_lead_conversion store model_dir sv data user_id model_name
         = Returned result
      /\ batch_success result = true
  | HttpError status_code detail =>
      status_code = 500%nat
      /\ (model_type = CUSTOMER_LIFETIME_VALUE ->
          detail = http_str 400 "Batch prediction only supported for lead conversion")
      /\ (model_type = LEAD_CONVERSION ->
          exists error,
            batch_predict_lead_conversion store model_dir sv data user_id model_name
            = Returned (NoBatch error)
            /\ detail = http_str 500 error)
  end.
Proof.
  unfold batch_predict. destruct model_type.
  - destruct (batch_never_raises data user_id model_name) as [r Hr].
    rewrite Hr. destruct r; simpl.
    + repeat split; reflexivity.
    + split; [reflexivity|]. split; [discriminate|]. intros _. eauto.
  - simpl. split; [reflexivity|]. split; [reflexivity | discriminate].
Qed.

End Predictions.

(** *** DELETE /models/{user_id}/{model_name} *)

Section Deletion.

Variable fs : Disk.FileSystem.
Variable model_dir : string.

(** The loop over the listing; [model['metadata']['model_name']] is read
    by index. *)
Fixpoint first_named (model_name : string) (models : list model_entry)
  : outcome (option model_entry) :=
  match models with
  | [] => Returned None
  | model :: rest =>
      match sm_model_name (metadata model) with
      | None => Raised (Exn "KeyError" "'model_name'")
      | Some name =>
          if String.eqb name model_name then Returned (Some model)
          else first_named model_name rest
      end
  end.

Definition delete_model (user_id model_name : string) (d : Disk.disk fs)
  : answer string * Disk.disk fs :=
  match call (get_model_list (Disk.store_of fs d) model_dir user_id) with
  | Threw r => (except_http_then_exception (Threw r), d)
  | Done models =>
      match call (first_named model_name models) with
      | Threw r => (except_http_then_exception (Threw r), d)
      | Done None => (except_http_then_exception (Threw (Http 404 "Model not found")), d)
      | Done (Some model_to_delete) =>
          match Disk.delete_model fs (model_path model_to_delete) d with
          | (Returned true, d') =>
              (except_http_then_exception
                 (Done ("Model " ++ model_name ++ " deleted successfully")), d')
          | (Returned false, d') =>
              (except_http_then_exception (Threw (Http 500 "Failed to delete model")), d')
          | (Raised e, d') => (except_http_then_exception (Threw (Other e)), d')
          end
      end
  end.

Lemma first_named_found (model_name : string) (models : list model_entry)
    (model : model_entry) :
  first_named model_name models = Returned (Some model) ->
  In model models /\ sm_model_name (metadata model) = Some model_name.
Proof.
  induction models as [|m rest IH]; simpl; [discriminate|].
  destruct (sm_model_name (metadata m)) as [name|] eqn:E; [|discriminate].
  destruct (String.eqb_spec name model_name) as [->|Hne].
  - intros H. injection H as <-. split; [left; reflexivity | exact E].
  - intros H. destruct (IH H) as [Hin Hn]. split; [right; exact Hin | exact Hn].
Qed.

(** The listed document carries a model name, and it is another one. *)
Definition named_otherwise (model_name : string) (m : model_entry) : Prop :=
  exists name, sm_model_name (metadata m) = Some name /\ name <> model_name.

Lemma first_named_nowhere (model_name : string) (models : list model_entry) :
  first_named model_name models = Returned None
  <-> Forall (named_otherwise model_name) models.
Proof.
  induction models as [|m rest IH]; simpl.
  - split; [constructor | reflexivity].
  - destruct (sm_model_name (metadata m)) as [name|] eqn:E.
    + destruct (String.eqb_spec name model_name) as [->|Hne].
      * split; [discriminate|]. intros H. inversion H as [|? ? (n & Hn & Hd) _]; subst.
        rewrite E in Hn. injection Hn as <-. congruence.
      * rewrite IH. split.
        -- intros H. constructor; [exists name; split; [exact E | exact Hne] | exact H].
        -- intros H. inversion H; subst. assumption.
    + split; [discriminate|]. intros H. inversion H as [|? ? (n & Hn & _) _]; subst.
      rewrite E in Hn. discriminate Hn.
Qed.

(** X29.  The delete endpoint lets its own HTTPException through.  It answers
    404 exactly when the listing of the owner is returned and every
    document in it carries a model name other than the one asked for,
    and then leaves the disk as it was.  (A document without a model
    name that is met before a match is a KeyError, and the answer is
    500.)  When it answers 200, the listing held a model of that name,
    of whatever task type, and neither the model file of the one it
    chose nor the path derived from it by replacing every ".joblib" with
    "_metadata.json" is on the disk any more. *)
Theorem delete_answers (user_id model_name : string) (d d' : Disk.disk fs)
    (a : answer string)
    (Hremoval : Disk.removal fs)
    (Hcall : delete_model user_id model_name d = (a, d')) :
  (status a = 404%nat
   <-> exists models,
         get_model_list (Disk.store_of fs d) model_dir user_id = Returned models
         /\ Forall (named_otherwise model_name) models)
  /\ (status a = 404%nat -> d' = d)
  /\ (status a = 200%nat ->
      exists models model,
        get_model_list (Disk.store_of fs d) model_dir user_id = Returned models
        /\ In model models
        /\ sm_model_name (metadata model) = Some model_name
        /\ Disk.os_path_exists fs d' (model_path model) = false
        /\ Disk.os_path_exists fs d'
             (replace ".joblib" "_metadata.json" (model_path model)) = false)
  /\ (status a = 200%nat \/ status a = 404%nat \/ status a = 500%nat).
Proof.
  revert Hcall. unfold delete_model.
  destruct (get_model_list (Disk.store_of fs d) model_dir user_id) as [models|e] eqn:Hl;
    cbn [call].
  - assert (Hnot : first_named model_name models <> Returned None ->
                   ~ exists models0,
                       Returned models = Returned models0
                       /\ Forall (named_otherwise model_name) models0).
    { intros Hf (models0 & E & Hall). injection E as <-.
      apply Hf. apply first_named_nowhere, Hall. }
    destruct (first_named model_name models) as [[model|]|e] eqn:Hf; cbn [call].
    + destruct (Disk.delete_model fs (model_path model) d) as [[[|]|e] d1] eqn:Hd;
        intros H; injection H as <- <-; simpl.
      * split; [split; [discriminate | intros H; exfalso; revert H; apply Hnot; discriminate]|].
        split; [discriminate|]. split; [|auto].
        intros _. destruct (first_named_found _ _ _ Hf) as [Hin Hn].
        destruct (Disk.delete_model_true fs (model_path model) d d1 Hd)
          as (d0 & E1 & E2).
        destruct (Disk.remove_if_there_returned fs _ _ _ Hremoval E1) as [H1 _].
        destruct (Disk.remove_if_there_returned fs _ _ _ Hremoval E2) as [H2 Hframe].
        exists models, model. split; [reflexivity|]. split; [exact Hin|].
        split; [exact Hn|]. split; [|exact H2].
        destruct (String.eqb_spec (model_path model)
                    (replace ".joblib" "_metadata.json" (model_path model)))
          as [Heq|Hne].
        -- rewrite Heq at 1. exact H2.
        -- rewrite (Hframe _ Hne). exact H1.
      * split; [split; [discriminate | intros H; exfalso; revert H; apply Hnot; discriminate]|].
        split; [discriminate|]. split; [discriminate | auto].
      * split; [split; [discriminate | intros H; exfalso; revert H; apply Hnot; discriminate]|].
        split; [discriminate|]. split; [discriminate | auto].
    + intros H. injection H as <- <-. simpl.
      split; [|split; [reflexivity | split; [discriminate | auto]]].
      split; [|reflexivity].
      intros _. exists models. split; [reflexivity | apply first_named_nowhere, Hf].
    + intros H. injection H as <- <-. simpl.
      split; [split; [discriminate | intros H; exfalso; revert H; apply Hnot; discriminate]|].
      split; [discriminate|]. split; [discriminate | auto].
  - intros H. injection H as <- <-. simpl.
    split; [split; [discriminate | intros (models0 & E & _); discriminate E]|].
    split; [discriminate|]. split; [discriminate | auto].
Qed.

End Deletion.

(** *** /train *)

Section TrainEndpoint.

Variable be : Training.Backend.
Variable model_dir : string.

(** The messages of the TypeError that Python raises when a key of
    [**request.training_config] names a parameter that the call passes
    already, and when the configuration is null. *)
Variable multiple_values : string -> string.
Variable not_a_mapping : string.

(** [f"{request.model_type}"]: how a member of the enum is formatted,
    which differs between versions of Python. *)
Variable format_model_type : ModelType -> string.

(** The rows that stand in for the database. *)
Definition lead_samples : DataFrame :=
  mkDataFrame 2
    [("email", ObjCol [OStr "user1@company.com"; OStr "user2@gmail.com"]);
     ("job_title", ObjCol [OStr "CEO"; OStr "Manager"]);
     ("company", ObjCol [OStr "Tech Corp Inc"; OStr "Small Business LLC"]);
     ("lead_score", NumCol [Some 85; Some 45]%Q);
     ("engagement_score", NumCol [Some 90; Some 30]%Q);
     ("email_interactions", NumCol [Some 5; Some 1]%Q);
     ("website_visits", NumCol [Some 12; Some 2]%Q);
     ("content_downloads", NumCol [Some 3; Some 0]%Q);
     ("created_at", ObjCol [OStr "2024-01-01T00:00:00Z"; OStr "2024-01-02T00:00:00Z"]);
     ("status", ObjCol [OStr "customer"; OStr "new"])].

Definition customer_samples : DataFrame :=
  mkDataFrame 1
    [("customer_id", ObjCol [OStr "cust1"]);
     ("total_orders", NumCol [Some 5]%Q);
     ("total_spent", NumCol [Some 2500]%Q);
     ("avg_order_value", NumCol [Some 500]%Q);
     ("first_purchase_date", ObjCol [OStr "2024-01-01T00:00:00Z"]);
     ("lifetime_value", NumCol [Some 2500]%Q)].

Definition _get_training_data (model_type : ModelType) (user_id : string) : DataFrame :=
  match model_type with
  | LEAD_CONVERSION => lead_samples
  | CUSTOMER_LIFETIME_VALUE => customer_samples
  end.

(** [df.empty] *)
Definition empty (df : DataFrame) : bool :=
  (index_len df =? 0)%nat || (length (columns df) =? 0)%nat.

(** [(df[target_col] == 'customer').astype(int)] *)
Definition is_customer (c : column) : column :=
  NumCol
    match c with
    | ObjCol vals =>
        map (fun cell => match cell with
                         | OStr s => if String.eqb s "customer" then Some 1%Q else Some 0%Q
                         | _ => Some 0%Q
                         end) vals
    | NumCol vals => map (fun _ => Some 0%Q) vals
    | OtherCol _ vals =>
        map (fun cell => match cell with
                         | Some s => if String.eqb s "customer" then Some 1%Q else Some 0%Q
                         | None => Some 0%Q
                         end) vals
    end.

Definition _prepare_training_data (df : DataFrame) (model_type : ModelType)
  : outcome (DataFrame * column) :=
  match model_type with
  | LEAD_CONVERSION =>
      match get_column "status" df with
      | None => Raised (Exn "KeyError" "'status'")
      | Some target => Returned (drop_column "status" df, is_customer target)
      end
  | CUSTOMER_LIFETIME_VALUE =>
      match get_column "lifetime_value" df with
      | None => Raised (Exn "KeyError" "'lifetime_value'")
      | Some target => Returned (drop_column "lifetime_value" df, target)
      end
  end.

(** The parameters that the call of [train_model] passes by keyword, and
    [self]. *)
Definition passed_already : list string :=
  ["self"; "model_type"; "algorithm"; "X"; "y"; "model_name"; "user_id"].

Definition error_of_training (r : Training.training_result) : string :=
  match r with
  | Training.TrainingFailed error => error
  | _ => "Training failed"
  end.

(** [training_config] is null or a dict, given by its keys: [train_model]
    takes them as [**kwargs] and reads none of them. *)
Definition train_model (model_type : ModelType) (algorithm : Algorithm)
    (model_name user_id : string) (training_config : option (list string))
  : answer Training.training_result :=
  except_exception
    (let training_data := _get_training_data model_type user_id in
     _ <- (if empty training_data
           then Threw (Http 400 ("No training data available for "
                                 ++ format_model_type model_type))
           else Done tt) ;;
     Xy <- call (_prepare_training_data training_data model_type) ;;
     result <- (match training_config with
                | None => Threw (Other (Exn "TypeError" not_a_mapping))
                | Some keys =>
                    match find (fun k => str_in k passed_already) keys with
                    | Some k => Threw (Other (Exn "TypeError" (multiple_values k)))
                    | None =>
                        call (Training.train_model be model_dir
                                (model_type_value model_type)
                                (algorithm_value algorithm) (fst Xy) (snd Xy)
                                model_name user_id)
                    end
                end) ;;
     if negb (Training.success result)
     then Threw (Http 500 (error_of_training result))
     else Done result).

(** X30.  /train answers 200 or 500 and nothing else; it trains on the same
    built-in rows for every owner.  The request model admits every
    algorithm for every task, the registry does not: for a pair that is
    not registered (linear_regression for lead conversion,
    logistic_regression for lifetime values) the ValueError of the
    trainer becomes a 500 whose detail is its message, whatever the
    backend. *)
Theorem train_answers_200_or_500 (model_type : ModelType) (algorithm : Algorithm)
    (model_name user_id : string) (training_config : option (list string)) :
  (status (train_model model_type algorithm model_name user_id training_config)
   = 200%nat
   \/ status (train_model model_type algorithm model_name user_id training_config)
      = 500%nat)
  /\ (Training.lookup_algorithm (model_type_value model_type) (algorithm_value algorithm)
      = None ->
      forall keys,
        training_config = Some keys ->
        find (fun k => str_in k passed_already) keys = None ->
        train_model model_type algorithm model_name user_id training_config
      = HttpError 500 ("Unknown algorithm " ++ algorithm_value algorithm
                       ++ " for model type " ++ model_type_value model_type))
  /\ (forall result,
        train_model model_type algorithm model_name user_id training_config = Ok result ->
        Training.train_model be model_dir (model_type_value model_type)
          (algorithm_value algorithm)
          (drop_column (match model_type with
                        | LEAD_CONVERSION => "status"
                        | CUSTOMER_LIFETIME_VALUE => "lifetime_value"
                        end) (_get_training_data model_type user_id))
          (match model_type with
           | LEAD_CONVERSION => NumCol [Some 1; Some 0]%Q
           | CUSTOMER_LIFETIME_VALUE => NumCol [Some 2500]%Q
           end)
          model_name user_id
        = Returned result).
Proof.
  unfold train_model.
  assert (Hprep : _prepare_training_data (_get_training_data model_type user_id) model_type
                  = Returned
                      (drop_column (match model_type with
                                    | LEAD_CONVERSION => "status"
                                    | CUSTOMER_LIFETIME_VALUE => "lifetime_value"
                                    end) (_get_training_data model_type user_id),
                       match model_type with
                       | LEAD_CONVERSION => NumCol [Some 1; Some 0]%Q
                       | CUSTOMER_LIFETIME_VALUE => NumCol [Some 2500]%Q
                       end))
    by (destruct model_type; reflexivity).
  assert (Hempty : empty (_get_training_data model_type user_id) = false)
    by (destruct model_type; reflexivity).
  rewrite Hempty, Hprep. cbn [and_then call fst snd].
  split; [|split].
  - destruct training_config as [keys|]; [|right; reflexivity].
    destruct (find (fun k => str_in k passed_already) keys); [right; reflexivity|].
    destruct (Training.train_model be model_dir _ _ _ _ _ _) as [[p md m|err]|e];
      simpl; auto.
  - intros Hnone keys -> Hcfg. rewrite Hcfg.
    unfold Training.train_model. unfold Training.lookup_algorithm in Hnone.
    destruct (dict_get (model_type_value model_type) Training.model_configs)
      as [algorithms|] eqn:Et; [|destruct model_type; discriminate Et].
    rewrite Hnone. reflexivity.
  - intros result. destruct training_config as [keys|]; [|discriminate].
    destruct (find (fun k => str_in k passed_already) keys); [discriminate|].
    destruct (Training.train_model be model_dir _ _ _ _ _ _) as [[p md m|err]|e];
      simpl; intros H; try discriminate H.
    injection H as <-. reflexivity.
Qed.

End TrainEndpoint.

End Endpoints.

(** *** The endpoints at work *)

(** The string form that Starlette gives its HTTPException. *)
Definition starlette_str (status_code : nat) (detail : string) : string :=
  NilZero.string_of_uint (Nat.to_uint status_code) ++ ": " ++ detail.

Lemma delete_answers_witness :
  exists models model,
    get_model_list (Disk.store_of Disk.memory Disk.after_save) "models" "u1"
    = Returned models
    /\ In model models
    /\ sm_model_name (metadata model) = Some "scorer"
    /\ Disk.os_path_exists Disk.memory [("models/u1", Disk.Folder)] (model_path model)
       = false
    /\ Disk.os_path_exists Disk.memory [("models/u1", Disk.Folder)]
         (replace ".joblib" "_metadata.json" (model_path model)) = false.
Proof.
  apply (proj1 (proj2 (proj2
           (delete_answers Disk.memory "models" "u1" "scorer" Disk.after_save
              [("models/u1", Disk.Folder)] (Ok "Model scorer deleted successfully")
              Disk.memory_removal eq_refl)))).
  reflexivity.
Defined.

Lemma train_answers_200_or_500_witness :
  train_model starlette_str Training.quiet_backend "models" (fun k => k)
    "not a mapping" model_type_value LEAD_CONVERSION
    LINEAR_REGRESSION "scorer" "u1" (Some [])
  = HttpError 500 "Unknown algorithm linear_regression for model type lead_conversion".
Proof.
  apply (proj1 (proj2 (train_answers_200_or_500 starlette_str Training.quiet_backend
                         "models" (fun k => k) "not a mapping" model_type_value
                         LEAD_CONVERSION LINEAR_REGRESSION
                         "scorer" "u1" (Some [])))
           eq_refl [] eq_refl eq_refl).
Defined.

(** A batch of lifetime values is refused, with status 500. *)
Example batch_of_lifetime_values :
  batch_predict starlette_str two_artifacts "models" canned CUSTOMER_LIFETIME_VALUE
    "u1" None [a_lead]
  = HttpError 500 "400: Batch prediction only supported for lead conversion".
Proof. reflexivity. Qed.

(** An owner without models: status 500, the message wrapped once more. *)
Example predict_without_model :
  predict starlette_str two_artifacts "models" canned LEAD_CONVERSION "u2" None a_lead
  = HttpError 500 "500: No trained model available for lead conversion".
Proof. reflexivity. Qed.

End Api.
